(** * Tax-advisor scheduler: the calendar tool functions of [functions.py]

    A shallow embedding of [parse_relative_date], [get_calendar_events],
    [create_calendar_event], [get_google_credentials] and
    [get_gmail_emails], and the properties of the specification that are
    stated about them.

    Conventions.
    - A Python [str] is a [string] whose characters are the code points
      0..255; [lower], [strip] and [int] are Python's on that range.
    - A naive [datetime] is its proleptic Gregorian ordinal
      ([date.toordinal()], 1 = 0001-01-01, 3652059 = 9999-12-31) together
      with its time-of-day fields, which is how CPython does arithmetic on
      it; year, month and day are recovered from the ordinal when a date is
      printed.
    - Code that can raise returns [res]: [Ok v] or [Raise e], where [e] is
      an instance of Exception. A coroutine can also be left by the
      asyncio.CancelledError thrown into it at an [await]; signals to the
      process (KeyboardInterrupt, SystemExit) are not modelled.
    - The clock, the credentials and the three remote services are a
      [World] of outcomes; the calls the code makes are recorded in a
      trace. Logging is not modelled. *)

From Stdlib Require Import ZArith Lia Ascii Bool.
From stdpp Require Import base strings gmap pretty.

Local Open Scope Z_scope.

(** ** Python strings *)

Module Str.

Definition code (c : ascii) : Z := Z.of_N (Ascii.N_of_ascii c).

Definition chr (n : Z) : ascii := Ascii.ascii_of_N (Z.to_N n).

(** [str.isspace] on one character: the white space of Unicode below
    U+0100. *)
Definition is_space (c : ascii) : bool :=
  let n := code c in
  ((9 <=? n) && (n <=? 13)) || ((28 <=? n) && (n <=? 32))
  || (n =? 133) || (n =? 160).

(** [str.lower] on one character: A-Z and the upper-case letters of
    Latin-1 (U+00C0..U+00DE without the multiplication sign). *)
Definition lower_char (c : ascii) : ascii :=
  let n := code c in
  if ((65 <=? n) && (n <=? 90))
     || ((192 <=? n) && (n <=? 222) && negb (n =? 215))
  then chr (n + 32) else c.

Fixpoint lower (s : string) : string :=
  match s with
  | EmptyString => EmptyString
  | String c s' => String (lower_char c) (lower s')
  end.

Fixpoint lstrip (s : string) : string :=
  match s with
  | EmptyString => EmptyString
  | String c s' => if is_space c then lstrip s' else s
  end.

Fixpoint rstrip (s : string) : string :=
  match s with
  | EmptyString => EmptyString
  | String c s' =>
      match rstrip s' with
      | EmptyString => if is_space c then EmptyString else String c EmptyString
      | r => String c r
      end
  end.

Definition strip (s : string) : string := rstrip (lstrip s).

(** [x in [a, b, ...]] for strings. *)
Definition mem (x : string) (l : list string) : bool :=
  existsb (String.eqb x) l.

(** [needle in haystack]. *)
Fixpoint contains (needle haystack : string) : bool :=
  String.prefix needle haystack
  || match haystack with
     | EmptyString => false
     | String _ h => contains needle h
     end.

(** [c in s] for one character. *)
Fixpoint has_char (c : ascii) (s : string) : bool :=
  match s with
  | EmptyString => false
  | String c' s' => Ascii.eqb c c' || has_char c s'
  end.

(** [s.endswith(suffix)]. *)
Fixpoint endswith (suffix s : string) : bool :=
  String.eqb suffix s
  || match s with
     | EmptyString => false
     | String _ s' => endswith suffix s'
     end.

End Str.

(** ** Exceptions *)

(** The exceptions the modelled code can meet, one constructor per place
    that raises; all of them are instances of class Exception. [External]
    is an instance of Exception that a remote call or the framework
    raised, with its text. *)
Inductive exn : Type :=
  | InvalidLiteral (s : string)      (* ValueError: invalid literal for int() *)
  | UnpackArity (got : nat)          (* ValueError: not enough / too many values to unpack *)
  | FieldOutOfRange (field : string) (* ValueError: hour must be in 0..23, ... *)
  | CIntOverflow                     (* OverflowError: argument of replace() does not fit a C int *)
  | DateOverflow                     (* OverflowError: date value out of range *)
  | TimedeltaOverflow                (* OverflowError: days must have magnitude <= 999999999 *)
  | AttributeError (attr : string)   (* AttributeError: object has no attribute ... *)
  | TypeError                        (* TypeError: int() argument must be a string or a number *)
  | External (text : string).

(** [isinstance(e, ValueError)]. *)
Definition is_ValueError (e : exn) : bool :=
  match e with
  | InvalidLiteral _ | UnpackArity _ | FieldOutOfRange _ => true
  | _ => false
  end.

(** How a computation ends: it returns, or it raises something of [E]. *)
Inductive res_of (E A : Type) : Type :=
  | Ok (a : A)
  | Raise (e : E).
Arguments Ok {E A} a.
Arguments Raise {E A} e.

(** What the synchronous code ends with: a value or an instance of
    Exception. *)
Abbreviation res := (res_of exn).

(** What can come out of an [await]. A coroutine whose task is cancelled
    while it waits is resumed with asyncio.CancelledError, which derives
    from BaseException and not from Exception: no [except Exception] and
    no [except ValueError] catches it. The GeneratorExit thrown into a
    coroutine that is closed takes the same way and is not told apart. *)
Inductive thrown : Type :=
  | Exc (e : exn)
  | CancelledError.

Definition res_bind {E A B} (r : res_of E A) (k : A -> res_of E B)
  : res_of E B :=
  match r with
  | Ok a => k a
  | Raise e => Raise e
  end.

Notation "'try!' x <- r ; k" := (res_bind r (fun x => k))
  (at level 10, x pattern, r at level 100, k at level 200).

(** ** Naive datetimes *)

Definition MAXORDINAL : Z := 3652059.       (* date.max.toordinal() *)
Definition US_PER_DAY : Z := 86400000000.

Record datetime : Type := mk_datetime
  { ordinal : Z; hour : Z; minute : Z; second : Z; microsecond : Z }.

Definition valid_time (d : datetime) : Prop :=
  0 <= hour d < 24 /\ 0 <= minute d < 60
  /\ 0 <= second d < 60 /\ 0 <= microsecond d < 1000000.

Definition valid_datetime (d : datetime) : Prop :=
  1 <= ordinal d <= MAXORDINAL /\ valid_time d.

(** A [timedelta], as its length in microseconds. *)
Definition timedelta : Type := Z.

Definition td_days (n : Z) : timedelta := n * US_PER_DAY.
Definition td_weeks (n : Z) : timedelta := td_days (7 * n).
Definition td_minutes (n : Z) : timedelta := n * 60000000.

(** Microseconds since the midnight that starts the day. *)
Definition time_us (d : datetime) : Z :=
  ((hour d * 60 + minute d) * 60 + second d) * 1000000 + microsecond d.

(** Microseconds since the midnight that starts ordinal 0. *)
Definition to_us (d : datetime) : Z := ordinal d * US_PER_DAY + time_us d.

(** [d + td]: the sum is split into days and time of day again, and a day
    outside 1..MAXORDINAL raises OverflowError. *)
Definition dt_add (d : datetime) (td : timedelta) : res datetime :=
  let t := to_us d + td in
  let day := t / US_PER_DAY in
  let us := t mod US_PER_DAY in
  if (0 <? day) && (day <=? MAXORDINAL) then
    Ok (mk_datetime day (us / 3600000000) (us / 60000000 mod 60)
          (us / 1000000 mod 60) (us mod 1000000))
  else Raise DateOverflow.

(** [d - td] is [d + (-td)]. *)
Definition dt_sub (d : datetime) (td : timedelta) : res datetime :=
  dt_add d (- td).

(** [d.weekday()]: Monday is 0. *)
Definition weekday (d : datetime) : Z := (ordinal d + 6) mod 7.

(** [d.replace(hour=0, minute=0, second=0, microsecond=0)]. *)
Definition replace_midnight (d : datetime) : datetime :=
  mk_datetime (ordinal d) 0 0 0 0.

(** [a < b] and [b - a] for naive datetimes. *)
Definition dt_lt (a b : datetime) : Prop := to_us a < to_us b.
Definition dt_diff (b a : datetime) : timedelta := to_us b - to_us a.

(** ** parse_relative_date *)

(** The body shared by the seven weekday branches, for the branch of the
    weekday with index [target]. *)
Definition days_ahead (target : Z) (now : datetime) : Z :=
  let days_ahead := target - weekday now in
  if days_ahead <=? 0 then days_ahead + 7 else days_ahead.

Definition next_weekday (target : Z) (now : datetime) : res datetime :=
  dt_add now (td_days (days_ahead target now)).

(** [now] is the value of [datetime.now()] read on entry. *)
Definition parse_relative_date (now : datetime) (date_description : string)
  : res (datetime * datetime) :=
  let date_lower := Str.strip (Str.lower date_description) in
  try! target_date <-
    (if Str.mem date_lower ["today"; "now"] then Ok now
     else if String.eqb date_lower "tomorrow" then dt_add now (td_days 1)
     else if String.eqb date_lower "yesterday" then dt_sub now (td_days 1)
     else if Str.mem date_lower ["next week"; "nextweek"] then dt_add now (td_weeks 1)
     else if Str.mem date_lower ["next monday"; "monday"] then next_weekday 0 now
     else if Str.mem date_lower ["next tuesday"; "tuesday"] then next_weekday 1 now
     else if Str.mem date_lower ["next wednesday"; "wednesday"] then next_weekday 2 now
     else if Str.mem date_lower ["next thursday"; "thursday"] then next_weekday 3 now
     else if Str.mem date_lower ["next friday"; "friday"] then next_weekday 4 now
     else if Str.mem date_lower ["next saturday"; "saturday"] then next_weekday 5 now
     else if Str.mem date_lower ["next sunday"; "sunday"] then next_weekday 6 now
     else Ok now);
  let day_start := replace_midnight target_date in
  try! day_end <- dt_add day_start (td_days 1);
  Ok (day_start, day_end).

(** ** Python values and the built-ins applied to them *)

(** The values a tool-call argument can take (JSON scalars, without
    floating point). *)
Inductive pyval : Type :=
  | VNone
  | VBool (b : bool)
  | VInt (n : Z)
  | VStr (s : string).

(** [bool(v)], as in [if v:]. *)
Definition truthy (v : pyval) : bool :=
  match v with
  | VNone => false
  | VBool b => b
  | VInt n => negb (n =? 0)
  | VStr s => negb (String.eqb s "")
  end.

(** [str(v)], as in [f"{v}"]. *)
Definition py_str (v : pyval) : string :=
  match v with
  | VNone => "None"
  | VBool true => "True"
  | VBool false => "False"
  | VInt n => pretty n
  | VStr s => s
  end.

(** The receiver of a [str] method: any other value has no such
    attribute. *)
Definition str_method (attr : string) (v : pyval) : res string :=
  match v with
  | VStr s => Ok s
  | _ => Raise (AttributeError attr)
  end.

Module PyInt.

(** White space that [int()] skips around a literal. *)
Definition is_space (c : ascii) : bool :=
  let n := Str.code c in
  ((9 <=? n) && (n <=? 13)) || (n =? 32) || (n =? 133) || (n =? 160).

Definition is_digit (c : ascii) : bool :=
  let n := Str.code c in (48 <=? n) && (n <=? 57).

Fixpoint lstrip (s : string) : string :=
  match s with
  | EmptyString => EmptyString
  | String c s' => if is_space c then lstrip s' else s
  end.

Fixpoint rstrip (s : string) : string :=
  match s with
  | EmptyString => EmptyString
  | String c s' =>
      match rstrip s' with
      | EmptyString => if is_space c then EmptyString else String c EmptyString
      | r => String c r
      end
  end.

(** Decimal digits, single underscores allowed between two digits.
    [after_digit] says that the previous character was a digit. *)
Fixpoint digits (s : string) (acc : Z) (after_digit : bool) : option Z :=
  match s with
  | EmptyString => if after_digit then Some acc else None
  | String c s' =>
      if is_digit c then digits s' (10 * acc + (Str.code c - 48)) true
      else if Ascii.eqb c "_" then
        (if after_digit then digits s' acc false else None)
      else None
  end.

Definition literal (s : string) : option Z :=
  match rstrip (lstrip s) with
  | String "+" s' => digits s' 0 false
  | String "-" s' => Z.opp <$> digits s' 0 false
  | s' => digits s' 0 false
  end.

(** [int(s)] for a string. The interpreter's optional limit on the
    length of a literal is not modelled. *)
Definition of_string (s : string) : res Z :=
  match literal s with
  | Some n => Ok n
  | None => Raise (InvalidLiteral s)
  end.

(** [int(v)]. *)
Definition of_val (v : pyval) : res Z :=
  match v with
  | VInt n => Ok n
  | VBool b => Ok (if b then 1 else 0)
  | VStr s => of_string s
  | VNone => Raise TypeError
  end.

End PyInt.

(** [s.split(sep)] for a one-character separator. *)
Fixpoint split (sep : ascii) (s : string) : list string :=
  match s with
  | EmptyString => [EmptyString]
  | String c s' =>
      let r := split sep s' in
      if Ascii.eqb c sep then EmptyString :: r
      else match r with
           | h :: t => String c h :: t
           | [] => [String c EmptyString]
           end
  end.

(** [hour, minute = map(int, parts)]: [map] is lazy, so the items are
    converted one at a time while the assignment asks for them, and it asks
    for a third one to find out whether there are too many. *)
Definition unpack_hour_minute (parts : list string) : res (Z * Z) :=
  match parts with
  | [] => Raise (UnpackArity 0)
  | a :: rest =>
      try! hour <- PyInt.of_string a;
      match rest with
      | [] => Raise (UnpackArity 1)
      | b :: rest' =>
          try! minute <- PyInt.of_string b;
          match rest' with
          | [] => Ok (hour, minute)
          | c :: _ => try! _ <- PyInt.of_string c; Raise (UnpackArity 3)
          end
      end
  end.

(** ** More of datetime: replace, timedelta(minutes=), strftime *)

Definition fits_c_int (n : Z) : bool := (-2147483648 <=? n) && (n <=? 2147483647).

(** [d.replace(hour=h, minute=m)]: CPython converts both arguments to C
    [int] first (OverflowError), then checks the ranges (ValueError). *)
Definition replace_hour_minute (d : datetime) (h m : Z) : res datetime :=
  if negb (fits_c_int h && fits_c_int m) then Raise CIntOverflow
  else if negb ((0 <=? h) && (h <? 24)) then Raise (FieldOutOfRange "hour")
  else if negb ((0 <=? m) && (m <? 60)) then Raise (FieldOutOfRange "minute")
  else Ok (mk_datetime (ordinal d) h m (second d) (microsecond d)).

(** [timedelta(minutes=n)]: more than 999999999 days either way is an
    OverflowError. *)
Definition timedelta_minutes (n : Z) : res timedelta :=
  let days := n / 1440 in
  if (-999999999 <=? days) && (days <=? 999999999) then Ok (td_minutes n)
  else Raise TimedeltaOverflow.

Module Cal.

Definition DI400Y : Z := 146097.
Definition DI100Y : Z := 36524.
Definition DI4Y : Z := 1461.

Definition DAYS_IN_MONTH (month : Z) : Z :=
  nth (Z.to_nat month) [-1; 31; 28; 31; 30; 31; 30; 31; 31; 30; 31; 30; 31] 0.

Definition DAYS_BEFORE_MONTH (month : Z) : Z :=
  nth (Z.to_nat month)
      [-1; 0; 31; 59; 90; 120; 151; 181; 212; 243; 273; 304; 334] 0.

(** [_ord2ymd(n)] of the standard library: ordinal to (year, month,
    day). *)
Definition ord2ymd (n : Z) : Z * Z * Z :=
  let n := n - 1 in
  let n400 := n / DI400Y in let n := n mod DI400Y in
  let year := n400 * 400 + 1 in
  let n100 := n / DI100Y in let n := n mod DI100Y in
  let n4 := n / DI4Y in let n := n mod DI4Y in
  let n1 := n / 365 in let n := n mod 365 in
  let year := year + n100 * 100 + n4 * 4 + n1 in
  if (n1 =? 4) || (n100 =? 4) then (year - 1, 12, 31)
  else
    let leapyear := (n1 =? 3) && (negb (n4 =? 24) || (n100 =? 3)) in
    let month := Z.shiftr (n + 50) 5 in
    let preceding :=
      DAYS_BEFORE_MONTH month + (if (2 <? month) && leapyear then 1 else 0) in
    if n <? preceding then
      let month := month - 1 in
      let preceding :=
        preceding
        - (DAYS_IN_MONTH month + (if (month =? 2) && leapyear then 1 else 0)) in
      (year, month, n - preceding + 1)
    else (year, month, n - preceding + 1).

Definition year (d : datetime) : Z := (ord2ymd (ordinal d)).1.1.
Definition month (d : datetime) : Z := (ord2ymd (ordinal d)).1.2.
Definition day (d : datetime) : Z := (ord2ymd (ordinal d)).2.

Definition day_name (wd : Z) : string :=
  nth (Z.to_nat wd)
      ["Monday"; "Tuesday"; "Wednesday"; "Thursday"; "Friday"; "Saturday";
       "Sunday"] "".

Definition month_name (m : Z) : string :=
  nth (Z.to_nat m)
      [""; "January"; "February"; "March"; "April"; "May"; "June"; "July";
       "August"; "September"; "October"; "November"; "December"] "".

(** A number on two digits, as %d, %m, %H, %I, %M and %S print it. *)
Definition two_digits (n : Z) : string :=
  if (0 <=? n) && (n <? 10) then "0" +:+ pretty n else pretty n.

(** [strftime('%I:%M %p')] in the C locale. *)
Definition clock_12h (d : datetime) : string :=
  let h12 := if hour d mod 12 =? 0 then 12 else hour d mod 12 in
  two_digits h12 +:+ ":" +:+ two_digits (minute d) +:+ " "
  +:+ (if hour d <? 12 then "AM" else "PM").

(** [strftime('%A, %B %d')] in the C locale. *)
Definition long_date (d : datetime) : string :=
  day_name (weekday d) +:+ ", " +:+ month_name (month d) +:+ " "
  +:+ two_digits (day d).

(** [strftime('%Y-%m-%dT%H:%M:%S')]; %Y as the GNU C library prints it,
    without padding. *)
Definition iso_seconds (d : datetime) : string :=
  pretty (year d) +:+ "-" +:+ two_digits (month d) +:+ "-"
  +:+ two_digits (day d) +:+ "T" +:+ two_digits (hour d) +:+ ":"
  +:+ two_digits (minute d) +:+ ":" +:+ two_digits (second d).

End Cal.

(** ** The world outside, and the calls made to it *)

(** A raw calendar entry as the calendar service returns it. [raw_start]
    and [raw_end] are the objects under 'start' and 'end': a timed entry
    has 'dateTime' and 'timeZone' there, an all-day entry has 'date'. *)
Record raw_event : Type := mk_raw_event
  { raw_summary : option string;
    raw_start : option (gmap string string);
    raw_end : option (gmap string string) }.

(** An item of [filtered_events]. *)
Record listed_event : Type := mk_listed_event
  { summary : string; start_time : string; end_time : string }.

(** The body given to [events().insert]. *)
Record time_ref : Type := mk_time_ref { dateTime : string; timeZone : string }.

Record event_body : Type := mk_event_body
  { ev_summary : pyval; ev_description : pyval;
    ev_start : time_ref; ev_end : time_ref }.

Inductive call : Type :=
  | PushFrame (text : string)         (* params.llm.push_frame(TTSSpeakFrame(text)) *)
  | GetCredentials                    (* get_google_credentials() *)
  | Build (service : string)          (* build(service, ..., credentials=creds) *)
  | CalendarList (time_min time_max : string) (max_results : Z)
  | CalendarInsert (body : event_body)
  | GmailSend (raw_message : string)
  | ResultCallback (text : string).   (* params.result_callback(text) *)

Record World : Type := mk_World
  { (** [datetime.now()] *)
    now : datetime;
    (** [datetime.now().astimezone().utcoffset().total_seconds()], a whole
        number of seconds *)
    utcoffset : Z;
    (** [d.astimezone(timezone.utc).isoformat().replace('+00:00', 'Z')] *)
    utc_iso : datetime -> res string;
    (** [datetime.fromisoformat(s.replace('Z', '+00:00')).astimezone()
        .strftime("%I:%M %p")] *)
    local_12h : string -> res string;
    (** the MIME message to the address, serialised and base64-encoded *)
    encode_message : pyval -> res string;
    (** [str(e)] *)
    exn_text : exn -> string;
    (** what each call to the outside answers *)
    push_frame : string -> res_of thrown unit;
    get_google_credentials : res unit;
    build : string -> res unit;
    events_list : res (list raw_event);
    events_insert : event_body -> res unit;
    messages_send : string -> res unit;
    result_callback : string -> res_of thrown unit }.

(** A computation that appends the calls it makes to the trace and then
    returns or raises. *)
Definition M (A : Type) : Type := list call -> list call * res_of thrown A.

Definition ret {A} (a : A) : M A := fun t => (t, Ok a).

Definition bind {A B} (m : M A) (k : A -> M B) : M B :=
  fun t => match m t with
           | (t', Ok a) => k a t'
           | (t', Raise e) => (t', Raise e)
           end.

(** What synchronous code ends with, seen from the coroutine. *)
Definition sync {A} (r : res A) : res_of thrown A :=
  match r with
  | Ok a => Ok a
  | Raise e => Raise (Exc e)
  end.

Definition lift {A} (r : res A) : M A := fun t => (t, sync r).

(** A synchronous call to the outside. *)
Definition perform {A} (c : call) (answer : res A) : M A :=
  fun t => (t ++ [c], sync answer).

(** [await] of a call to the outside: the call is made, and the coroutine
    is resumed with its answer or with what was thrown into it. *)
Definition await {A} (c : call) (answer : res_of thrown A) : M A :=
  fun t => (t ++ [c], answer).

(** [try: body / except <catches>: handler], for a class [catches] below
    Exception. *)
Definition try_except {A} (body : M A) (catches : exn -> bool)
    (handler : exn -> M A) : M A :=
  fun t => match body t with
           | (t', Raise (Exc e)) =>
               if catches e then handler e t' else (t', Raise (Exc e))
           | r => r
           end.

Notation "'do!' x <- m ; k" := (bind m (fun x => k))
  (at level 10, x pattern, m at level 100, k at level 200).

(** [isinstance(e, Exception)]: every [exn] is one. What is not,
    [CancelledError], is no [exn] and goes through every handler. *)
Definition Exception (e : exn) : bool := true.

(** ** get_calendar_events *)

Definition truthy_str (o : option string) : bool :=
  match o with
  | Some s => negb (String.eqb s "")
  | None => false
  end.

(** The loop over [events], with [filtered_events] as accumulator. *)
Fixpoint filter_loop (w : World) (events : list raw_event)
    (filtered_events : list listed_event) : res (list listed_event) :=
  match events with
  | [] => Ok filtered_events
  | event :: rest =>
      let start_time_str := default ∅ (raw_start event) !! "dateTime" in
      let end_time_str := default ∅ (raw_end event) !! "dateTime" in
      let summary := default "Untitled Event" (raw_summary event) in
      if truthy_str start_time_str && truthy_str end_time_str then
        try! start_time <- local_12h w (default "" start_time_str);
        try! end_time <- local_12h w (default "" end_time_str);
        filter_loop w rest
          (filtered_events ++ [mk_listed_event summary start_time end_time])
      else filter_loop w rest filtered_events
  end.

Module Json.

Definition quote : string := String (Str.chr 34) EmptyString.
Definition newline : string := String (Str.chr 10) EmptyString.

Definition hex_digit (n : Z) : ascii :=
  if n <? 10 then Str.chr (48 + n) else Str.chr (87 + n).

(** One character of a string, as [json.dumps] writes it with
    [ensure_ascii]. *)
Definition escape_char (c : ascii) : string :=
  let n := Str.code c in
  if n =? 34 then "\" +:+ quote
  else if n =? 92 then "\\"
  else if n =? 10 then "\n"
  else if n =? 13 then "\r"
  else if n =? 9 then "\t"
  else if n =? 8 then "\b"
  else if n =? 12 then "\f"
  else if (32 <=? n) && (n <=? 126) then String c EmptyString
  else "\u00" +:+ String (hex_digit (n / 16))
                    (String (hex_digit (n mod 16)) EmptyString).

Fixpoint escape (s : string) : string :=
  match s with
  | EmptyString => EmptyString
  | String c s' => escape_char c +:+ escape s'
  end.

Definition str (s : string) : string := quote +:+ escape s +:+ quote.

Definition member (key value : string) : string :=
  "    " +:+ str key +:+ ": " +:+ str value.

Definition object (e : listed_event) : string :=
  "  {" +:+ newline
  +:+ member "summary" (summary e) +:+ "," +:+ newline
  +:+ member "start_time" (start_time e) +:+ "," +:+ newline
  +:+ member "end_time" (end_time e) +:+ newline
  +:+ "  }".

Fixpoint items (l : list listed_event) : string :=
  match l with
  | [] => EmptyString
  | [e] => object e
  | e :: l' => object e +:+ "," +:+ newline +:+ items l'
  end.

(** [json.dumps(filtered_events, indent=2)]. *)
Definition dumps (l : list listed_event) : string :=
  match l with
  | [] => "[]"
  | _ => "[" +:+ newline +:+ items l +:+ newline +:+ "]"
  end.

End Json.

Definition get_calendar_events (w : World) (arguments : gmap string pyval)
  : M string :=
  try_except
    (let date_description :=
       default (VStr "today") (arguments !! "date_description") in
     do! _ <- await
       (PushFrame ("Let me check the advisor's availability for "
                   +:+ py_str date_description))
       (push_frame w ("Let me check the advisor's availability for "
                      +:+ py_str date_description));
     do! (day_start, day_end) <- lift
       (try! s <- str_method "lower" date_description;
        parse_relative_date (now w) s);
     do! time_min <- lift (utc_iso w day_start);
     do! time_max <- lift (utc_iso w day_end);
     do! _ <- perform GetCredentials (get_google_credentials w);
     do! _ <- perform (Build "calendar") (build w "calendar");
     do! events <- perform (CalendarList time_min time_max 50) (events_list w);
     do! filtered_events <- lift (filter_loop w events []);
     let result := Json.dumps filtered_events in
     do! _ <- await (ResultCallback result) (result_callback w result);
     ret result)
    Exception
    (fun e =>
       let error_result :=
         "Error retrieving calendar events: " +:+ exn_text w e in
       do! _ <- await (ResultCallback error_result)
                      (result_callback w error_result);
       ret error_result).

(** ** create_calendar_event *)

(** The label built from the local UTC offset (a whole number of
    seconds): [int(total_seconds / 3600)] rounds toward zero, and the sign
    is the reverse of the offset's. *)
Definition local_tz_str (utcoffset_seconds : Z) : string :=
  let offset_hours := Z.quot utcoffset_seconds 3600 in
  if 0 <=? offset_hours then "Etc/GMT-" +:+ pretty offset_hours
  else "Etc/GMT+" +:+ pretty (Z.abs offset_hours).

Definition invalid_time_format (start_time : pyval) : string :=
  "Invalid time format: " +:+ py_str start_time
  +:+ ". Please use HH:MM format (e.g., '14:00')".

(** The inner [try] around the start time. [inl] is the message with which
    the [except ValueError] branch returns from the function; [inr] is
    (event_start, event_end). *)
Definition parse_start_time (w : World) (day_start : datetime)
    (start_time : pyval) (duration_minutes : Z)
  : M (string + datetime * datetime) :=
  try_except
    (do! s <- lift (str_method "split" start_time);
     do! (hour, minute) <- lift (unpack_hour_minute (split ":" s));
     do! event_start <- lift (replace_hour_minute day_start hour minute);
     do! delta <- lift (timedelta_minutes duration_minutes);
     do! event_end <- lift (dt_add event_start delta);
     ret (inr (event_start, event_end)))
    is_ValueError
    (fun _ =>
       let error_msg := invalid_time_format start_time in
       do! _ <- await (ResultCallback error_msg) (result_callback w error_msg);
       ret (inl error_msg)).

(** The block under [if customer_email:]; the value is [email_sent]. The
    text of the message is not modelled, only that it is built from the
    address and sent. *)
Definition send_confirmation (w : World) (customer_email : pyval) : M bool :=
  if truthy customer_email then
    try_except
      (do! _ <- perform (Build "gmail") (build w "gmail");
       do! raw_message <- lift (encode_message w customer_email);
       do! _ <- perform (GmailSend raw_message) (messages_send w raw_message);
       ret true)
      Exception
      (fun _ => ret false)
  else ret false.

Definition success_message (title : pyval) (event_start event_end : datetime)
  : string :=
  "Event created successfully: '" +:+ py_str title +:+ "' on "
  +:+ Cal.long_date event_start +:+ " from " +:+ Cal.clock_12h event_start
  +:+ " to " +:+ Cal.clock_12h event_end.

(** From the time zone label to the final [return]: what follows the
    inner [try] when the start time was accepted. *)
Definition submit_event (w : World) (title description customer_email : pyval)
    (event_start event_end : datetime) : M string :=
  let local_tz_str := local_tz_str (utcoffset w) in
  let start_rfc3339 := Cal.iso_seconds event_start in
  let end_rfc3339 := Cal.iso_seconds event_end in
  do! _ <- perform GetCredentials (get_google_credentials w);
  do! _ <- perform (Build "calendar") (build w "calendar");
  let event :=
    mk_event_body title description
      (mk_time_ref start_rfc3339 local_tz_str)
      (mk_time_ref end_rfc3339 local_tz_str) in
  do! _ <- perform (CalendarInsert event) (events_insert w event);
  do! email_sent <- send_confirmation w customer_email;
  let result := success_message title event_start event_end in
  let result :=
    if email_sent
    then result +:+ ". Confirmation email sent to " +:+ py_str customer_email
    else result in
  do! _ <- await (ResultCallback result) (result_callback w result);
  ret result.

(** The [except Exception] branch that closes the function. *)
Definition report_error (w : World) (e : exn) : M string :=
  let error_result := "Error creating calendar event: " +:+ exn_text w e in
  do! _ <- await (ResultCallback error_result)
                 (result_callback w error_result);
  ret error_result.

Definition create_calendar_event (w : World) (arguments : gmap string pyval)
  : M string :=
  try_except
    (let title := default (VStr "Untitled Event") (arguments !! "title") in
     let date_description :=
       default (VStr "today") (arguments !! "date_description") in
     let start_time := default (VStr "09:00") (arguments !! "start_time") in
     do! duration_minutes <- lift
       (PyInt.of_val (default (VInt 60) (arguments !! "duration_minutes")));
     let description := default (VStr "") (arguments !! "description") in
     let customer_email :=
       default (VStr "") (arguments !! "customer_email") in
     do! _ <- await
       (PushFrame ("Booking your appointment for " +:+ py_str date_description))
       (push_frame w ("Booking your appointment for "
                      +:+ py_str date_description));
     do! (day_start, _) <- lift
       (try! s <- str_method "lower" date_description;
        parse_relative_date (now w) s);
     do! parsed <- parse_start_time w day_start start_time duration_minutes;
     match parsed with
     | inl error_msg => ret error_msg
     | inr (event_start, event_end) =>
         submit_event w title description customer_email event_start event_end
     end)
    Exception
    (report_error w).

(** A call on a fresh trace. *)
Definition run {A} (m : M A) : list call * res_of thrown A := m [].

(** ** Vocabulary of the properties *)

Inductive Weekday : Type :=
  | Monday | Tuesday | Wednesday | Thursday | Friday | Saturday | Sunday.

(** The index [date.weekday()] gives the day. *)
Definition weekday_index (W : Weekday) : Z :=
  match W with
  | Monday => 0 | Tuesday => 1 | Wednesday => 2 | Thursday => 3
  | Friday => 4 | Saturday => 5 | Sunday => 6
  end.

(** The token that names the day. *)
Definition weekday_token (W : Weekday) : string :=
  match W with
  | Monday => "monday" | Tuesday => "tuesday" | Wednesday => "wednesday"
  | Thursday => "thursday" | Friday => "friday" | Saturday => "saturday"
  | Sunday => "sunday"
  end.

(** Every literal a branch of [parse_relative_date] compares with. *)
Definition recognized_tokens : list string :=
  ["today"; "now"; "tomorrow"; "yesterday"; "next week"; "nextweek";
   "next monday"; "monday"; "next tuesday"; "tuesday";
   "next wednesday"; "wednesday"; "next thursday"; "thursday";
   "next friday"; "friday"; "next saturday"; "saturday";
   "next sunday"; "sunday"].

(** The recognized tokens in the words of the specification (section
    4.1), to compare with the literals of the code above: "today"/"now",
    "tomorrow", "yesterday", "next week", and each weekday name,
    optionally prefixed with "next ". *)
Definition spec_recognized_tokens : list string :=
  ["today"; "now"; "tomorrow"; "yesterday"; "next week"]
  ++ flat_map (fun W => [weekday_token W; "next " +:+ weekday_token W])
       [Monday; Tuesday; Wednesday; Thursday; Friday; Saturday; Sunday].

(** The day with ordinal [o], from its midnight to the next. *)
Definition day_window (o : Z) : datetime * datetime :=
  (mk_datetime o 0 0 0 0, mk_datetime (o + 1) 0 0 0 0).

Definition midnight (d : datetime) : Prop :=
  hour d = 0 /\ minute d = 0 /\ second d = 0 /\ microsecond d = 0.

Definition HOURS_24 : timedelta := 24 * 3600 * 1000000.

(** The argument types that the tool definition of [create_calendar_event]
    in [bot.py] declares. *)
Inductive json_type : Type := TString | TInteger.

Definition create_event_properties : list (string * json_type) :=
  [("title", TString); ("date_description", TString); ("start_time", TString);
   ("duration_minutes", TInteger); ("description", TString);
   ("customer_email", TString)].

Definition has_type (v : pyval) (t : json_type) : bool :=
  match t, v with
  | TString, VStr _ => true
  | TInteger, VInt _ => true
  | _, _ => false
  end.

(** Every argument that is present has its declared type. *)
Definition conforms (properties : list (string * json_type))
    (arguments : gmap string pyval) : Prop :=
  Forall (fun '(key, t) =>
            forall v, arguments !! key = Some v -> has_type v t = true)
         properties.

(** The last two statements of [parse_relative_date], from the target
    date on. *)
Definition window_of (target_date : res datetime) : res (datetime * datetime) :=
  try! target_date <- target_date;
  let day_start := replace_midnight target_date in
  try! day_end <- dt_add day_start (td_days 1);
  Ok (day_start, day_end).

(** The time of day of one end of a raw entry: what
    [event.get(key, {}).get('dateTime')] finds. *)
Definition time_of_day (o : option (gmap string string)) : option string :=
  default ∅ o !! "dateTime".

(** The entry has a start and an end time of day. *)
Definition timed (event : raw_event) : bool :=
  match time_of_day (raw_start event), time_of_day (raw_end event) with
  | Some _, Some _ => true
  | _, _ => false
  end.

(** The calendar service's contract for 'dateTime': a timestamp, so not
    the empty string, and one that the conversion to local time accepts. *)
Definition timestamp_ok (w : World) (s : string) : Prop :=
  s <> "" /\ exists t, local_12h w s = Ok t.

Definition entry_ok (w : World) (event : raw_event) : Prop :=
  forall s,
    time_of_day (raw_start event) = Some s \/ time_of_day (raw_end event) = Some s ->
    timestamp_ok w s.

(** [listed] is the rendering of the raw entry: its summary (or the
    default one) and the 12-hour local times of its start and end. *)
Definition renders (w : World) (event : raw_event) (listed : listed_event)
  : Prop :=
  summary listed = default "Untitled Event" (raw_summary event)
  /\ (exists s, time_of_day (raw_start event) = Some s
               /\ local_12h w s = Ok (start_time listed))
  /\ (exists s, time_of_day (raw_end event) = Some s
               /\ local_12h w s = Ok (end_time listed)).

(** A start time is malformed when it does not have two fields around
    one colon or when a field is not an integer literal. *)
Definition non_numeric (field : string) : Prop := PyInt.literal field = None.

Definition malformed (start_time : string) : Prop :=
  length (split ":" start_time) <> 2%nat
  \/ Exists non_numeric (split ":" start_time).

(** Calls that reach the credentials, the calendar or the mail service,
    as opposed to the two channels back to the conversation. *)
Definition reaches_services (c : call) : bool :=
  match c with
  | PushFrame _ | ResultCallback _ => false
  | _ => true
  end.

(** The conversation takes every spoken frame and every result. *)
Definition conversation_up (w : World) : Prop :=
  (forall text, push_frame w text = Ok tt)
  /\ (forall text, result_callback w text = Ok tt).

(** The clock reads a datetime around which Python can represent the day
    before and the eight days after. *)
Definition clock_in_range (w : World) : Prop :=
  valid_datetime (now w) /\ 1 < ordinal (now w)
  /\ ordinal (now w) + 7 < MAXORDINAL.

(** Every call that [m] makes satisfies [P]. *)
Definition emits {A} (P : call -> Prop) (m : M A) : Prop :=
  forall t, exists calls, (m t).1 = t ++ calls /\ Forall P calls.

(** The entry handed to the calendar carries the label [tz] at both
    ends. *)
Definition labelled (tz : string) (c : call) : Prop :=
  forall body, c = CalendarInsert body ->
    timeZone (ev_start body) = tz /\ timeZone (ev_end body) = tz.

(** The first two statements of the inner [try], on a string. *)
Definition start_time_outcome (day_start : datetime) (start_time : string)
  : res datetime :=
  try! (hour, minute) <- unpack_hour_minute (split ":" start_time);
  replace_hour_minute day_start hour minute.

(** The start time makes those statements raise a ValueError, whatever
    the day. *)
Definition rejected (start_time : string) : Prop :=
  forall day_start, exists e,
    start_time_outcome day_start start_time = Raise e /\ is_ValueError e = true.

Definition quiet (c : call) : Prop := reaches_services c = false.

(** The words whose presence in the result tells that the confirmation
    was sent. *)
Definition confirmation_marker : string := "Confirmation email sent".

(** The block under [if customer_email:] was entered and went through:
    there is an address, the mail service was built, the message was
    encoded and the send returned. *)
Definition email_delivered (w : World) (customer_email : pyval) : bool :=
  truthy customer_email
  && match build w "gmail", encode_message w customer_email with
     | Ok _, Ok raw_message =>
         match messages_send w raw_message with
         | Ok _ => true
         | Raise _ => false
         end
     | _, _ => false
     end.

(** What a booking needs from the world up to the submission: the
    conversation is up, the clock reads a datetime from which the day
    before, the eight days after and the end of an appointment of
    [duration_minutes] can be represented, and the credentials and the
    calendar client are there. *)
Definition booking_environment (w : World) (duration_minutes : Z) : Prop :=
  conversation_up w
  /\ valid_datetime (now w) /\ 1 < ordinal (now w)
  /\ ordinal (now w) + 8 + duration_minutes / 1440 < MAXORDINAL
  /\ get_google_credentials w = Ok tt /\ build w "calendar" = Ok tt.

(** The entry that a booking submits. *)
Definition submitted_event (w : World) (arguments : gmap string pyval)
    (event_start event_end : datetime) : event_body :=
  mk_event_body
    (default (VStr "Untitled Event") (arguments !! "title"))
    (default (VStr "") (arguments !! "description"))
    (mk_time_ref (Cal.iso_seconds event_start) (local_tz_str (utcoffset w)))
    (mk_time_ref (Cal.iso_seconds event_end) (local_tz_str (utcoffset w))).

(** Two raw entries: a timed one and an all-day one. *)
Definition timed_entry : raw_event :=
  mk_raw_event (Some "Tax consultation")
    (Some {[ "dateTime" := "2026-11-03T09:00:00+05:30" ]})
    (Some {[ "dateTime" := "2026-11-03T10:00:00+05:30" ]}).

Definition all_day_entry : raw_event :=
  mk_raw_event (Some "Office closed")
    (Some {[ "date" := "2026-11-03" ]})
    (Some {[ "date" := "2026-11-04" ]}).

(** A world for examples: Tuesday 2026-11-03, 15:30:12.000007, at UTC+5:30,
    where everything answers, the mail service with [mail] and the
    calendar, when asked for its entries, with [events]. *)
Definition sample_now : datetime := mk_datetime 739923 15 30 12 7.

Definition make_world (mail : res unit) (events : list raw_event) : World :=
  {| now := sample_now;
     utcoffset := 19800;
     utc_iso := fun d => Ok (Cal.iso_seconds d +:+ "Z");
     local_12h := fun s =>
       if String.eqb s "" then Raise (InvalidLiteral s) else Ok "09:00 AM";
     encode_message := fun v => str_method "encode" v;
     exn_text := fun e =>
       match e with
       | External text => text
       | _ => "error"
       end;
     push_frame := fun _ => Ok tt;
     get_google_credentials := Ok tt;
     build := fun _ => Ok tt;
     events_list := Ok events;
     events_insert := fun _ => Ok tt;
     messages_send := fun _ => mail;
     result_callback := fun _ => Ok tt |}.

Definition sample_world (mail : res unit) : World := make_world mail [].

Definition listing_world : World :=
  make_world (Ok tt) [all_day_entry; timed_entry; all_day_entry].

(** A booking on a Sunday at three in the morning, and the same with an
    address to confirm to. *)
Definition weekend_night_arguments : gmap string pyval :=
  <["title" := VStr "Appointment with Jane"]>
    (<["date_description" := VStr "sunday"]>
       (<["start_time" := VStr "03:00"]> ∅)).

Definition confirmed_arguments (title : string) : gmap string pyval :=
  <["title" := VStr title]>
    (<["date_description" := VStr "friday"]>
       (<["start_time" := VStr "14:00"]>
          (<["duration_minutes" := VInt 30]>
             (<["customer_email" := VStr "x@example.com"]> ∅)))).

(** ** Vocabulary of the further properties *)

(** A string that is empty or begins with something else than white
    space. *)
Definition no_leading_space (s : string) : Prop :=
  match s with
  | EmptyString => True
  | String c _ => Str.is_space c = false
  end.








(** Calls to the mail service. *)
Definition mail_call (c : call) : bool :=
  match c with
  | Build service => String.eqb service "gmail"
  | GmailSend _ => true
  | _ => false
  end.

(** Calls that need the credentials: building a client and everything done
    with one. *)
Definition uses_credentials (c : call) : bool :=
  match c with
  | Build _ | CalendarList _ _ _ | CalendarInsert _ | GmailSend _ => true
  | _ => false
  end.

(** The test of the loop in [get_calendar_events]: both 'dateTime' values
    are there and are not empty. *)
Definition listable (event : raw_event) : bool :=
  truthy_str (time_of_day (raw_start event))
  && truthy_str (time_of_day (raw_end event)).

(** A sample world in which the client has hung up: the task is cancelled
    at the first [await]. *)
Definition hung_up_world : World :=
  {| now := sample_now;
     utcoffset := 19800;
     utc_iso := fun d => Ok (Cal.iso_seconds d +:+ "Z");
     local_12h := fun _ => Ok "09:00 AM";
     encode_message := fun v => str_method "encode" v;
     exn_text := fun e =>
       match e with
       | External text => text
       | _ => "error"
       end;
     push_frame := fun _ => Raise CancelledError;
     get_google_credentials := Ok tt;
     build := fun _ => Ok tt;
     events_list := Ok [];
     events_insert := fun _ => Ok tt;
     messages_send := fun _ => Ok tt;
     result_callback := fun _ => Ok tt |}.

(** Sample worlds in which the calendar refuses every entry, and in which
    the credentials cannot be had. *)
Definition refusing_world : World :=
  {| now := sample_now;
     utcoffset := 19800;
     utc_iso := fun d => Ok (Cal.iso_seconds d +:+ "Z");
     local_12h := fun _ => Ok "09:00 AM";
     encode_message := fun v => str_method "encode" v;
     exn_text := fun e =>
       match e with
       | External text => text
       | _ => "error"
       end;
     push_frame := fun _ => Ok tt;
     get_google_credentials := Ok tt;
     build := fun _ => Ok tt;
     events_list := Raise (External "quota exceeded");
     events_insert := fun _ => Raise (External "quota exceeded");
     messages_send := fun _ => Ok tt;
     result_callback := fun _ => Ok tt |}.

Definition locked_out_world : World :=
  {| now := sample_now;
     utcoffset := 19800;
     utc_iso := fun d => Ok (Cal.iso_seconds d +:+ "Z");
     local_12h := fun _ => Ok "09:00 AM";
     encode_message := fun v => str_method "encode" v;
     exn_text := fun e =>
       match e with
       | External text => text
       | _ => "error"
       end;
     push_frame := fun _ => Ok tt;
     get_google_credentials := Raise (External "credentials.json not found");
     build := fun _ => Ok tt;
     events_list := Ok [];
     events_insert := fun _ => Ok tt;
     messages_send := fun _ => Ok tt;
     result_callback := fun _ => Ok tt |}.

(** Both time-of-day values of the entry can be converted to local
    12-hour strings. *)
Definition convertible (w : World) (event : raw_event) : Prop :=
  exists a b,
    local_12h w (default "" (time_of_day (raw_start event))) = Ok a
    /\ local_12h w (default "" (time_of_day (raw_end event))) = Ok b.

(** The conversion of the entry raises [e]: at its start, or at its end
    after the start went through. *)
Definition conversion_raises (w : World) (event : raw_event) (e : exn) : Prop :=
  local_12h w (default "" (time_of_day (raw_start event))) = Raise e
  \/ ((exists a, local_12h w (default "" (time_of_day (raw_start event))) = Ok a)
      /\ local_12h w (default "" (time_of_day (raw_end event))) = Raise e).

(** An entry whose start is a timestamp that cannot be read, and a world
    that lists it between two good ones. *)
Definition garbled_entry : raw_event :=
  mk_raw_event (Some "Lunch") (Some {[ "dateTime" := "noon" ]})
    (Some {[ "dateTime" := "2026-11-03T13:00:00+05:30" ]}).

Definition garbled_world : World :=
  {| now := sample_now;
     utcoffset := 19800;
     utc_iso := fun d => Ok (Cal.iso_seconds d +:+ "Z");
     local_12h := fun s =>
       if String.eqb s "noon" then Raise (InvalidLiteral s) else Ok "09:00 AM";
     encode_message := fun v => str_method "encode" v;
     exn_text := fun e =>
       match e with
       | InvalidLiteral s => "Invalid isoformat string: " +:+ s
       | External text => text
       | _ => "error"
       end;
     push_frame := fun _ => Ok tt;
     get_google_credentials := Ok tt;
     build := fun _ => Ok tt;
     events_list := Ok [timed_entry; garbled_entry; timed_entry];
     events_insert := fun _ => Ok tt;
     messages_send := fun _ => Ok tt;
     result_callback := fun _ => Ok tt |}.

(** An entry whose start cannot be read either, but that has no end time:
    it is skipped before anything is converted. *)
Definition garbled_entry_free : raw_event :=
  mk_raw_event (Some "Lunch") (Some {[ "dateTime" := "noon" ]})
    (Some {[ "date" := "2026-11-03" ]}).

(** ** get_google_credentials *)

Module Auth.

(** What the function reads of a [Credentials] object. *)
Record credentials : Type := mk_credentials
  { valid : bool; expired : bool; refresh_token : option string;
    to_json : string }.

(** The function raises FileNotFoundError itself; anything else comes from
    the libraries it calls. *)
Inductive failure : Type :=
  | FileNotFoundError (message : string)
  | Raised (e : exn).

Inductive result (A : Type) : Type :=
  | Done (a : A)
  | Failed (f : failure).
Arguments Done {A} a.
Arguments Failed {A} f.

(** What the function does to the outside, in order. *)
Inductive step : Type :=
  | Refresh                                 (* creds.refresh(Request()) *)
  | RunLocalServer                          (* flow.run_local_server(port=0) *)
  | WriteToken (path content : string).     (* open(path, 'w'), and what
                                               reached the file *)

(** The environment and the libraries. Files are a map from paths to
    contents, and the two loaders are given the content of the file they
    are pointed at. [open_for_writing] is the [open(path, 'w')]: where it
    returns, the file is there and is empty. After it, [creds.to_json()]
    can raise ([to_json_error]), and so can the write of the text or the
    flush on closing the file, after some number of characters has reached
    the file ([write_error]). *)
Record Host : Type := mk_Host
  { getenv : string -> option string;
    from_authorized_user_file : string -> res credentials;
    refresh : credentials -> res credentials;
    from_client_secrets_file : string -> res string;
    run_local_server : string -> res credentials;
    open_for_writing : string -> res unit;
    to_json_error : credentials -> option exn;
    write_error : string -> option (nat * exn) }.

Definition token_path (h : Host) : string :=
  default "token.json" (getenv h "GOOGLE_TOKEN_PATH").

Definition credentials_path (h : Host) : string :=
  default "credentials.json" (getenv h "GOOGLE_CREDENTIALS_PATH").

(** [bool(creds.refresh_token)]. *)
Definition has_refresh_token (c : credentials) : bool :=
  match refresh_token c with
  | Some s => negb (String.eqb s "")
  | None => false
  end.

Definition not_found_message (path : string) : string :=
  "Google credentials file not found at " +:+ path
  +:+ ". Please set GOOGLE_CREDENTIALS_PATH in your .env file or place credentials.json in the project root.".

(** What the [with open(token_path, 'w')] block leaves in the file once
    the file is open, and how the block ends: the text of [to_json], or
    nothing when [to_json] raises, or the part of the text that was written
    before the write failed. *)
Definition write_token (h : Host) (creds : credentials) : string * option exn :=
  match to_json_error h creds with
  | Some e => ("", Some e)
  | None =>
      match write_error h (to_json creds) with
      | Some (n, e) => (Stdlib.Strings.String.substring 0 n (to_json creds), Some e)
      | None => (to_json creds, None)
      end
  end.

(** The [with open(token_path, 'w')] block and the [return]. *)
Definition save (h : Host) (files : gmap string string) (steps : list step)
    (creds : credentials) : gmap string string * list step * result credentials :=
  match open_for_writing h (token_path h) with
  | Raise e => (files, steps, Failed (Raised e))
  | Ok _ =>
      let (content, error) := write_token h creds in
      (<[token_path h := content]> files,
       steps ++ [WriteToken (token_path h) content],
       match error with
       | Some e => Failed (Raised e)
       | None => Done creds
       end)
  end.

(** The [else] branch: the authorisation flow in the browser. *)
Definition authorise (h : Host) (files : gmap string string)
  : gmap string string * list step * result credentials :=
  match files !! credentials_path h with
  | None => (files, [], Failed (FileNotFoundError (not_found_message (credentials_path h))))
  | Some secrets =>
      match from_client_secrets_file h secrets with
      | Raise e => (files, [], Failed (Raised e))
      | Ok flow =>
          match run_local_server h flow with
          | Raise e => (files, [RunLocalServer], Failed (Raised e))
          | Ok creds => save h files [RunLocalServer] creds
          end
      end
  end.

Definition get_google_credentials (h : Host) (files : gmap string string)
  : gmap string string * list step * result credentials :=
  let loaded :=
    match files !! token_path h with
    | Some content =>
        try! creds <- from_authorized_user_file h content; Ok (Some creds)
    | None => Ok None
    end in
  match loaded with
  | Raise e => (files, [], Failed (Raised e))
  | Ok None => authorise h files
  | Ok (Some creds) =>
      if valid creds then (files, [], Done creds)
      else if expired creds && has_refresh_token creds then
        match refresh h creds with
        | Raise e => (files, [Refresh], Failed (Raised e))
        | Ok creds => save h files [Refresh] creds
        end
      else authorise h files
  end.

(** A host for examples: no variables set, a refresh that works, a browser
    flow that works, and loaders that read credentials back from the JSON
    that [to_json] wrote. *)
Definition fresh : credentials :=
  mk_credentials true false (Some "refresh-1") "fresh.json".

Definition stale : credentials :=
  mk_credentials false true (Some "refresh-1") "stale.json".

Definition sample_host : Host :=
  {| getenv := fun _ => None;
     from_authorized_user_file := fun content =>
       if String.eqb content "fresh.json" then Ok fresh
       else if String.eqb content "stale.json" then Ok stale
       else Raise (InvalidLiteral content);
     refresh := fun _ => Ok fresh;
     from_client_secrets_file := fun content => Ok content;
     run_local_server := fun _ => Ok fresh;
     open_for_writing := fun _ => Ok tt;
     to_json_error := fun _ => None;
     write_error := fun _ => None |}.

(** The same host with a full disk: the token file can be opened, and
    nothing can be written to it. *)
Definition full_disk_host : Host :=
  {| getenv := getenv sample_host;
     from_authorized_user_file := from_authorized_user_file sample_host;
     refresh := refresh sample_host;
     from_client_secrets_file := from_client_secrets_file sample_host;
     run_local_server := run_local_server sample_host;
     open_for_writing := fun _ => Ok tt;
     to_json_error := fun _ => None;
     write_error := fun _ => Some (0%nat, External "No space left on device") |}.

End Auth.

(** ** get_gmail_emails *)

Module Mail.

(** A message as [messages().get(..., format='metadata')] returns it:
    ['snippet'] and the list under ['payload']['headers'], each header a
    name and a value. *)
Record message : Type := mk_message
  { snippet : string; headers : list (string * string) }.

(** An item of [emails_list]. *)
Record email : Type := mk_email
  { email_snippet : string; email_subject : string; email_from : string }.

(** The mail service: the ids that [messages().list] answers with and the
    message behind an id. *)
Record Inbox : Type := mk_Inbox
  { messages_list : res (list string);
    messages_get : string -> res message }.

(** The calls of this tool: those it shares with the calendar tools, and
    the two it makes to the mailbox. *)
Inductive step : Type :=
  | Shared (c : call)
  | MessagesList (max_results : Z)
  | MessagesGet (id : string).

(** What the [except Exception] branch can catch here: the StopIteration
    of a [next] that finds nothing, or an exception from outside. *)
Inductive raised : Type :=
  | StopIteration
  | Other (e : exn).

(** How a statement inside the [try] stops it: with something the
    [except Exception] branch catches, or with the CancelledError thrown
    into an [await], which that branch does not catch. *)
Inductive stopped : Type :=
  | Caught (r : raised)
  | Cancelled.

(** [str(e)]; a StopIteration without arguments prints as nothing. *)
Definition text (w : World) (r : raised) : string :=
  match r with
  | StopIteration => ""
  | Other e => exn_text w e
  end.

(** [next(h['value'] for h in headers if h['name'] == name)]; [None] is
    StopIteration. *)
Definition first_header (name : string) (headers : list (string * string))
  : option string :=
  snd <$> List.find (fun h => String.eqb (fst h) name) headers.

(** The loop over [message_ids], with [emails_list] as accumulator. *)
Fixpoint fetch (inbox : Inbox) (message_ids : list string)
    (emails_list : list email) (t : list step)
  : list step * (raised + list email) :=
  match message_ids with
  | [] => (t, inr emails_list)
  | id :: rest =>
      let t := t ++ [MessagesGet id] in
      match messages_get inbox id with
      | Raise e => (t, inl (Other e))
      | Ok message =>
          match first_header "Subject" (headers message) with
          | None => (t, inl StopIteration)
          | Some subject =>
              match first_header "From" (headers message) with
              | None => (t, inl StopIteration)
              | Some sender =>
                  fetch inbox rest
                    (emails_list ++ [mk_email (snippet message) subject sender]) t
              end
          end
      end
  end.

Definition object (e : email) : string :=
  "  {" +:+ Json.newline
  +:+ Json.member "snippet" (email_snippet e) +:+ "," +:+ Json.newline
  +:+ Json.member "subject" (email_subject e) +:+ "," +:+ Json.newline
  +:+ Json.member "from" (email_from e) +:+ Json.newline
  +:+ "  }".

Fixpoint items (l : list email) : string :=
  match l with
  | [] => EmptyString
  | [e] => object e
  | e :: l' => object e +:+ "," +:+ Json.newline +:+ items l'
  end.

(** [json.dumps(emails_list, indent=2)]. *)
Definition dumps (l : list email) : string :=
  match l with
  | [] => "[]"
  | _ => "[" +:+ Json.newline +:+ items l +:+ Json.newline +:+ "]"
  end.

(** One synchronous call to the outside inside the [try]: it is recorded,
    and what it raises is caught. *)
Definition attempt {A} (c : step) (answer : res A) (t : list step)
  : list step * (stopped + A) :=
  (t ++ [c],
   match answer with Ok a => inr a | Raise e => inl (Caught (Other e)) end).

(** One [await] inside the [try]. *)
Definition await {A} (c : step) (answer : res_of thrown A) (t : list step)
  : list step * (stopped + A) :=
  (t ++ [c],
   match answer with
   | Ok a => inr a
   | Raise (Exc e) => inl (Caught (Other e))
   | Raise CancelledError => inl Cancelled
   end).

(** The body of the [try], up to and including [return result]. *)
Definition body (w : World) (inbox : Inbox) (t : list step)
  : list step * (stopped + string) :=
  match await (Shared (PushFrame "Let me check your inbox"))
          (push_frame w "Let me check your inbox") t with
  | (t, inl r) => (t, inl r)
  | (t, inr _) =>
  match attempt (Shared GetCredentials) (get_google_credentials w) t with
  | (t, inl r) => (t, inl r)
  | (t, inr _) =>
  match attempt (Shared (Build "gmail")) (build w "gmail") t with
  | (t, inl r) => (t, inl r)
  | (t, inr _) =>
  match attempt (MessagesList 2) (messages_list inbox) t with
  | (t, inl r) => (t, inl r)
  | (t, inr message_ids) =>
  match fetch inbox message_ids [] t with
  | (t, inl r) => (t, inl (Caught r))
  | (t, inr emails_list) =>
      let result := dumps emails_list in
      match await (Shared (ResultCallback result)) (result_callback w result) t with
      | (t, inl r) => (t, inl r)
      | (t, inr _) => (t, inr result)
      end
  end end end end end.

Definition get_gmail_emails (w : World) (inbox : Inbox) (t : list step)
  : list step * res_of thrown string :=
  match body w inbox t with
  | (t, inr result) => (t, Ok result)
  | (t, inl Cancelled) => (t, Raise CancelledError)
  | (t, inl (Caught r)) =>
      let error_result := "Error retrieving Gmail emails: " +:+ text w r in
      (t ++ [Shared (ResultCallback error_result)],
       match result_callback w error_result with
       | Ok _ => Ok error_result
       | Raise x => Raise x
       end)
  end.

(** The email that the loop makes of a message. *)
Definition rendered (m : message) (e : email) : Prop :=
  email_snippet e = snippet m
  /\ first_header "Subject" (headers m) = Some (email_subject e)
  /\ first_header "From" (headers m) = Some (email_from e).

(** The message behind the id has a Subject and a From header. *)
Definition complete (inbox : Inbox) (id : string) : Prop :=
  exists m subject sender,
    messages_get inbox id = Ok m
    /\ first_header "Subject" (headers m) = Some subject
    /\ first_header "From" (headers m) = Some sender.

(** The message behind the id lacks one of the two headers. *)
Definition headless (inbox : Inbox) (id : string) : Prop :=
  exists m,
    messages_get inbox id = Ok m
    /\ (first_header "Subject" (headers m) = None
        \/ first_header "From" (headers m) = None).

(** A mailbox for examples: a newsletter with two Subject headers, a note
    whose only subject header is spelled in lower case, and a receipt. *)
Definition sample_inbox : Inbox :=
  {| messages_list := Ok ["m1"; "m2"; "m3"];
     messages_get := fun id =>
       if String.eqb id "m1" then
         Ok (mk_message "This week in tax law"
               [("From", "news@example.com"); ("Subject", "Newsletter");
                ("Subject", "Second subject")])
       else if String.eqb id "m2" then
         Ok (mk_message "see attached"
               [("From", "jane@example.com"); ("subject", "note")])
       else if String.eqb id "m3" then
         Ok (mk_message "Your receipt"
               [("Subject", "Receipt"); ("From", "shop@example.com")])
       else Raise (External "Not Found") |}.

End Mail.



(** * Properties *)

(** ** Arithmetic on datetimes *)

Lemma time_us_range (d : datetime) :
  valid_time d -> 0 <= time_us d < US_PER_DAY.
Proof. unfold valid_time, time_us, US_PER_DAY. lia. Qed.

Lemma time_us_fields (d : datetime) :
  valid_time d ->
  time_us d / 3600000000 = hour d
  /\ time_us d / 60000000 mod 60 = minute d
  /\ time_us d / 1000000 mod 60 = second d
  /\ time_us d mod 1000000 = microsecond d.
Proof.
  unfold valid_time, time_us. intros H.
  repeat split; Z.div_mod_to_equations; lia.
Qed.

Lemma to_us_split (d : datetime) (k : Z) :
  valid_time d ->
  (to_us d + td_days k) / US_PER_DAY = ordinal d + k
  /\ (to_us d + td_days k) mod US_PER_DAY = time_us d.
Proof.
  intros H. pose proof (time_us_range d H) as Hr.
  unfold to_us, td_days, US_PER_DAY in *.
  split; Z.div_mod_to_equations; lia.
Qed.

(** Adding whole days moves the ordinal and leaves the time of day. *)
Lemma dt_add_days (d : datetime) (k : Z) :
  valid_time d ->
  dt_add d (td_days k) =
    if (0 <? ordinal d + k) && (ordinal d + k <=? MAXORDINAL)
    then Ok (mk_datetime (ordinal d + k) (hour d) (minute d) (second d)
               (microsecond d))
    else Raise DateOverflow.
Proof.
  intros H. unfold dt_add.
  destruct (to_us_split d k H) as [-> ->].
  destruct (time_us_fields d H) as (-> & -> & -> & ->). reflexivity.
Qed.

Lemma valid_time_midnight (d : datetime) : valid_time (replace_midnight d).
Proof. unfold valid_time. simpl. lia. Qed.

Lemma window_of_Ok (t : datetime) :
  window_of (Ok t) =
    if (0 <? ordinal t + 1) && (ordinal t + 1 <=? MAXORDINAL)
    then Ok (day_window (ordinal t)) else Raise DateOverflow.
Proof.
  unfold window_of. simpl.
  rewrite (dt_add_days _ 1 (valid_time_midnight t)). simpl.
  destruct ((0 <? ordinal t + 1) && (ordinal t + 1 <=? MAXORDINAL)); reflexivity.
Qed.

(** ** parse_relative_date *)

Lemma mem_recognized_false (x : string) :
  Str.mem x recognized_tokens = false ->
  Forall (fun t => String.eqb x t = false) recognized_tokens.
Proof.
  unfold Str.mem. intros H. apply Forall_forall. intros t Ht.
  destruct (String.eqb x t) eqn:E; [|reflexivity].
  assert (existsb (String.eqb x) recognized_tokens = true) as Hx.
  { apply existsb_exists. exists t. split; [|exact E].
    apply list_elem_of_In. exact Ht. }
  congruence.
Qed.

Lemma parse_weekday_token (W : Weekday) (now : datetime) :
  parse_relative_date now (weekday_token W)
  = window_of (next_weekday (weekday_index W) now).
Proof. destruct W; reflexivity. Qed.

Lemma parse_next_weekday_token (W : Weekday) (now : datetime) :
  parse_relative_date now ("next " +:+ weekday_token W)
  = window_of (next_weekday (weekday_index W) now).
Proof. destruct W; reflexivity. Qed.

Lemma parse_today (now : datetime) :
  parse_relative_date now "today" = window_of (Ok now).
Proof. reflexivity. Qed.

Lemma parse_unrecognized (now : datetime) (token : string) :
  Str.mem (Str.strip (Str.lower token)) recognized_tokens = false ->
  parse_relative_date now token = window_of (Ok now).
Proof.
  intros H. apply mem_recognized_false in H.
  unfold recognized_tokens in H.
  repeat match goal with
         | H : Forall _ (_ :: _) |- _ =>
             apply Forall_cons_1 in H; destruct H as [? H]
         end.
  unfold parse_relative_date, Str.mem, existsb.
  repeat match goal with
         | E : String.eqb _ _ = false |- _ => rewrite E; clear E
         end.
  reflexivity.
Qed.

Lemma weekday_range (now : datetime) : 0 <= weekday now < 7.
Proof. unfold weekday. apply Z.mod_pos_bound. lia. Qed.

Lemma weekday_index_range (W : Weekday) : 0 <= weekday_index W < 7.
Proof. destruct W; simpl; lia. Qed.

(** [days_ahead] is the least strictly positive offset that lands on the
    target weekday. *)
Lemma days_ahead_least (target : Z) (now : datetime) :
  0 <= target < 7 ->
  0 < days_ahead target now <= 7
  /\ (weekday now + days_ahead target now) mod 7 = target
  /\ (forall d, 0 < d -> (weekday now + d) mod 7 = target ->
      days_ahead target now <= d)
  /\ (weekday now = target -> days_ahead target now = 7).
Proof.
  intros Ht. pose proof (weekday_range now) as Hw. unfold days_ahead.
  destruct (Z.leb_spec (target - weekday now) 0).
  - repeat split; try lia.
    + replace (weekday now + (target - weekday now + 7)) with (target + 1 * 7) by lia.
      rewrite Z.mod_add by lia. apply Z.mod_small. lia.
    + intros d Hd Hm. Z.div_mod_to_equations. lia.
  - repeat split; try lia.
    + replace (weekday now + (target - weekday now)) with target by lia.
      apply Z.mod_small. lia.
    + intros d Hd Hm. Z.div_mod_to_equations. lia.
Qed.

Lemma next_weekday_window (target : Z) (now : datetime) :
  0 <= target < 7 -> valid_datetime now -> ordinal now + 7 < MAXORDINAL ->
  window_of (next_weekday target now)
  = Ok (day_window (ordinal now + days_ahead target now)).
Proof.
  intros Ht [Ho Hv] Hr.
  destruct (days_ahead_least target now Ht) as (Hd & _).
  unfold next_weekday. rewrite (dt_add_days _ _ Hv).
  destruct (Z.ltb_spec 0 (ordinal now + days_ahead target now)); [|lia].
  destruct (Z.leb_spec (ordinal now + days_ahead target now) MAXORDINAL); [|lia].
  simpl andb. cbv iota. rewrite window_of_Ok. simpl ordinal.
  destruct (Z.ltb_spec 0 (ordinal now + days_ahead target now + 1)); [|lia].
  destruct (Z.leb_spec (ordinal now + days_ahead target now + 1) MAXORDINAL); [|lia].
  reflexivity.
Qed.

(** C1. For a bare weekday token the resolved day is [now] moved by the
    least strictly positive offset [d] with
    [(now.weekday() + d) mod 7 = index of W]; when [now] is itself on
    weekday W that is the day 7 days ahead, and the window of the current
    day is never returned. [now] ranges over the datetimes whose next eight
    days Python can represent. *)
Theorem weekday_token_resolves_to_next_occurrence (W : Weekday) (now : datetime) :
  valid_datetime now -> ordinal now + 7 < MAXORDINAL ->
  exists d : Z,
    0 < d
    /\ (weekday now + d) mod 7 = weekday_index W
    /\ (forall d', 0 < d' -> (weekday now + d') mod 7 = weekday_index W -> d <= d')
    /\ parse_relative_date now (weekday_token W) = Ok (day_window (ordinal now + d))
    /\ (weekday now = weekday_index W ->
        parse_relative_date now (weekday_token W)
        = Ok (day_window (ordinal now + 7)))
    /\ parse_relative_date now (weekday_token W) <> Ok (day_window (ordinal now)).
Proof.
  intros Hv Hr. pose proof (weekday_index_range W) as Hi.
  destruct (days_ahead_least (weekday_index W) now Hi) as (Hd & Hm & Hl & H7).
  pose proof (next_weekday_window _ _ Hi Hv Hr) as Hw.
  exists (days_ahead (weekday_index W) now).
  rewrite parse_weekday_token, Hw.
  repeat split; try assumption; try lia.
  - intros E. rewrite (H7 E). reflexivity.
  - unfold day_window. intros E. inversion E. lia.
Qed.

Lemma weekday_token_resolves_to_next_occurrence_witness :
  exists d : Z,
    0 < d
    /\ (weekday (mk_datetime 739923 15 30 12 7) + d) mod 7 = weekday_index Tuesday
    /\ (forall d', 0 < d' ->
        (weekday (mk_datetime 739923 15 30 12 7) + d') mod 7 = weekday_index Tuesday ->
        d <= d')
    /\ parse_relative_date (mk_datetime 739923 15 30 12 7) (weekday_token Tuesday)
       = Ok (day_window (739923 + d))
    /\ (weekday (mk_datetime 739923 15 30 12 7) = weekday_index Tuesday ->
        parse_relative_date (mk_datetime 739923 15 30 12 7) (weekday_token Tuesday)
        = Ok (day_window (739923 + 7)))
    /\ parse_relative_date (mk_datetime 739923 15 30 12 7) (weekday_token Tuesday)
       <> Ok (day_window 739923).
Proof.
  apply (weekday_token_resolves_to_next_occurrence Tuesday
           (mk_datetime 739923 15 30 12 7)).
  - unfold valid_datetime, valid_time, MAXORDINAL. simpl. lia.
  - unfold MAXORDINAL. simpl. lia.
Defined.

(** C2. A weekday name with the prefix "next " and the bare name give the
    same result, for every weekday and every [now]; where Python can
    represent the next eight days, that result is one and the same
    window. *)
Theorem next_prefix_is_ignored (W : Weekday) (now : datetime) :
  parse_relative_date now ("next " +:+ weekday_token W)
  = parse_relative_date now (weekday_token W)
  /\ (valid_datetime now -> ordinal now + 7 < MAXORDINAL ->
      exists window,
        parse_relative_date now ("next " +:+ weekday_token W) = Ok window
        /\ parse_relative_date now (weekday_token W) = Ok window).
Proof.
  rewrite parse_next_weekday_token, parse_weekday_token.
  split; [reflexivity|]. intros Hv Hr.
  rewrite (next_weekday_window _ _ (weekday_index_range W) Hv Hr).
  eexists. split; reflexivity.
Qed.

(** Whatever the token, the target date is [now] or [now] moved by
    between -1 and 7 whole days. *)
Lemma parse_shape (now : datetime) (s : string) :
  parse_relative_date now s = window_of (Ok now)
  \/ exists k, -1 <= k <= 7
       /\ parse_relative_date now s = window_of (dt_add now (td_days k)).
Proof.
  unfold parse_relative_date.
  repeat (match goal with
          | |- context [if ?c then _ else _] =>
              lazymatch c with
              | true => fail
              | false => fail
              | _ => destruct c
              end
          end; cbv iota);
    try (left; reflexivity);
    try (right; exists 1; split; [lia | reflexivity]);
    try (right; exists (-1); split; [lia | reflexivity]);
    try (right; exists 7; split; [lia | reflexivity]);
    right;
    match goal with
    | |- context [next_weekday ?i now] =>
        exists (days_ahead i now);
        split; [pose proof (days_ahead_least i now); lia | reflexivity]
    end.
Qed.

Lemma window_of_inv (t : res datetime) (a b : datetime) :
  window_of t = Ok (a, b) ->
  exists d, t = Ok d /\ ordinal d < MAXORDINAL /\ (a, b) = day_window (ordinal d).
Proof.
  destruct t as [d|e]; [|discriminate]. rewrite window_of_Ok.
  destruct (Z.ltb_spec 0 (ordinal d + 1)); simpl; [|discriminate].
  destruct (Z.leb_spec (ordinal d + 1) MAXORDINAL); simpl; [|discriminate].
  intros E. exists d. inversion E. repeat split. lia.
Qed.

Lemma dt_add_days_inv (d t : datetime) (k : Z) :
  valid_time d -> dt_add d (td_days k) = Ok t ->
  ordinal t = ordinal d + k /\ 0 < ordinal t.
Proof.
  intros Hv. rewrite (dt_add_days _ _ Hv).
  destruct (Z.ltb_spec 0 (ordinal d + k)); simpl; [|discriminate].
  destruct (ordinal d + k <=? MAXORDINAL); [|discriminate].
  intros E. inversion E. simpl. lia.
Qed.

(** What a returned pair looks like: the window of a representable day. *)
Lemma parse_returns_day_window (now : datetime) (s : string) (a b : datetime) :
  valid_datetime now -> parse_relative_date now s = Ok (a, b) ->
  exists o, 1 <= o < MAXORDINAL /\ ordinal now - 1 <= o <= ordinal now + 7
            /\ (a, b) = day_window o.
Proof.
  intros [Ho Hv] E. destruct (parse_shape now s) as [Hs | (k & Hk & Hs)];
    rewrite Hs in E; apply window_of_inv in E; destruct E as (d & Ed & Hd & Ew).
  - inversion Ed; subst d. exists (ordinal now). repeat split; try lia. exact Ew.
  - apply (dt_add_days_inv _ _ _ Hv) in Ed. exists (ordinal d).
    repeat split; try lia. exact Ew.
Qed.

Lemma parse_returns (now : datetime) (s : string) :
  valid_datetime now -> 1 < ordinal now -> ordinal now + 7 < MAXORDINAL ->
  exists window, parse_relative_date now s = Ok window.
Proof.
  intros [Ho Hv] Hlo Hhi.
  destruct (parse_shape now s) as [Hs | (k & Hk & Hs)]; rewrite Hs.
  - rewrite window_of_Ok.
    destruct (Z.ltb_spec 0 (ordinal now + 1)); [|lia].
    destruct (Z.leb_spec (ordinal now + 1) MAXORDINAL); [|lia].
    eexists; reflexivity.
  - rewrite (dt_add_days _ _ Hv).
    destruct (Z.ltb_spec 0 (ordinal now + k)); [|lia].
    destruct (Z.leb_spec (ordinal now + k) MAXORDINAL); [|lia].
    simpl andb. cbv iota. rewrite window_of_Ok. simpl ordinal.
    destruct (Z.ltb_spec 0 (ordinal now + k + 1)); [|lia].
    destruct (Z.leb_spec (ordinal now + k + 1) MAXORDINAL); [|lia].
    eexists; reflexivity.
Qed.

(** C3. Every pair (start, end) that [parse_relative_date] returns has
    start < end and end - start = 24 hours exactly, and start is the
    midnight 00:00:00.000000 that begins the resolved day (end being the
    next midnight); and a pair is returned for every input string whenever
    [now] is not within the first day or the last eight days that Python
    can represent. *)
Theorem day_window_invariant (s : string) (now : datetime) :
  valid_datetime now ->
  (1 < ordinal now -> ordinal now + 7 < MAXORDINAL ->
   exists window, parse_relative_date now s = Ok window)
  /\ (forall day_start day_end,
        parse_relative_date now s = Ok (day_start, day_end) ->
        dt_lt day_start day_end
        /\ dt_diff day_end day_start = HOURS_24
        /\ midnight day_start
        /\ valid_datetime day_start /\ valid_datetime day_end
        /\ (day_start, day_end) = day_window (ordinal day_start)).
Proof.
  intros Hv. split; [apply parse_returns; exact Hv|].
  intros a b E.
  destruct (parse_returns_day_window now s a b Hv E) as (o & Ho & _ & Ew).
  inversion Ew; subst a b.
  unfold dt_lt, dt_diff, to_us, time_us, midnight, valid_datetime, valid_time,
    HOURS_24, US_PER_DAY, day_window. simpl.
  repeat split; try lia.
Qed.

Lemma day_window_invariant_witness :
  (1 < 739923 -> 739923 + 7 < MAXORDINAL ->
   exists window,
     parse_relative_date (mk_datetime 739923 15 30 12 7) "Tomorrow " = Ok window)
  /\ (forall day_start day_end,
        parse_relative_date (mk_datetime 739923 15 30 12 7) "Tomorrow "
        = Ok (day_start, day_end) ->
        dt_lt day_start day_end
        /\ dt_diff day_end day_start = HOURS_24
        /\ midnight day_start
        /\ valid_datetime day_start /\ valid_datetime day_end
        /\ (day_start, day_end) = day_window (ordinal day_start)).
Proof.
  apply (day_window_invariant "Tomorrow " (mk_datetime 739923 15 30 12 7)).
  unfold valid_datetime, valid_time, MAXORDINAL. simpl. lia.
Defined.

Lemma parse_next_week (now : datetime) :
  parse_relative_date now "next week" = window_of (dt_add now (td_days 7)).
Proof. reflexivity. Qed.

Lemma window_of_add (now : datetime) (k : Z) :
  valid_time now -> 0 < ordinal now + k -> ordinal now + k < MAXORDINAL ->
  window_of (dt_add now (td_days k)) = Ok (day_window (ordinal now + k)).
Proof.
  intros Hv Hlo Hhi. rewrite (dt_add_days _ _ Hv).
  destruct (Z.ltb_spec 0 (ordinal now + k)); [|lia].
  destruct (Z.leb_spec (ordinal now + k) MAXORDINAL); [|lia].
  simpl andb. cbv iota. rewrite window_of_Ok. simpl ordinal.
  destruct (Z.ltb_spec 0 (ordinal now + k + 1)); [|lia].
  destruct (Z.leb_spec (ordinal now + k + 1) MAXORDINAL); [|lia].
  reflexivity.
Qed.

Lemma spec_recognized_tokens_listed :
  spec_recognized_tokens
  = ["today"; "now"; "tomorrow"; "yesterday"; "next week";
     "monday"; "next monday"; "tuesday"; "next tuesday";
     "wednesday"; "next wednesday"; "thursday"; "next thursday";
     "friday"; "next friday"; "saturday"; "next saturday";
     "sunday"; "next sunday"].
Proof. reflexivity. Qed.

(** The literals of the function are the tokens that the specification
    lists and "nextweek". *)
Lemma recognized_beyond_the_spec (x : string) :
  Str.mem x recognized_tokens
  = Str.mem x spec_recognized_tokens || String.eqb x "nextweek".
Proof.
  assert (forall l, Str.mem x l = true <-> In x l) as Hmem.
  { intros l. unfold Str.mem. rewrite existsb_exists. split.
    - intros (t & Hin & He). apply String.eqb_eq in He. subst t. exact Hin.
    - intros Hin. exists x. split; [exact Hin|apply String.eqb_refl]. }
  apply Bool.eq_iff_eq_true.
  rewrite orb_true_iff, !Hmem, String.eqb_eq, spec_recognized_tokens_listed.
  unfold recognized_tokens. cbn [In].
  assert ("nextweek" = x <-> x = "nextweek") by (split; congruence). tauto.
Qed.

(** C6. The tokens that the specification lists are not all that the
    function recognizes: it also compares with "nextweek". A token that,
    lowercased and trimmed, is none of the listed ones and is not
    "nextweek" is treated exactly as "today": the two calls have the same
    outcome, and it is the window of the current day (no exception)
    whenever the day after [now] is one Python can represent. A token that
    comes to "nextweek" is treated as "next week": the window of the day
    seven days ahead. *)
Theorem unrecognized_token_means_today (token : string) (now : datetime) :
  Str.mem (Str.strip (Str.lower token)) spec_recognized_tokens = false ->
  (Str.strip (Str.lower token) <> "nextweek" ->
   parse_relative_date now token = parse_relative_date now "today"
   /\ (valid_datetime now -> ordinal now < MAXORDINAL ->
       parse_relative_date now token = Ok (day_window (ordinal now))))
  /\ (Str.strip (Str.lower token) = "nextweek" ->
      parse_relative_date now token = parse_relative_date now "next week"
      /\ (valid_datetime now -> ordinal now + 7 < MAXORDINAL ->
          parse_relative_date now token = Ok (day_window (ordinal now + 7)))).
Proof.
  intros H. split.
  - intros Hn.
    assert (Str.mem (Str.strip (Str.lower token)) recognized_tokens = false)
      as Hr.
    { rewrite recognized_beyond_the_spec, H. apply String.eqb_neq in Hn.
      rewrite Hn. reflexivity. }
    rewrite (parse_unrecognized now token Hr), parse_today.
    split; [reflexivity|]. intros [Ho Hv] Hhi. rewrite window_of_Ok.
    destruct (Z.ltb_spec 0 (ordinal now + 1)); [|lia].
    destruct (Z.leb_spec (ordinal now + 1) MAXORDINAL); [|lia].
    reflexivity.
  - intros Hn.
    assert (parse_relative_date now token = parse_relative_date now "next week")
      as E by (unfold parse_relative_date; rewrite Hn; reflexivity).
    split; [exact E|]. intros [Ho Hv] Hhi.
    rewrite E, parse_next_week. apply window_of_add; [exact Hv|lia|exact Hhi].
Qed.

Lemma unrecognized_token_means_today_witness :
  parse_relative_date (mk_datetime 739923 15 30 12 7) "blorp"
  = parse_relative_date (mk_datetime 739923 15 30 12 7) "today"
  /\ (valid_datetime (mk_datetime 739923 15 30 12 7) -> 739923 < MAXORDINAL ->
      parse_relative_date (mk_datetime 739923 15 30 12 7) "blorp"
      = Ok (day_window 739923)).
Proof.
  apply (unrecognized_token_means_today "blorp" (mk_datetime 739923 15 30 12 7)).
  - vm_compute. reflexivity.
  - vm_compute. discriminate.
Defined.

(** The statement of C6 with the tokens that the specification lists fails
    for "nextweek": it is none of them, and on Tuesday 2026-11-03 it
    resolves to Tuesday 2026-11-10, where "today" resolves to the day
    itself. *)
Lemma nextweek_is_not_treated_as_today :
  Str.mem (Str.strip (Str.lower "nextweek")) spec_recognized_tokens = false
  /\ parse_relative_date (mk_datetime 739923 15 30 12 7) "nextweek"
     = Ok (day_window 739930)
  /\ parse_relative_date (mk_datetime 739923 15 30 12 7) "today"
     = Ok (day_window 739923)
  /\ parse_relative_date (mk_datetime 739923 15 30 12 7) "nextweek"
     <> parse_relative_date (mk_datetime 739923 15 30 12 7) "today".
Proof. vm_compute. repeat split. discriminate. Qed.

(** ** get_calendar_events *)

Lemma truthy_str_ok (w : World) (s : string) :
  timestamp_ok w s -> truthy_str (Some s) = true.
Proof.
  intros [Hne _]. simpl. destruct (String.eqb_spec s ""); [contradiction|reflexivity].
Qed.

Lemma filter_loop_acc (w : World) (events : list raw_event) :
  Forall (entry_ok w) events ->
  forall acc, exists listed,
    filter_loop w events acc = Ok (acc ++ listed)
    /\ Forall2 (renders w) (List.filter timed events) listed.
Proof.
  induction 1 as [|event rest Hok _ IH]; intros acc.
  - exists []. simpl. rewrite app_nil_r. split; [reflexivity|constructor].
  - simpl. unfold timed, entry_ok, time_of_day in *.
    destruct (default ∅ (raw_start event) !! "dateTime") as [s|] eqn:Es;
      [destruct (default ∅ (raw_end event) !! "dateTime") as [e|] eqn:Ee|].
    + destruct (Hok s (or_introl eq_refl)) as [Hs [ts Hts]].
      destruct (Hok e (or_intror eq_refl)) as [He [te Hte]].
      rewrite (truthy_str_ok w s), (truthy_str_ok w e) by (split; eauto).
      simpl. rewrite Hts, Hte. simpl.
      destruct (IH (acc ++ [mk_listed_event
                              (default "Untitled Event" (raw_summary event)) ts te]))
        as (listed & El & Hl).
      exists (mk_listed_event (default "Untitled Event" (raw_summary event)) ts te
              :: listed).
      rewrite El, <- app_assoc. split; [reflexivity|].
      constructor; [|exact Hl].
      unfold renders, time_of_day. simpl. rewrite Es, Ee.
      split; [reflexivity|]. split; eexists; split; try reflexivity; assumption.
    + rewrite andb_false_r. apply IH.
    + simpl. apply IH.
Qed.

(** What [get_calendar_events] returns when the steps around the loop
    work: the JSON text of the list that the loop built. *)
Lemma get_calendar_events_returns (w : World) (arguments : gmap string pyval)
    (date : string) (events : list raw_event) (listed : list listed_event) :
  default (VStr "today") (arguments !! "date_description") = VStr date ->
  conversation_up w -> clock_in_range w ->
  (forall d, exists s, utc_iso w d = Ok s) ->
  get_google_credentials w = Ok tt -> build w "calendar" = Ok tt ->
  events_list w = Ok events -> filter_loop w events [] = Ok listed ->
  exists trace,
    run (get_calendar_events w arguments) = (trace, Ok (Json.dumps listed)).
Proof.
  intros Hdate [Hpush Hback] (Hv & Hlo & Hhi) Hiso Hcred Hbuild Hlist Hl.
  destruct (parse_returns (now w) date Hv Hlo Hhi) as [[day_start day_end] Hp].
  destruct (Hiso day_start) as [time_min Hmin].
  destruct (Hiso day_end) as [time_max Hmax].
  eexists.
  unfold run, get_calendar_events. rewrite Hdate.
  unfold try_except, bind, lift, perform, await, ret, str_method.
  cbv beta iota zeta. simpl res_bind.
  rewrite Hpush, Hp. cbn [sync]. cbv beta iota.
  rewrite Hmin, Hmax, Hcred, Hbuild, Hlist. cbn [sync]. cbv beta iota.
  rewrite Hl. cbn [sync]. cbv beta iota. rewrite Hback. reflexivity.
Qed.

(** C7. With entries as the calendar service sends them (a 'dateTime',
    where present, is a timestamp), the list built by the loop of
    [get_calendar_events] consists of the renderings of exactly the raw
    entries that have a 'dateTime' under both 'start' and 'end', in their
    input order: each with its summary and the 12-hour strings of its start
    and end. Every other entry, all-day entries included and however many,
    is left out. The function returns the JSON text of that list when the
    service answers with these entries and the steps around the loop
    work. *)
Theorem listing_keeps_exactly_the_timed_entries (w : World)
    (events : list raw_event) :
  Forall (entry_ok w) events ->
  exists listed,
    filter_loop w events [] = Ok listed
    /\ Forall2 (renders w) (List.filter timed events) listed
    /\ (forall event, In event events ->
         (In event (List.filter timed events)
          <-> is_Some (time_of_day (raw_start event))
              /\ is_Some (time_of_day (raw_end event))))
    /\ (forall arguments date,
         default (VStr "today") (arguments !! "date_description") = VStr date ->
         conversation_up w -> clock_in_range w ->
         (forall d, exists s, utc_iso w d = Ok s) ->
         get_google_credentials w = Ok tt -> build w "calendar" = Ok tt ->
         events_list w = Ok events ->
         exists trace,
           run (get_calendar_events w arguments)
           = (trace, Ok (Json.dumps listed))).
Proof.
  intros H. destruct (filter_loop_acc w events H []) as (listed & E & HF).
  exists listed. split; [exact E|]. split; [exact HF|]. split.
  - intros event Hev. rewrite filter_In. unfold timed. split.
    + intros [_ Ht].
      destruct (time_of_day (raw_start event)); [|discriminate].
      destruct (time_of_day (raw_end event)); [|discriminate]. eauto.
    + intros [[s Hs] [e He]]. split; [assumption|]. rewrite Hs, He. reflexivity.
  - intros arguments date Hdate Hup Hclock Hiso Hcred Hbuild Hlist.
    exact (get_calendar_events_returns w arguments date events listed Hdate Hup
             Hclock Hiso Hcred Hbuild Hlist E).
Qed.

(** ** Calls and traces *)

Section Emits.
Context {A B : Type} (P : call -> Prop).

Lemma emits_ret (a : A) : emits P (ret a).
Proof. intros t. exists []. simpl. rewrite app_nil_r. split; [reflexivity|constructor]. Qed.

Lemma emits_lift (r : res A) : emits P (lift r).
Proof. intros t. exists []. simpl. rewrite app_nil_r. split; [reflexivity|constructor]. Qed.

Lemma emits_perform (c : call) (r : res A) : P c -> emits P (perform c r).
Proof. intros H t. exists [c]. simpl. split; [reflexivity|]. repeat constructor. exact H. Qed.

Lemma emits_await (c : call) (r : res_of thrown A) : P c -> emits P (await c r).
Proof. intros H t. exists [c]. simpl. split; [reflexivity|]. repeat constructor. exact H. Qed.

Lemma emits_bind (m : M A) (k : A -> M B) :
  emits P m -> (forall a, emits P (k a)) -> emits P (bind m k).
Proof.
  intros Hm Hk t. unfold bind. destruct (Hm t) as (c1 & E1 & F1).
  destruct (m t) as [t1 [a|e]]; simpl in E1; subst t1.
  - destruct (Hk a (t ++ c1)) as (c2 & E2 & F2).
    exists (c1 ++ c2). rewrite E2, app_assoc. split; [reflexivity|].
    apply Forall_app. split; assumption.
  - exists c1. split; [reflexivity|assumption].
Qed.

Lemma emits_try (body : M A) (catches : exn -> bool) (handler : exn -> M A) :
  emits P body -> (forall e, emits P (handler e)) ->
  emits P (try_except body catches handler).
Proof.
  intros Hb Hh t. unfold try_except. destruct (Hb t) as (c1 & E1 & F1).
  destruct (body t) as [t1 [a|[e|]]]; simpl in E1; subst t1.
  - exists c1. split; [reflexivity|assumption].
  - destruct (catches e).
    + destruct (Hh e (t ++ c1)) as (c2 & E2 & F2).
      exists (c1 ++ c2). rewrite E2, app_assoc. split; [reflexivity|].
      apply Forall_app. split; assumption.
    + exists c1. split; [reflexivity|assumption].
  - exists c1. split; [reflexivity|assumption].
Qed.

End Emits.

Ltac emits_step :=
  cbv zeta;
  lazymatch goal with
  | |- emits _ (ret _) => apply emits_ret
  | |- emits _ (lift _) => apply emits_lift
  | |- emits _ (perform _ _) => apply emits_perform
  | |- emits _ (await _ _) => apply emits_await
  | |- emits _ (bind _ _) => apply emits_bind; [|intros ?]
  | |- emits _ (try_except _ _ _) => apply emits_try; [|intros ?]
  | |- emits _ (match ?x with _ => _ end) => destruct x
  end.

Lemma emits_parse_start_time (P : call -> Prop) (w : World)
    (day_start : datetime) (start_time : pyval) (duration_minutes : Z) :
  (forall text, P (ResultCallback text)) ->
  emits P (parse_start_time w day_start start_time duration_minutes).
Proof. intros H. unfold parse_start_time. repeat emits_step. apply H. Qed.

Lemma emits_send_confirmation (P : call -> Prop) (w : World)
    (customer_email : pyval) :
  P (Build "gmail") -> (forall raw, P (GmailSend raw)) ->
  emits P (send_confirmation w customer_email).
Proof. intros H1 H2. unfold send_confirmation. repeat emits_step; auto. Qed.

Lemma emits_report_error (P : call -> Prop) (w : World) (e : exn) :
  (forall text, P (ResultCallback text)) -> emits P (report_error w e).
Proof. intros H. unfold report_error. repeat emits_step. apply H. Qed.

(** ** create_calendar_event: the time zone label *)

Lemma labelled_other (tz : string) (c : call) :
  (forall body, c <> CalendarInsert body) -> labelled tz c.
Proof. intros H body E. destruct (H body E). Qed.

Lemma emits_labelled (w : World) (arguments : gmap string pyval) :
  emits (labelled (local_tz_str (utcoffset w))) (create_calendar_event w arguments).
Proof.
  unfold create_calendar_event.
  repeat first
    [ progress emits_step
    | apply emits_parse_start_time; intros
    | progress unfold submit_event
    | apply emits_send_confirmation; intros
    | apply emits_report_error; intros
    | apply labelled_other; discriminate
    | intros body E; inversion E; simpl; split; reflexivity ].
Qed.

(** C9. The time zone handed to the calendar is a fixed label made from
    the local UTC offset cut to whole hours, with the sign reversed: for
    h >= 0 it is "Etc/GMT-h", for h < 0 it is "Etc/GMT+|h|", where h is the
    offset in hours rounded toward zero (so a fraction of an hour is
    dropped); and whatever entry [create_calendar_event] submits carries
    that label at its start and at its end. *)
Theorem time_zone_label_is_reversed_whole_hours (w : World)
    (arguments : gmap string pyval) :
  let h := Z.quot (utcoffset w) 3600 in
  (0 <= h -> local_tz_str (utcoffset w) = "Etc/GMT-" +:+ pretty h)
  /\ (h < 0 -> local_tz_str (utcoffset w) = "Etc/GMT+" +:+ pretty (Z.abs h))
  /\ Z.abs (3600 * h) <= Z.abs (utcoffset w) < Z.abs (3600 * h) + 3600
  /\ (0 <= utcoffset w -> 0 <= h) /\ (utcoffset w <= 0 -> h <= 0)
  /\ emits (labelled (local_tz_str (utcoffset w)))
           (create_calendar_event w arguments).
Proof.
  cbv zeta. unfold local_tz_str at 1 2.
  split; [|split; [|split; [|split; [|split]]]].
  - intros H. destruct (Z.leb_spec 0 (utcoffset w ÷ 3600)); [reflexivity|lia].
  - intros H. destruct (Z.leb_spec 0 (utcoffset w ÷ 3600)); [lia|reflexivity].
  - Z.quot_rem_to_equations. lia.
  - Z.quot_rem_to_equations. lia.
  - Z.quot_rem_to_equations. lia.
  - apply emits_labelled.
Qed.

(** ** create_calendar_event: the start time *)

Lemma try_bind_Ok {A B} (m : M A) (k : A -> M B) catches handler t t1 a :
  m t = (t1, Ok a) ->
  try_except (bind m k) catches handler t = try_except (k a) catches handler t1.
Proof. intros E. unfold try_except, bind. rewrite E. reflexivity. Qed.

Lemma bind_Ok {A B} (m : M A) (k : A -> M B) t t1 a :
  m t = (t1, Ok a) -> bind m k t = k a t1.
Proof. intros E. unfold bind. rewrite E. reflexivity. Qed.

Lemma bind_Raise {A B} (m : M A) (k : A -> M B) t t1 e :
  m t = (t1, Raise e) -> bind m k t = (t1, Raise e).
Proof. intros E. unfold bind. rewrite E. reflexivity. Qed.

(** A start time that is rejected sends the message about the format to
    the conversation and makes the function return it. *)
Lemma parse_start_time_rejects (w : World) (day_start : datetime)
    (s : string) (duration_minutes : Z) (t : list call) :
  rejected s ->
  parse_start_time w day_start (VStr s) duration_minutes t
  = (t ++ [ResultCallback (invalid_time_format (VStr s))],
     try! _ <- result_callback w (invalid_time_format (VStr s));
     Ok (inl (invalid_time_format (VStr s)))).
Proof.
  intros H. destruct (H day_start) as (e & He & Hv).
  unfold start_time_outcome in He.
  unfold parse_start_time, try_except, bind, lift, perform, await, ret,
    str_method.
  cbv beta iota zeta. cbn [sync].
  destruct (unpack_hour_minute (split ":" s)) as [[hour minute]|e'];
    simpl in He; cbn [sync]; cbv beta iota zeta.
  - rewrite He. cbn [sync]. cbv beta iota. rewrite Hv.
    destruct (result_callback w _); reflexivity.
  - inversion He; subst e'. rewrite Hv.
    destruct (result_callback w _); reflexivity.
Qed.

Lemma malformed_rejected (s : string) : malformed s -> rejected s.
Proof.
  intros H day_start. unfold start_time_outcome.
  assert (exists e, unpack_hour_minute (split ":" s) = Raise e
                    /\ is_ValueError e = true) as (e & He & Hv).
  { unfold malformed, non_numeric in H. unfold unpack_hour_minute, PyInt.of_string.
    destruct (split ":" s) as [|a [|b [|c rest]]].
    - eexists; split; reflexivity.
    - destruct (PyInt.literal a); eexists; split; reflexivity.
    - destruct H as [H|H]; [simpl in H; lia|].
      apply Exists_cons in H as [H|H]; [rewrite H; eexists; split; reflexivity|].
      apply Exists_cons in H as [H|H]; [|inversion H].
      rewrite H. destruct (PyInt.literal a); eexists; split; reflexivity.
    - destruct (PyInt.literal a); [|eexists; split; reflexivity].
      destruct (PyInt.literal b); [|eexists; split; reflexivity].
      destruct (PyInt.literal c); eexists; split; reflexivity. }
  exists e. rewrite He. split; [reflexivity|exact Hv].
Qed.

Lemma out_of_range_rejected (s : string) (hour minute : Z) :
  unpack_hour_minute (split ":" s) = Ok (hour, minute) ->
  fits_c_int hour = true -> fits_c_int minute = true ->
  ~ (0 <= hour < 24 /\ 0 <= minute < 60) ->
  rejected s.
Proof.
  intros Hu Hh Hm Hr day_start. unfold start_time_outcome. rewrite Hu. simpl.
  unfold replace_hour_minute. rewrite Hh, Hm. simpl.
  destruct (Z.leb_spec 0 hour), (Z.ltb_spec hour 24); simpl;
    try (eexists; split; reflexivity).
  destruct (Z.leb_spec 0 minute), (Z.ltb_spec minute 60); simpl;
    try (eexists; split; reflexivity).
  lia.
Qed.

Lemma conforms_lookup (arguments : gmap string pyval) (key : string)
    (t : json_type) (v : pyval) :
  conforms create_event_properties arguments ->
  In (key, t) create_event_properties ->
  arguments !! key = Some v -> has_type v t = true.
Proof.
  unfold conforms. rewrite Forall_forall. intros H Hin Hv.
  apply list_elem_of_In in Hin. exact (H _ Hin v Hv).
Qed.

Lemma conforms_duration (arguments : gmap string pyval) :
  conforms create_event_properties arguments ->
  exists n, default (VInt 60) (arguments !! "duration_minutes") = VInt n.
Proof.
  intros H. destruct (arguments !! "duration_minutes") as [v|] eqn:E; simpl.
  - assert (has_type v TInteger = true) as Ht.
    { apply (conforms_lookup arguments "duration_minutes" TInteger v H); [|exact E].
      simpl. tauto. }
    destruct v; try discriminate. eauto.
  - eauto.
Qed.

Lemma conforms_date (arguments : gmap string pyval) :
  conforms create_event_properties arguments ->
  exists s, default (VStr "today") (arguments !! "date_description") = VStr s.
Proof.
  intros H. destruct (arguments !! "date_description") as [v|] eqn:E; simpl.
  - assert (has_type v TString = true) as Ht.
    { apply (conforms_lookup arguments "date_description" TString v H); [|exact E].
      simpl. tauto. }
    destruct v; try discriminate. eauto.
  - eauto.
Qed.

Lemma emits_bind_ok {A B} (P : call -> Prop) (m : M A) (k : A -> M B) :
  emits P m -> (forall t t1 a, m t = (t1, Ok a) -> emits P (k a)) ->
  emits P (bind m k).
Proof.
  intros Hm Hk t. unfold bind. destruct (Hm t) as (c1 & E1 & F1).
  destruct (m t) as [t1 [a|e]] eqn:E; simpl in E1; subst t1.
  - destruct (Hk _ _ _ E (t ++ c1)) as (c2 & E2 & F2).
    exists (c1 ++ c2). rewrite E2, app_assoc. split; [reflexivity|].
    apply Forall_app. split; assumption.
  - exists c1. split; [reflexivity|assumption].
Qed.

(** With a rejected start time, no call of the function reaches the
    services, whatever the other arguments and the world are. *)
Lemma rejected_is_quiet (w : World) (arguments : gmap string pyval) (s : string) :
  arguments !! "start_time" = Some (VStr s) -> rejected s ->
  emits quiet (create_calendar_event w arguments).
Proof.
  intros Hs Hr. unfold create_calendar_event. rewrite Hs. simpl default.
  emits_step; [|apply emits_report_error; reflexivity].
  emits_step; [emits_step|]. emits_step; [emits_step; reflexivity|].
  emits_step; [emits_step|]. emits_step.
  apply emits_bind_ok; [apply emits_parse_start_time; reflexivity|].
  intros t t1 parsed E. rewrite (parse_start_time_rejects _ _ _ _ _ Hr) in E.
  destruct (result_callback w _); simpl in E; inversion E. apply emits_ret.
Qed.

(** With a rejected start time, conforming arguments, a conversation that
    is up and a clock in range, the function says that it is booking,
    reports the format message and returns it. *)
Lemma rejected_result (w : World) (arguments : gmap string pyval) (s : string) :
  arguments !! "start_time" = Some (VStr s) -> rejected s ->
  conforms create_event_properties arguments ->
  conversation_up w -> clock_in_range w ->
  exists spoken,
    run (create_calendar_event w arguments)
    = ([PushFrame spoken; ResultCallback (invalid_time_format (VStr s))],
       Ok (invalid_time_format (VStr s))).
Proof.
  intros Hs Hr Hc [Hpush Hback] (Hv & Hlo & Hhi).
  destruct (conforms_duration arguments Hc) as [n Hn].
  destruct (conforms_date arguments Hc) as [d Hd].
  destruct (parse_returns (now w) d Hv Hlo Hhi) as [[day_start day_end] Hp].
  eexists. unfold run, create_calendar_event.
  rewrite Hs, Hn, Hd. simpl default. simpl PyInt.of_val. simpl str_method.
  simpl res_bind. rewrite Hp, Hpush.
  unfold try_except, bind, lift, perform, await. cbn [sync]. simpl app.
  rewrite (parse_start_time_rejects _ _ _ _ _ Hr), Hback. reflexivity.
Qed.

(** ** Characters and substrings *)

Lemma append_cons (a : ascii) (x y : string) :
  String a x +:+ y = String a (x +:+ y).
Proof. reflexivity. Qed.

Lemma append_nil_l (y : string) : "" +:+ y = y.
Proof. reflexivity. Qed.

Lemma append_nil_r (x : string) : x +:+ "" = x.
Proof.
  induction x as [|a x IH]; [reflexivity|]. rewrite append_cons, IH. reflexivity.
Qed.

Lemma append_assoc (x y z : string) : (x +:+ y) +:+ z = x +:+ (y +:+ z).
Proof.
  induction x as [|a x IH]; [reflexivity|]. rewrite !append_cons, IH. reflexivity.
Qed.

Lemma has_char_app (c : ascii) (x y : string) :
  Str.has_char c (x +:+ y) = Str.has_char c x || Str.has_char c y.
Proof.
  induction x as [|a x IH]; [reflexivity|].
  rewrite append_cons. cbn [Str.has_char]. rewrite IH, orb_assoc. reflexivity.
Qed.

Lemma prefix_nil (x : string) : String.prefix "" x = true.
Proof. destruct x; reflexivity. Qed.

Lemma prefix_app (n x y : string) :
  String.prefix n x = true -> String.prefix n (x +:+ y) = true.
Proof.
  revert x. induction n as [|a n IH]; intros x; [intros _; apply prefix_nil|].
  destruct x as [|b x]; [discriminate|]. rewrite append_cons. cbn [String.prefix].
  destruct (Ascii.ascii_dec a b); [apply IH|discriminate].
Qed.

Lemma prefix_refl_app (n y : string) : String.prefix n (n +:+ y) = true.
Proof.
  induction n as [|a n IH]; [apply prefix_nil|].
  rewrite append_cons. cbn [String.prefix].
  destruct (Ascii.ascii_dec a a); [exact IH|contradiction].
Qed.

Lemma prefix_first (c a : ascii) (n x : string) :
  Ascii.eqb c a = false -> String.prefix (String c n) (String a x) = false.
Proof.
  intros H. cbn [String.prefix].
  destruct (Ascii.ascii_dec c a) as [->|_]; [|reflexivity].
  rewrite Ascii.eqb_refl in H. discriminate.
Qed.

(** A needle cannot begin inside a text that lacks its first character. *)
Lemma contains_skip (c : ascii) (n x y : string) :
  Str.has_char c x = false ->
  Str.contains (String c n) (x +:+ y) = Str.contains (String c n) y.
Proof.
  induction x as [|a x IH]; intros H; [reflexivity|].
  cbn [Str.has_char] in H. apply orb_false_elim in H as [Ha Hx].
  rewrite append_cons. cbn [Str.contains].
  rewrite (IH Hx), (prefix_first c a n _ Ha). reflexivity.
Qed.

Lemma contains_absent (c : ascii) (n x : string) :
  Str.has_char c x = false -> Str.contains (String c n) x = false.
Proof.
  intros H. rewrite <- (append_nil_r x), (contains_skip c n x EmptyString H).
  reflexivity.
Qed.

(** A needle cannot straddle a character that it does not have. *)
Lemma prefix_across (q : ascii) (n x y : string) :
  Str.has_char q n = false ->
  String.prefix n (x +:+ String q y) = String.prefix n x.
Proof.
  revert x. induction n as [|a n IH]; intros x H; [rewrite !prefix_nil; reflexivity|].
  cbn [Str.has_char] in H. apply orb_false_elim in H as [Ha Hn].
  destruct x as [|b x].
  - rewrite append_nil_l. rewrite prefix_first; [reflexivity|].
    rewrite Ascii.eqb_sym. exact Ha.
  - rewrite append_cons. cbn [String.prefix].
    destruct (Ascii.ascii_dec a b); [apply IH; exact Hn|reflexivity].
Qed.

Lemma contains_across (q : ascii) (n x y : string) :
  n <> EmptyString -> Str.has_char q n = false ->
  Str.contains n (x +:+ String q y) = Str.contains n x || Str.contains n y.
Proof.
  intros Hne H. induction x as [|a x IH].
  - destruct n as [|c n]; [contradiction|].
    cbn [Str.has_char] in H. apply orb_false_elim in H as [Hc _].
    rewrite append_nil_l. cbn [Str.contains].
    rewrite prefix_first; [reflexivity|]. rewrite Ascii.eqb_sym. exact Hc.
  - rewrite append_cons. cbn [Str.contains]. rewrite IH.
    rewrite <- append_cons, (prefix_across q n (String a x) y H), orb_assoc.
    reflexivity.
Qed.

Lemma contains_app_r (n x y : string) :
  Str.contains n y = true -> Str.contains n (x +:+ y) = true.
Proof.
  intros H. induction x as [|a x IH]; [exact H|].
  rewrite append_cons. cbn [Str.contains]. rewrite IH. apply orb_true_r.
Qed.

Lemma contains_refl_app (n y : string) : Str.contains n (n +:+ y) = true.
Proof.
  destruct (n +:+ y) eqn:E; cbn [Str.contains]; rewrite <- E, prefix_refl_app;
    reflexivity.
Qed.

Lemma endswith_app (x suffix : string) : Str.endswith suffix (x +:+ suffix) = true.
Proof.
  induction x as [|a x IH].
  - rewrite append_nil_l. destruct suffix; cbn [Str.endswith];
      rewrite String.eqb_refl; reflexivity.
  - rewrite append_cons. cbn [Str.endswith]. rewrite IH. apply orb_true_r.
Qed.

Lemma endswith_contains (n suffix s : string) :
  Str.endswith suffix s = true -> Str.contains n suffix = true ->
  Str.contains n s = true.
Proof.
  intros He Hc. induction s as [|a s IH].
  - cbn [Str.endswith] in He. rewrite orb_false_r in He.
    apply String.eqb_eq in He. subst suffix. exact Hc.
  - cbn [Str.endswith] in He. apply orb_true_iff in He as [He|He].
    + apply String.eqb_eq in He. subst suffix. exact Hc.
    + cbn [Str.contains]. rewrite (IH He). apply orb_true_r.
Qed.

(** ** The characters of the success message *)

Lemma pretty_N_char_digit (x : N) : PyInt.is_digit (pretty_N_char x) = true.
Proof. unfold pretty_N_char. repeat case_match; reflexivity. Qed.

Lemma pretty_N_go_char (c : ascii) (x : N) (s : string) :
  Str.has_char c (pretty_N_go x s) = true ->
  Str.has_char c s = true \/ PyInt.is_digit c = true.
Proof.
  revert s. induction (N.lt_wf_0 x) as [x _ IH]. intros s H.
  destruct (N.eq_dec x 0%N) as [->|Hx].
  - rewrite pretty_N_go_0 in H. left. exact H.
  - rewrite pretty_N_go_step in H by lia.
    apply IH in H; [|apply N.div_lt; lia].
    destruct H as [H|H]; [|right; exact H].
    cbn [Str.has_char] in H. apply orb_true_iff in H as [H|H]; [|left; exact H].
    apply Ascii.eqb_eq in H. subst c. right. apply pretty_N_char_digit.
Qed.

Lemma pretty_N_char_free (c : ascii) (x : N) :
  PyInt.is_digit c = false -> Str.has_char c (pretty x) = false.
Proof.
  intros Hd. unfold pretty, pretty_N. case_decide.
  - cbn [Str.has_char]. rewrite orb_false_r.
    destruct (Ascii.eqb_spec c "0"); [subst c; discriminate|reflexivity].
  - destruct (Str.has_char c (pretty_N_go x "")) eqn:E; [|reflexivity].
    apply pretty_N_go_char in E as [E|E]; [discriminate|congruence].
Qed.

(** A decimal number consists of digits and, at most, a minus sign. *)
Lemma pretty_Z_char_free (c : ascii) (n : Z) :
  PyInt.is_digit c = false -> Ascii.eqb c "-" = false ->
  Str.has_char c (pretty n) = false.
Proof.
  intros Hd Hm. destruct n as [|p|p]; unfold pretty, pretty_Z.
  - cbn [Str.has_char]. rewrite orb_false_r.
    destruct (Ascii.eqb_spec c "0"); [subst c; discriminate|reflexivity].
  - apply (pretty_N_char_free c (Npos p) Hd).
  - rewrite has_char_app. cbn [Str.has_char]. rewrite Hm. simpl.
    apply (pretty_N_char_free c (Npos p) Hd).
Qed.

Lemma two_digits_char_free (c : ascii) (n : Z) :
  PyInt.is_digit c = false -> Ascii.eqb c "-" = false ->
  Str.has_char c (Cal.two_digits n) = false.
Proof.
  intros Hd Hm. unfold Cal.two_digits.
  destruct ((0 <=? n) && (n <? 10)).
  - rewrite has_char_app, (pretty_Z_char_free c n Hd Hm), orb_false_r.
    cbn [Str.has_char]. rewrite orb_false_r.
    destruct (Ascii.eqb_spec c "0"); [subst c; discriminate|reflexivity].
  - apply pretty_Z_char_free; assumption.
Qed.

Lemma nth_char_free (c : ascii) (l : list string) (i : nat) :
  Forall (fun s => Str.has_char c s = false) l ->
  Str.has_char c (nth i l "") = false.
Proof.
  intros H. destruct (nth_in_or_default i l "") as [Hin| ->]; [|reflexivity].
  rewrite Forall_forall in H. apply H. apply list_elem_of_In. exact Hin.
Qed.

Lemma clock_12h_no_C (d : datetime) : Str.has_char "C" (Cal.clock_12h d) = false.
Proof.
  unfold Cal.clock_12h. rewrite !has_char_app.
  rewrite !two_digits_char_free by reflexivity.
  destruct (hour d <? 12); reflexivity.
Qed.

Lemma long_date_no_C (d : datetime) : Str.has_char "C" (Cal.long_date d) = false.
Proof.
  unfold Cal.long_date, Cal.day_name, Cal.month_name. rewrite !has_char_app.
  rewrite two_digits_char_free by reflexivity.
  rewrite !nth_char_free; [reflexivity| |]; repeat constructor.
Qed.

(** The words of the marker occur in the success message only if the
    title brings them. *)
Lemma success_message_marker (title : pyval) (event_start event_end : datetime) :
  Str.contains confirmation_marker (success_message title event_start event_end)
  = Str.contains confirmation_marker (py_str title).
Proof.
  unfold success_message, confirmation_marker.
  rewrite contains_skip by reflexivity.
  change ("' on " +:+ ?x) with (String "'" (" on " +:+ x)).
  rewrite contains_across by (discriminate || reflexivity).
  match goal with
  | |- context [Str.contains _ (" on " +:+ ?r)] =>
      rewrite (contains_absent "C" _ (" on " +:+ r))
  end; [apply orb_false_r|].
  rewrite !has_char_app, long_date_no_C, !clock_12h_no_C. reflexivity.
Qed.

(** ** create_calendar_event: the booking *)

Lemma event_end_representable (event_start : datetime) (n : Z) :
  valid_time event_start -> 1 <= ordinal event_start -> 0 <= n ->
  ordinal event_start + 1 + n / 1440 <= MAXORDINAL ->
  exists event_end,
    timedelta_minutes n = Ok (td_minutes n)
    /\ dt_add event_start (td_minutes n) = Ok event_end.
Proof.
  intros Hv Ho Hn Hr. pose proof (time_us_range _ Hv) as Ht.
  unfold timedelta_minutes, dt_add.
  assert (0 <= n / 1440) by (apply Z.div_pos; lia).
  destruct (Z.leb_spec (-999999999) (n / 1440)); [|lia].
  destruct (Z.leb_spec (n / 1440) 999999999); [|unfold MAXORDINAL in Hr; lia].
  assert (ordinal event_start <= (to_us event_start + td_minutes n) / US_PER_DAY
          <= ordinal event_start + 1 + n / 1440) as Hd.
  { unfold to_us, td_minutes, US_PER_DAY in *. Z.div_mod_to_equations. lia. }
  destruct (Z.ltb_spec 0 ((to_us event_start + td_minutes n) / US_PER_DAY)); [|lia].
  destruct (Z.leb_spec ((to_us event_start + td_minutes n) / US_PER_DAY) MAXORDINAL);
    [|lia].
  eexists. split; reflexivity.
Qed.

Lemma parse_start_time_accepts (w : World) (day_start : datetime) (s : string)
    (duration_minutes hour minute : Z) (event_start event_end : datetime)
    (delta : timedelta) (t : list call) :
  unpack_hour_minute (split ":" s) = Ok (hour, minute) ->
  replace_hour_minute day_start hour minute = Ok event_start ->
  timedelta_minutes duration_minutes = Ok delta ->
  dt_add event_start delta = Ok event_end ->
  parse_start_time w day_start (VStr s) duration_minutes t
  = (t, Ok (inr (event_start, event_end))).
Proof.
  intros Hu Hr Hd Ha.
  unfold parse_start_time, try_except, bind, lift, perform, ret,
    str_method, sync.
  cbv beta iota zeta. rewrite Hu. cbv beta iota. rewrite Hr, Hd, Ha. reflexivity.
Qed.

Lemma replace_hour_minute_in_range (d : datetime) (hour minute : Z) :
  0 <= hour < 24 -> 0 <= minute < 60 ->
  replace_hour_minute d hour minute
  = Ok (mk_datetime (ordinal d) hour minute (second d) (microsecond d)).
Proof.
  intros Hh Hm. unfold replace_hour_minute, fits_c_int.
  repeat match goal with
         | |- context [?a <=? ?b] => destruct (Z.leb_spec a b); [|lia]
         | |- context [?a <? ?b] => destruct (Z.ltb_spec a b); [|lia]
         end.
  reflexivity.
Qed.

(** With an accepted start time the function gets as far as
    [submit_event], having only said that it is booking. *)
Lemma booking_reaches_submit (w : World) (arguments : gmap string pyval)
    (date start : string) (hour minute duration : Z) :
  default (VStr "today") (arguments !! "date_description") = VStr date ->
  arguments !! "start_time" = Some (VStr start) ->
  unpack_hour_minute (split ":" start) = Ok (hour, minute) ->
  0 <= hour < 24 -> 0 <= minute < 60 ->
  default (VInt 60) (arguments !! "duration_minutes") = VInt duration ->
  0 <= duration ->
  booking_environment w duration ->
  exists day_start day_end event_end,
    parse_relative_date (now w) date = Ok (day_start, day_end)
    /\ midnight day_start
    /\ ordinal (now w) - 1 <= ordinal day_start <= ordinal (now w) + 7
    /\ dt_add (mk_datetime (ordinal day_start) hour minute 0 0)
              (td_minutes duration) = Ok event_end
    /\ run (create_calendar_event w arguments)
       = try_except
           (submit_event w
              (default (VStr "Untitled Event") (arguments !! "title"))
              (default (VStr "") (arguments !! "description"))
              (default (VStr "") (arguments !! "customer_email"))
              (mk_datetime (ordinal day_start) hour minute 0 0) event_end)
           Exception (report_error w)
           [PushFrame ("Booking your appointment for " +:+ date)].
Proof.
  intros Hdate Hs Hu Hh Hm Hdur Hn ([Hpush Hback] & Hv & Hlo & Hhi & Hcred & Hbuild).
  assert (ordinal (now w) + 7 < MAXORDINAL) as Hhi'.
  { assert (0 <= duration / 1440) by (apply Z.div_pos; lia). lia. }
  destruct (parse_returns (now w) date Hv Hlo Hhi') as [[day_start day_end] Hp].
  destruct (parse_returns_day_window _ _ _ _ Hv Hp) as (o & Ho & Hnear & Ew).
  inversion Ew; subst day_start day_end. simpl ordinal in *.
  destruct (event_end_representable (mk_datetime o hour minute 0 0) duration)
    as (event_end & Htd & Hadd).
  { unfold valid_time. simpl. lia. }
  { simpl. lia. }
  { exact Hn. }
  { simpl. lia. }
  exists (mk_datetime o 0 0 0 0), (mk_datetime (o + 1) 0 0 0 0), event_end.
  split; [exact Hp|]. split; [repeat split|]. split; [simpl; lia|].
  split; [exact Hadd|].
  unfold run, create_calendar_event.
  rewrite Hs, Hdur, Hdate. simpl default. simpl PyInt.of_val. simpl str_method.
  simpl res_bind. rewrite Hp, Hpush.
  unfold try_except at 1. unfold bind at 1 2 3 4. unfold lift, perform, await, sync.
  cbv beta iota. simpl app.
  rewrite (parse_start_time_accepts w (mk_datetime o 0 0 0 0) start duration
             hour minute (mk_datetime o hour minute 0 0) event_end _ _ Hu
             (replace_hour_minute_in_range (mk_datetime o 0 0 0 0) _ _ Hh Hm)
             Htd Hadd).
  reflexivity.
Qed.

Lemma try_perform_first {A B} (P : call -> Prop) (c : call) (r : res A)
    (k : A -> M B) (catches : exn -> bool) (handler : exn -> M B)
    (t : list call) :
  (forall a, emits P (k a)) -> (forall e, emits P (handler e)) ->
  exists calls,
    (try_except (bind (perform c r) k) catches handler t).1 = (t ++ [c]) ++ calls.
Proof.
  intros Hk Hh.
  change (try_except (bind (perform c r) k) catches handler t)
    with (try_except (bind (lift r) k) catches handler (t ++ [c])).
  destruct (emits_try P _ catches handler
              (emits_bind P (lift r) k (emits_lift P r) Hk) Hh (t ++ [c]))
    as (calls & E & _).
  exists calls. exact E.
Qed.

Lemma submit_reaches_insert (w : World) (title description customer_email : pyval)
    (event_start event_end : datetime) (t : list call) :
  get_google_credentials w = Ok tt -> build w "calendar" = Ok tt ->
  exists rest,
    (try_except
       (submit_event w title description customer_email event_start event_end)
       Exception (report_error w) t).1
    = t ++ [GetCredentials; Build "calendar";
            CalendarInsert
              (mk_event_body title description
                 (mk_time_ref (Cal.iso_seconds event_start)
                    (local_tz_str (utcoffset w)))
                 (mk_time_ref (Cal.iso_seconds event_end)
                    (local_tz_str (utcoffset w))))] ++ rest.
Proof.
  intros Hcred Hbuild. unfold submit_event. cbv zeta.
  rewrite (try_bind_Ok _ _ _ _ t (t ++ [GetCredentials]) tt)
    by (unfold perform, sync; rewrite Hcred; reflexivity).
  rewrite (try_bind_Ok _ _ _ _ _ ((t ++ [GetCredentials]) ++ [Build "calendar"]) tt)
    by (unfold perform, sync; rewrite Hbuild; reflexivity).
  match goal with
  | |- context [try_except (bind (perform ?c ?r) ?k) ?cat ?h ?t0] =>
      destruct (try_perform_first (fun _ => True) c r k cat h t0) as (rest & E)
  end.
  - intros _. repeat first
      [ progress emits_step | apply emits_send_confirmation; intros | exact I ].
  - intros e. apply emits_report_error. intros; exact I.
  - exists rest. rewrite E, <- !app_assoc. reflexivity.
Qed.

Lemma send_confirmation_returns (w : World) (customer_email : pyval)
    (t : list call) :
  exists calls,
    send_confirmation w customer_email t
    = (t ++ calls, Ok (email_delivered w customer_email)).
Proof.
  unfold send_confirmation, email_delivered.
  destruct (truthy customer_email); simpl andb.
  - unfold try_except, bind, perform, await, lift, ret, Exception, sync.
    destruct (build w "gmail"); [|eexists; reflexivity].
    destruct (encode_message w customer_email) as [raw|]; [|eexists; reflexivity].
    destruct (messages_send w raw); cbv beta iota; rewrite <- app_assoc;
      eexists; reflexivity.
  - exists []. unfold ret. rewrite app_nil_r. reflexivity.
Qed.

Lemma submit_event_result (w : World) (title description customer_email : pyval)
    (event_start event_end : datetime) (t : list call) :
  conversation_up w ->
  get_google_credentials w = Ok tt -> build w "calendar" = Ok tt ->
  (forall body, events_insert w body = Ok tt) ->
  exists calls,
    try_except
      (submit_event w title description customer_email event_start event_end)
      Exception (report_error w) t
    = (t ++ calls,
       Ok (if email_delivered w customer_email
           then success_message title event_start event_end
                +:+ ". Confirmation email sent to " +:+ py_str customer_email
           else success_message title event_start event_end)).
Proof.
  intros [_ Hback] Hcred Hbuild Hins. unfold submit_event. cbv zeta.
  destruct (send_confirmation_returns w customer_email
              (((t ++ [GetCredentials]) ++ [Build "calendar"])
               ++ [CalendarInsert
                     (mk_event_body title description
                        (mk_time_ref (Cal.iso_seconds event_start)
                           (local_tz_str (utcoffset w)))
                        (mk_time_ref (Cal.iso_seconds event_end)
                           (local_tz_str (utcoffset w))))]))
    as (calls & Es).
  unfold try_except, bind, perform, await, sync.
  rewrite Hcred, Hbuild, Hins, Es, Hback. rewrite <- !app_assoc.
  eexists. reflexivity.
Qed.

(** C4. A start time that is malformed (it does not have two fields around
    one colon, or a field is not an integer literal, as in "9am") ends the
    booking: no call of [create_calendar_event] reaches the credentials,
    the calendar or the mail service, in any world; and with arguments of
    the declared types, a conversation that is up and a clock in range, the
    function reports and returns
    "Invalid time format: <input>. Please use HH:MM format (e.g., '14:00')". *)
Theorem malformed_start_time_is_terminal (w : World)
    (arguments : gmap string pyval) (start_time : string) :
  arguments !! "start_time" = Some (VStr start_time) ->
  malformed start_time ->
  emits quiet (create_calendar_event w arguments)
  /\ (conforms create_event_properties arguments ->
      conversation_up w -> clock_in_range w ->
      exists spoken,
        run (create_calendar_event w arguments)
        = ([PushFrame spoken;
            ResultCallback
              ("Invalid time format: " +:+ start_time
               +:+ ". Please use HH:MM format (e.g., '14:00')")],
           Ok ("Invalid time format: " +:+ start_time
               +:+ ". Please use HH:MM format (e.g., '14:00')"))).
Proof.
  intros Hs Hm. pose proof (malformed_rejected _ Hm) as Hr. split.
  - exact (rejected_is_quiet w arguments start_time Hs Hr).
  - intros Hc Hup Hclock.
    exact (rejected_result w arguments start_time Hs Hr Hc Hup Hclock).
Qed.

Lemma malformed_start_time_is_terminal_witness :
  emits quiet
    (create_calendar_event (sample_world (Ok tt)) {[ "start_time" := VStr "9am" ]})
  /\ (conforms create_event_properties {[ "start_time" := VStr "9am" ]} ->
      conversation_up (sample_world (Ok tt)) ->
      clock_in_range (sample_world (Ok tt)) ->
      exists spoken,
        run (create_calendar_event (sample_world (Ok tt))
               {[ "start_time" := VStr "9am" ]})
        = ([PushFrame spoken;
            ResultCallback
              ("Invalid time format: " +:+ "9am"
               +:+ ". Please use HH:MM format (e.g., '14:00')")],
           Ok ("Invalid time format: " +:+ "9am"
               +:+ ". Please use HH:MM format (e.g., '14:00')"))).
Proof.
  apply (malformed_start_time_is_terminal (sample_world (Ok tt))
           {[ "start_time" := VStr "9am" ]} "9am").
  - reflexivity.
  - left. vm_compute. lia.
Defined.

(** C10. The same message is the answer to a start time whose two fields
    are integers but not an hour and a minute, such as "25:00" or "12:75":
    [replace] raises the ValueError that the inner handler catches. As in
    C4, no call reaches the services, and in a working conversation the
    function returns the format message. The fields range over the values
    of a C [int], which is where CPython's [replace] checks ranges. *)
Theorem out_of_range_start_time_is_rejected (w : World)
    (arguments : gmap string pyval) (start_time : string) (hour minute : Z) :
  arguments !! "start_time" = Some (VStr start_time) ->
  unpack_hour_minute (split ":" start_time) = Ok (hour, minute) ->
  fits_c_int hour = true -> fits_c_int minute = true ->
  ~ (0 <= hour < 24 /\ 0 <= minute < 60) ->
  emits quiet (create_calendar_event w arguments)
  /\ (conforms create_event_properties arguments ->
      conversation_up w -> clock_in_range w ->
      exists spoken,
        run (create_calendar_event w arguments)
        = ([PushFrame spoken;
            ResultCallback
              ("Invalid time format: " +:+ start_time
               +:+ ". Please use HH:MM format (e.g., '14:00')")],
           Ok ("Invalid time format: " +:+ start_time
               +:+ ". Please use HH:MM format (e.g., '14:00')"))).
Proof.
  intros Hs Hu Hh Hm Hout.
  pose proof (out_of_range_rejected _ _ _ Hu Hh Hm Hout) as Hr. split.
  - exact (rejected_is_quiet w arguments start_time Hs Hr).
  - intros Hc Hup Hclock.
    exact (rejected_result w arguments start_time Hs Hr Hc Hup Hclock).
Qed.

Lemma out_of_range_start_time_is_rejected_witness :
  emits quiet
    (create_calendar_event (sample_world (Ok tt)) {[ "start_time" := VStr "25:00" ]})
  /\ (conforms create_event_properties {[ "start_time" := VStr "25:00" ]} ->
      conversation_up (sample_world (Ok tt)) ->
      clock_in_range (sample_world (Ok tt)) ->
      exists spoken,
        run (create_calendar_event (sample_world (Ok tt))
               {[ "start_time" := VStr "25:00" ]})
        = ([PushFrame spoken;
            ResultCallback
              ("Invalid time format: " +:+ "25:00"
               +:+ ". Please use HH:MM format (e.g., '14:00')")],
           Ok ("Invalid time format: " +:+ "25:00"
               +:+ ". Please use HH:MM format (e.g., '14:00')"))).
Proof.
  apply (out_of_range_start_time_is_rejected (sample_world (Ok tt))
           {[ "start_time" := VStr "25:00" ]} "25:00" 25 0).
  - reflexivity.
  - vm_compute. reflexivity.
  - reflexivity.
  - reflexivity.
  - lia.
Defined.

(** C8. The booking has no check of business hours or of the weekday: for
    every date description and every start time that reads as an hour
    0..23 and a minute 0..59 (nothing is asked of the hour beyond that,
    nor of the day the description resolves to), in a world where the steps
    up to the submission work, the function goes on to hand the entry for
    that day and that time to the calendar. *)
Theorem booking_has_no_business_hours_check (w : World)
    (arguments : gmap string pyval) (date start_time : string)
    (hour minute duration : Z) :
  arguments !! "date_description" = Some (VStr date) ->
  arguments !! "start_time" = Some (VStr start_time) ->
  unpack_hour_minute (split ":" start_time) = Ok (hour, minute) ->
  0 <= hour < 24 -> 0 <= minute < 60 ->
  default (VInt 60) (arguments !! "duration_minutes") = VInt duration ->
  0 <= duration ->
  booking_environment w duration ->
  exists day_start day_end event_end rest,
    parse_relative_date (now w) date = Ok (day_start, day_end)
    /\ dt_add (mk_datetime (ordinal day_start) hour minute 0 0)
              (td_minutes duration) = Ok event_end
    /\ (run (create_calendar_event w arguments)).1
       = [PushFrame ("Booking your appointment for " +:+ date);
          GetCredentials; Build "calendar";
          CalendarInsert
            (submitted_event w arguments
               (mk_datetime (ordinal day_start) hour minute 0 0) event_end)]
         ++ rest.
Proof.
  intros Hdate Hs Hu Hh Hm Hdur Hn Henv.
  assert (default (VStr "today") (arguments !! "date_description") = VStr date)
    as Hdate' by (rewrite Hdate; reflexivity).
  destruct (booking_reaches_submit w arguments date start_time hour minute
              duration Hdate' Hs Hu Hh Hm Hdur Hn Henv)
    as (day_start & day_end & event_end & Hp & _ & _ & Hadd & Hrun).
  destruct Henv as (_ & _ & _ & _ & Hcred & Hbuild).
  destruct (submit_reaches_insert w
              (default (VStr "Untitled Event") (arguments !! "title"))
              (default (VStr "") (arguments !! "description"))
              (default (VStr "") (arguments !! "customer_email"))
              (mk_datetime (ordinal day_start) hour minute 0 0) event_end
              [PushFrame ("Booking your appointment for " +:+ date)]
              Hcred Hbuild) as (rest & Hrest).
  exists day_start, day_end, event_end, rest.
  split; [exact Hp|]. split; [exact Hadd|].
  rewrite Hrun, Hrest. reflexivity.
Qed.

Lemma booking_has_no_business_hours_check_witness :
  exists day_start day_end event_end rest,
    parse_relative_date (now (sample_world (Ok tt))) "sunday"
    = Ok (day_start, day_end)
    /\ dt_add (mk_datetime (ordinal day_start) 3 0 0 0) (td_minutes 60)
       = Ok event_end
    /\ (run (create_calendar_event (sample_world (Ok tt))
               weekend_night_arguments)).1
       = [PushFrame ("Booking your appointment for " +:+ "sunday");
          GetCredentials; Build "calendar";
          CalendarInsert
            (submitted_event (sample_world (Ok tt)) weekend_night_arguments
               (mk_datetime (ordinal day_start) 3 0 0 0) event_end)]
         ++ rest.
Proof.
  apply (booking_has_no_business_hours_check (sample_world (Ok tt))
           weekend_night_arguments "sunday" "03:00" 3 0 60).
  - reflexivity.
  - reflexivity.
  - vm_compute. reflexivity.
  - lia.
  - lia.
  - reflexivity.
  - lia.
  - unfold booking_environment, conversation_up, valid_datetime, valid_time,
      MAXORDINAL. simpl.
    repeat split; intros; try reflexivity; try lia; discriminate.
Defined.

(** ** create_calendar_event: the confirmation *)

Lemma marker_in_suffix (address : string) :
  Str.contains confirmation_marker (". Confirmation email sent to " +:+ address)
  = true.
Proof.
  change (". Confirmation email sent to " +:+ address)
    with (". " +:+ (confirmation_marker +:+ (" to " +:+ address))).
  apply contains_app_r, contains_refl_app.
Qed.

Lemma success_message_starts (title : pyval) (event_start event_end : datetime)
    (rest : string) :
  String.prefix "Event created successfully"
    (success_message title event_start event_end +:+ rest) = true.
Proof.
  unfold success_message.
  change ("Event created successfully: '" +:+ ?x)
    with ("Event created successfully" +:+ (": '" +:+ x)).
  rewrite append_assoc. apply prefix_refl_app.
Qed.

(** C5 (amended). When the entry was created and the confirmation could
    not be sent, the failure is swallowed: the function still returns the
    success message, [email_sent] is false, and the message does not
    contain "Confirmation email sent"; and the message ends with
    ". Confirmation email sent to <address>" exactly when the confirmation
    was sent. All this for a title that does not itself contain the words
    "Confirmation email sent"; [address] is the address given, or the empty
    default. *)
Theorem email_failure_is_swallowed (w : World) (arguments : gmap string pyval)
    (date start_time address : string) (hour minute duration : Z) :
  arguments !! "date_description" = Some (VStr date) ->
  arguments !! "start_time" = Some (VStr start_time) ->
  unpack_hour_minute (split ":" start_time) = Ok (hour, minute) ->
  0 <= hour < 24 -> 0 <= minute < 60 ->
  default (VInt 60) (arguments !! "duration_minutes") = VInt duration ->
  0 <= duration ->
  booking_environment w duration ->
  (forall body, events_insert w body = Ok tt) ->
  default (VStr "") (arguments !! "customer_email") = VStr address ->
  Str.contains confirmation_marker
    (py_str (default (VStr "Untitled Event") (arguments !! "title"))) = false ->
  exists event_start event_end message,
    (run (create_calendar_event w arguments)).2 = Ok message
    /\ message
       = (if email_delivered w (VStr address)
          then success_message
                 (default (VStr "Untitled Event") (arguments !! "title"))
                 event_start event_end
               +:+ ". Confirmation email sent to " +:+ address
          else success_message
                 (default (VStr "Untitled Event") (arguments !! "title"))
                 event_start event_end)
    /\ String.prefix "Event created successfully" message = true
    /\ (forall t,
         (send_confirmation w (VStr address) t).2
         = Ok (email_delivered w (VStr address)))
    /\ (forall raw e,
         encode_message w (VStr address) = Ok raw ->
         messages_send w raw = Raise e ->
         email_delivered w (VStr address) = false)
    /\ (email_delivered w (VStr address) = false ->
        Str.contains confirmation_marker message = false)
    /\ (Str.endswith (". Confirmation email sent to " +:+ address) message = true
        <-> email_delivered w (VStr address) = true).
Proof.
  intros Hdate Hs Hu Hh Hm Hdur Hn Henv Hins Hmail Htitle.
  assert (default (VStr "today") (arguments !! "date_description") = VStr date)
    as Hdate' by (rewrite Hdate; reflexivity).
  destruct (booking_reaches_submit w arguments date start_time hour minute
              duration Hdate' Hs Hu Hh Hm Hdur Hn Henv)
    as (day_start & day_end & event_end & _ & _ & _ & _ & Hrun).
  destruct Henv as (Hup & _ & _ & _ & Hcred & Hbuild).
  rewrite Hmail in Hrun.
  destruct (submit_event_result w
              (default (VStr "Untitled Event") (arguments !! "title"))
              (default (VStr "") (arguments !! "description"))
              (VStr address)
              (mk_datetime (ordinal day_start) hour minute 0 0) event_end
              [PushFrame ("Booking your appointment for " +:+ date)]
              Hup Hcred Hbuild Hins) as (calls & Hres).
  rewrite Hres in Hrun. simpl py_str in Hrun.
  eexists _, _, _. split; [rewrite Hrun; reflexivity|].
  split; [reflexivity|].
  assert (forall e0 e1,
             Str.contains confirmation_marker
               (success_message
                  (default (VStr "Untitled Event") (arguments !! "title")) e0 e1)
             = false) as Hbase.
  { intros e0 e1. rewrite success_message_marker. exact Htitle. }
  split; [|split; [|split; [|split]]].
  - destruct (email_delivered w (VStr address)).
    + apply success_message_starts.
    + rewrite <- (append_nil_r (success_message _ _ _)).
      apply success_message_starts.
  - intros t. destruct (send_confirmation_returns w (VStr address) t)
      as (c & ->). reflexivity.
  - intros raw e He Hsend. unfold email_delivered.
    destruct (build w "gmail"); [|apply andb_false_r]. rewrite He, Hsend.
    apply andb_false_r.
  - intros ->. apply Hbase.
  - destruct (email_delivered w (VStr address)).
    + split; [reflexivity|]. intros _. apply endswith_app.
    + split; [|discriminate]. intros He.
      pose proof (endswith_contains confirmation_marker _ _ He
                    (marker_in_suffix address)) as Hin.
      rewrite Hbase in Hin. discriminate.
Qed.

Lemma email_failure_is_swallowed_witness :
  exists event_start event_end message,
    (run (create_calendar_event (sample_world (Raise (External "mail is down")))
            (confirmed_arguments "Appointment with Jane"))).2 = Ok message
    /\ message
       = (if email_delivered (sample_world (Raise (External "mail is down")))
               (VStr "x@example.com")
          then success_message
                 (default (VStr "Untitled Event")
                    (confirmed_arguments "Appointment with Jane" !! "title"))
                 event_start event_end
               +:+ ". Confirmation email sent to " +:+ "x@example.com"
          else success_message
                 (default (VStr "Untitled Event")
                    (confirmed_arguments "Appointment with Jane" !! "title"))
                 event_start event_end)
    /\ String.prefix "Event created successfully" message = true
    /\ (forall t,
         (send_confirmation (sample_world (Raise (External "mail is down")))
            (VStr "x@example.com") t).2
         = Ok (email_delivered (sample_world (Raise (External "mail is down")))
                 (VStr "x@example.com")))
    /\ (forall raw e,
         encode_message (sample_world (Raise (External "mail is down")))
           (VStr "x@example.com") = Ok raw ->
         messages_send (sample_world (Raise (External "mail is down"))) raw
         = Raise e ->
         email_delivered (sample_world (Raise (External "mail is down")))
           (VStr "x@example.com") = false)
    /\ (email_delivered (sample_world (Raise (External "mail is down")))
          (VStr "x@example.com") = false ->
        Str.contains confirmation_marker message = false)
    /\ (Str.endswith (". Confirmation email sent to " +:+ "x@example.com")
          message = true
        <-> email_delivered (sample_world (Raise (External "mail is down")))
              (VStr "x@example.com") = true).
Proof.
  apply (email_failure_is_swallowed
           (sample_world (Raise (External "mail is down")))
           (confirmed_arguments "Appointment with Jane")
           "friday" "14:00" "x@example.com" 14 0 30).
  - reflexivity.
  - reflexivity.
  - vm_compute. reflexivity.
  - lia.
  - lia.
  - reflexivity.
  - lia.
  - unfold booking_environment, conversation_up, valid_datetime, valid_time,
      MAXORDINAL. simpl.
    repeat split; intros; try reflexivity; try lia; discriminate.
  - reflexivity.
  - reflexivity.
  - vm_compute. reflexivity.
Defined.

(** The statement of C5 as the specification has it fails for a title that
    contains the words: the mail service raises, the booking succeeds, and
    the message returned contains "Confirmation email sent". *)
Lemma swallowed_failure_can_show_the_marker :
  messages_send (sample_world (Raise (External "mail is down"))) "x@example.com"
  = Raise (External "mail is down")
  /\ run (create_calendar_event (sample_world (Raise (External "mail is down")))
            (confirmed_arguments "Confirmation email sent"))
     = ([PushFrame "Booking your appointment for friday"; GetCredentials;
         Build "calendar";
         CalendarInsert
           (mk_event_body (VStr "Confirmation email sent") (VStr "")
              (mk_time_ref "2026-11-06T14:00:00" "Etc/GMT-5")
              (mk_time_ref "2026-11-06T14:30:00" "Etc/GMT-5"));
         Build "gmail"; GmailSend "x@example.com";
         ResultCallback
           "Event created successfully: 'Confirmation email sent' on Friday, November 06 from 02:00 PM to 02:30 PM"],
        Ok "Event created successfully: 'Confirmation email sent' on Friday, November 06 from 02:00 PM to 02:30 PM")
  /\ Str.contains "Confirmation email sent"
       "Event created successfully: 'Confirmation email sent' on Friday, November 06 from 02:00 PM to 02:30 PM"
     = true.
Proof. vm_compute. repeat split. Qed.

Lemma listing_keeps_exactly_the_timed_entries_witness :
  exists listed,
    filter_loop (listing_world)
      [all_day_entry; timed_entry; all_day_entry] [] = Ok listed
    /\ Forall2 (renders (listing_world))
         (List.filter timed [all_day_entry; timed_entry; all_day_entry]) listed
    /\ (forall event, In event [all_day_entry; timed_entry; all_day_entry] ->
         (In event (List.filter timed [all_day_entry; timed_entry; all_day_entry])
          <-> is_Some (time_of_day (raw_start event))
              /\ is_Some (time_of_day (raw_end event))))
    /\ (forall arguments date,
         default (VStr "today") (arguments !! "date_description") = VStr date ->
         conversation_up (listing_world) ->
         clock_in_range (listing_world) ->
         (forall d, exists s, utc_iso (listing_world) d = Ok s) ->
         get_google_credentials (listing_world) = Ok tt ->
         build (listing_world) "calendar" = Ok tt ->
         events_list (listing_world)
         = Ok [all_day_entry; timed_entry; all_day_entry] ->
         exists trace,
           run (get_calendar_events (listing_world) arguments)
           = (trace, Ok (Json.dumps listed))).
Proof.
  apply (listing_keeps_exactly_the_timed_entries (listing_world)
           [all_day_entry; timed_entry; all_day_entry]).
  constructor; [|constructor; [|constructor; [|constructor]]];
    intros s [H|H]; vm_compute in H; inversion H;
    (split; [discriminate | eexists; reflexivity]).
Defined.

(** ** Sample runs *)

Example weekday_sample : weekday sample_now = 1.
Proof. reflexivity. Qed.

Example parse_friday_sample :
  parse_relative_date sample_now "  Next FRIDAY "
  = Ok (mk_datetime 739926 0 0 0 0, mk_datetime 739927 0 0 0 0).
Proof. vm_compute. reflexivity. Qed.

Example ord2ymd_samples :
  map Cal.ord2ymd [1; 60; 730120; 738945; 739923; 3652059]
  = [(1, 1, 1); (1, 3, 1); (2000, 1, 1); (2024, 2, 29); (2026, 11, 3);
     (9999, 12, 31)].
Proof. vm_compute. reflexivity. Qed.

Example last_day_overflows :
  parse_relative_date (mk_datetime MAXORDINAL 12 0 0 0) "today"
  = Raise DateOverflow.
Proof. vm_compute. reflexivity. Qed.

Example half_hour_offsets :
  local_tz_str 19800 = "Etc/GMT-5" /\ local_tz_str (-12600) = "Etc/GMT+3"
  /\ local_tz_str (-1800) = "Etc/GMT-0" /\ local_tz_str 3600 = "Etc/GMT-1".
Proof. vm_compute. repeat split. Qed.

Example twelve_seventy_five :
  run (create_calendar_event (sample_world (Ok tt)) {[ "start_time" := VStr "12:75" ]})
  = ([PushFrame "Booking your appointment for today";
      ResultCallback
        "Invalid time format: 12:75. Please use HH:MM format (e.g., '14:00')"],
     Ok "Invalid time format: 12:75. Please use HH:MM format (e.g., '14:00')").
Proof. vm_compute. reflexivity. Qed.

(** An hour beyond the C [int] range is an OverflowError, which the inner
    handler does not catch: the answer is the general error message. *)
Example hour_beyond_c_int :
  run (create_calendar_event (sample_world (Ok tt))
         {[ "start_time" := VStr "2147483648:00" ]})
  = ([PushFrame "Booking your appointment for today";
      ResultCallback "Error creating calendar event: error"],
     Ok "Error creating calendar event: error").
Proof. vm_compute. reflexivity. Qed.

(** An empty 'dateTime' counts as missing. *)
Example empty_timestamp_is_skipped :
  filter_loop (sample_world (Ok tt))
    [mk_raw_event None (Some {[ "dateTime" := "" ]})
       (Some {[ "dateTime" := "2026-11-03T10:00:00+05:30" ]})] []
  = Ok [].
Proof. vm_compute. reflexivity. Qed.

Example listing_timed_sample :
  (run (get_calendar_events listing_world ∅)).2
  = Ok (Json.dumps [mk_listed_event "Tax consultation" "09:00 AM" "09:00 AM"]).
Proof. vm_compute. reflexivity. Qed.

Example listing_sample :
  run (get_calendar_events (sample_world (Ok tt)) ∅)
  = ([PushFrame "Let me check the advisor's availability for today";
      GetCredentials; Build "calendar";
      CalendarList "2026-11-03T00:00:00Z" "2026-11-04T00:00:00Z" 50;
      ResultCallback "[]"],
     Ok "[]").
Proof. vm_compute. reflexivity. Qed.

Lemma next_prefix_is_ignored_witness :
  parse_relative_date sample_now ("next " +:+ weekday_token Friday)
  = parse_relative_date sample_now (weekday_token Friday)
  /\ (valid_datetime sample_now -> ordinal sample_now + 7 < MAXORDINAL ->
      exists window,
        parse_relative_date sample_now ("next " +:+ weekday_token Friday)
        = Ok window
        /\ parse_relative_date sample_now (weekday_token Friday) = Ok window).
Proof. exact (next_prefix_is_ignored Friday sample_now). Defined.

Lemma time_zone_label_is_reversed_whole_hours_witness :
  let h := Z.quot (utcoffset (sample_world (Ok tt))) 3600 in
  (0 <= h ->
   local_tz_str (utcoffset (sample_world (Ok tt))) = "Etc/GMT-" +:+ pretty h)
  /\ (h < 0 ->
      local_tz_str (utcoffset (sample_world (Ok tt)))
      = "Etc/GMT+" +:+ pretty (Z.abs h))
  /\ Z.abs (3600 * h) <= Z.abs (utcoffset (sample_world (Ok tt)))
     < Z.abs (3600 * h) + 3600
  /\ (0 <= utcoffset (sample_world (Ok tt)) -> 0 <= h)
  /\ (utcoffset (sample_world (Ok tt)) <= 0 -> h <= 0)
  /\ emits (labelled (local_tz_str (utcoffset (sample_world (Ok tt)))))
           (create_calendar_event (sample_world (Ok tt)) weekend_night_arguments).
Proof.
  exact (time_zone_label_is_reversed_whole_hours (sample_world (Ok tt))
           weekend_night_arguments).
Defined.

(** * Further properties *)

(** ** parse_relative_date: spelling of the token *)

Lemma lower_char_idem (c : ascii) :
  Str.lower_char (Str.lower_char c) = Str.lower_char c.
Proof. destruct c as [[] [] [] [] [] [] [] []]; reflexivity. Qed.

Lemma is_space_lower_char (c : ascii) :
  Str.is_space (Str.lower_char c) = Str.is_space c.
Proof. destruct c as [[] [] [] [] [] [] [] []]; reflexivity. Qed.

Lemma lower_idem (s : string) : Str.lower (Str.lower s) = Str.lower s.
Proof.
  induction s as [|c s IH]; [reflexivity|].
  cbn [Str.lower]. rewrite lower_char_idem, IH. reflexivity.
Qed.

Lemma lower_lstrip (s : string) :
  Str.lower (Str.lstrip s) = Str.lstrip (Str.lower s).
Proof.
  induction s as [|c s IH]; [reflexivity|].
  cbn [Str.lower Str.lstrip]. rewrite is_space_lower_char.
  destruct (Str.is_space c); [exact IH|reflexivity].
Qed.

Lemma lower_rstrip (s : string) :
  Str.lower (Str.rstrip s) = Str.rstrip (Str.lower s).
Proof.
  induction s as [|c s IH]; [reflexivity|].
  cbn [Str.lower Str.rstrip]. rewrite <- IH, is_space_lower_char.
  destruct (Str.rstrip s) as [|c' r]; cbn [Str.lower].
  - destruct (Str.is_space c); reflexivity.
  - reflexivity.
Qed.

Lemma lower_strip (s : string) :
  Str.lower (Str.strip s) = Str.strip (Str.lower s).
Proof. unfold Str.strip. rewrite lower_rstrip, lower_lstrip. reflexivity. Qed.

Lemma rstrip_idem (s : string) : Str.rstrip (Str.rstrip s) = Str.rstrip s.
Proof.
  induction s as [|c s IH]; [reflexivity|].
  cbn [Str.rstrip]. destruct (Str.rstrip s) as [|c' r] eqn:E.
  - destruct (Str.is_space c) eqn:Ec; [reflexivity|].
    cbn [Str.rstrip]. rewrite Ec. reflexivity.
  - cbn [Str.rstrip] in *. rewrite IH. reflexivity.
Qed.

Lemma lstrip_no_leading_space (s : string) : no_leading_space (Str.lstrip s).
Proof.
  induction s as [|c s IH]; [exact I|].
  cbn [Str.lstrip]. destruct (Str.is_space c) eqn:E; [exact IH|exact E].
Qed.

Lemma lstrip_fixed (s : string) : no_leading_space s -> Str.lstrip s = s.
Proof.
  destruct s as [|c s]; [reflexivity|]. simpl. intros ->. reflexivity.
Qed.

Lemma rstrip_no_leading_space (s : string) :
  no_leading_space s -> no_leading_space (Str.rstrip s).
Proof.
  destruct s as [|c s]; [intros _; exact I|]. simpl. intros E.
  destruct (Str.rstrip s); [rewrite E|]; exact E.
Qed.

Lemma strip_idem (s : string) : Str.strip (Str.strip s) = Str.strip s.
Proof.
  unfold Str.strip.
  rewrite (lstrip_fixed (Str.rstrip (Str.lstrip s))).
  - apply rstrip_idem.
  - apply rstrip_no_leading_space, lstrip_no_leading_space.
Qed.

(** X1. The token is read without regard to case and to white space around
    it: lowercasing or trimming the description beforehand, once or again,
    changes nothing of the result. *)
Theorem token_spelling_is_normalised (now : datetime) (s : string) :
  parse_relative_date now (Str.lower s) = parse_relative_date now s
  /\ parse_relative_date now (Str.strip s) = parse_relative_date now s
  /\ parse_relative_date now (Str.strip (Str.lower s)) = parse_relative_date now s.
Proof.
  assert (Str.strip (Str.lower (Str.strip s)) = Str.strip (Str.lower s)) as N2
    by (rewrite lower_strip; apply strip_idem).
  assert (Str.strip (Str.lower (Str.strip (Str.lower s))) = Str.strip (Str.lower s))
    as N3 by (rewrite lower_strip, lower_idem; apply strip_idem).
  unfold parse_relative_date. rewrite lower_idem, N2, N3. repeat split.
Qed.

(** ** parse_relative_date: how the windows relate *)

Lemma parse_tomorrow (now : datetime) :
  parse_relative_date now "tomorrow" = window_of (dt_add now (td_days 1)).
Proof. reflexivity. Qed.

Lemma parse_yesterday (now : datetime) :
  parse_relative_date now "yesterday" = window_of (dt_add now (td_days (-1))).
Proof. reflexivity. Qed.

(** X2. The windows of "yesterday", "today" and "tomorrow" tile the time
    line: each one ends at the instant at which the next begins. *)
Theorem neighbouring_days_share_a_midnight (now : datetime) :
  valid_datetime now -> 1 < ordinal now -> ordinal now + 1 < MAXORDINAL ->
  exists a b c d,
    parse_relative_date now "yesterday" = Ok (a, b)
    /\ parse_relative_date now "today" = Ok (b, c)
    /\ parse_relative_date now "tomorrow" = Ok (c, d).
Proof.
  intros [Ho Hv] Hlo Hhi.
  exists (mk_datetime (ordinal now - 1) 0 0 0 0), (mk_datetime (ordinal now) 0 0 0 0),
    (mk_datetime (ordinal now + 1) 0 0 0 0), (mk_datetime (ordinal now + 2) 0 0 0 0).
  rewrite parse_yesterday, parse_today, parse_tomorrow.
  rewrite (window_of_add now (-1) Hv), (window_of_add now 1 Hv) by lia.
  rewrite window_of_Ok.
  destruct (Z.ltb_spec 0 (ordinal now + 1)); [|lia].
  destruct (Z.leb_spec (ordinal now + 1) MAXORDINAL); [|lia].
  unfold day_window. simpl andb. cbv iota.
  replace (ordinal now + -1) with (ordinal now - 1) by lia.
  replace (ordinal now - 1 + 1) with (ordinal now) by lia.
  replace (ordinal now + 1 + 1) with (ordinal now + 2) by lia.
  repeat split.
Qed.

Lemma neighbouring_days_share_a_midnight_witness :
  exists a b c d,
    parse_relative_date sample_now "yesterday" = Ok (a, b)
    /\ parse_relative_date sample_now "today" = Ok (b, c)
    /\ parse_relative_date sample_now "tomorrow" = Ok (c, d).
Proof.
  apply (neighbouring_days_share_a_midnight sample_now).
  - unfold valid_datetime, valid_time, MAXORDINAL. simpl. lia.
  - simpl. lia.
  - unfold MAXORDINAL. simpl. lia.
Defined.

(** X3. On a day of weekday W, "next week" and the name of W mean the same
    day: both resolve to the day seven days ahead (or both overflow). *)
Theorem next_week_is_the_same_weekday (W : Weekday) (now : datetime) :
  weekday now = weekday_index W ->
  parse_relative_date now "next week"
  = parse_relative_date now (weekday_token W).
Proof.
  intros H. rewrite parse_next_week, parse_weekday_token. unfold next_weekday.
  destruct (days_ahead_least (weekday_index W) now (weekday_index_range W))
    as (_ & _ & _ & H7).
  rewrite (H7 H). reflexivity.
Qed.

Lemma next_week_is_the_same_weekday_witness :
  parse_relative_date sample_now "next week"
  = parse_relative_date sample_now (weekday_token Tuesday).
Proof. apply (next_week_is_the_same_weekday Tuesday sample_now). reflexivity. Defined.

(** X4. Only the date of [now] matters, not its time of day: two clock
    readings on the same day give the same result for every token. *)
Theorem time_of_day_is_irrelevant (now now' : datetime) (s : string) :
  valid_time now -> valid_time now' -> ordinal now = ordinal now' ->
  parse_relative_date now s = parse_relative_date now' s.
Proof.
  intros Hv Hv' Ho.
  assert (forall k, window_of (dt_add now (td_days k))
                    = window_of (dt_add now' (td_days k))) as Hadd.
  { intros k. rewrite (dt_add_days _ _ Hv), (dt_add_days _ _ Hv'), Ho.
    destruct ((0 <? ordinal now' + k) && (ordinal now' + k <=? MAXORDINAL));
      [|reflexivity].
    rewrite !window_of_Ok. reflexivity. }
  assert (window_of (Ok now) = window_of (Ok now')) as Hnow.
  { rewrite !window_of_Ok, Ho. reflexivity. }
  assert (forall i, days_ahead i now = days_ahead i now') as Hd.
  { intros i. unfold days_ahead, weekday. rewrite Ho. reflexivity. }
  unfold parse_relative_date.
  repeat (match goal with
          | |- context [if ?c then _ else _] =>
              lazymatch c with
              | true => fail
              | false => fail
              | _ => destruct c
              end
          end; cbv iota);
    try exact Hnow; try exact (Hadd 1); try exact (Hadd (-1));
    try exact (Hadd 7);
    unfold next_weekday; rewrite Hd; apply Hadd.
Qed.

Lemma time_of_day_is_irrelevant_witness :
  parse_relative_date (mk_datetime 739923 0 0 1 0) "friday"
  = parse_relative_date (mk_datetime 739923 23 59 59 999999) "friday".
Proof.
  apply (time_of_day_is_irrelevant (mk_datetime 739923 0 0 1 0)
           (mk_datetime 739923 23 59 59 999999) "friday").
  - unfold valid_time. simpl. lia.
  - unfold valid_time. simpl. lia.
  - reflexivity.
Defined.

(** X5. The only exception [parse_relative_date] raises on a description
    that is a string is OverflowError, and only when [now] is on the first
    day or within the last eight days that a datetime can hold. *)
Theorem only_the_ends_of_time_overflow (now : datetime) (s : string) (e : exn) :
  valid_datetime now -> parse_relative_date now s = Raise e ->
  e = DateOverflow /\ (ordinal now <= 1 \/ MAXORDINAL <= ordinal now + 7).
Proof.
  intros Hv E. split.
  - destruct Hv as [Ho Hv].
    assert (forall t, window_of t = Raise e ->
                      (t = Raise DateOverflow \/ exists d, t = Ok d) ->
                      e = DateOverflow) as Hw.
    { intros t Ht [->|[d ->]].
      - simpl in Ht. congruence.
      - rewrite window_of_Ok in Ht.
        destruct ((0 <? ordinal d + 1) && (ordinal d + 1 <=? MAXORDINAL));
          congruence. }
    destruct (parse_shape now s) as [Hs | (k & Hk & Hs)]; rewrite Hs in E.
    + apply (Hw _ E). right. eauto.
    + apply (Hw _ E). rewrite (dt_add_days _ _ Hv).
      destruct ((0 <? ordinal now + k) && (ordinal now + k <=? MAXORDINAL));
        [right; eauto|left; reflexivity].
  - destruct (Z.le_gt_cases (ordinal now) 1) as [|Hlo]; [left; assumption|].
    destruct (Z.le_gt_cases MAXORDINAL (ordinal now + 7)) as [|Hhi];
      [right; assumption|].
    destruct (parse_returns now s Hv) as [w Hw]; [lia|lia|]. congruence.
Qed.

Lemma only_the_ends_of_time_overflow_witness :
  DateOverflow = DateOverflow
  /\ (ordinal (mk_datetime 1 8 0 0 0) <= 1
      \/ MAXORDINAL <= ordinal (mk_datetime 1 8 0 0 0) + 7).
Proof.
  apply (only_the_ends_of_time_overflow (mk_datetime 1 8 0 0 0) "yesterday").
  - unfold valid_datetime, valid_time, MAXORDINAL. simpl. lia.
  - vm_compute. reflexivity.
Defined.

(** ** create_calendar_event: what start times are accepted *)

(** X6. The start time is accepted exactly when it consists of two integer
    literals around one colon that are an hour 0..23 and a minute 0..59;
    the start is then the resolved day at that hour and minute. The
    literals are what [int] reads, so white space around a field, a sign
    and underscores between digits are accepted. *)
Theorem accepted_start_times (day_start event_start : datetime) (s : string) :
  start_time_outcome day_start s = Ok event_start
  <-> exists a b hour minute,
        split ":" s = [a; b]
        /\ PyInt.literal a = Some hour /\ PyInt.literal b = Some minute
        /\ 0 <= hour < 24 /\ 0 <= minute < 60
        /\ event_start
           = mk_datetime (ordinal day_start) hour minute (second day_start)
               (microsecond day_start).
Proof.
  unfold start_time_outcome, unpack_hour_minute, PyInt.of_string. split.
  - destruct (split ":" s) as [|a [|b [|c rest]]]; simpl; try discriminate.
    + destruct (PyInt.literal a); discriminate.
    + destruct (PyInt.literal a) as [hour|] eqn:Ea; [|discriminate]. simpl.
      destruct (PyInt.literal b) as [minute|] eqn:Eb; [|discriminate]. simpl.
      unfold replace_hour_minute.
      destruct (fits_c_int hour && fits_c_int minute); [|discriminate]. simpl.
      destruct (Z.leb_spec 0 hour), (Z.ltb_spec hour 24); simpl; try discriminate.
      destruct (Z.leb_spec 0 minute), (Z.ltb_spec minute 60); simpl;
        try discriminate.
      intros E. inversion E. exists a, b, hour, minute. repeat split; assumption.
    + destruct (PyInt.literal a); [|discriminate]. simpl.
      destruct (PyInt.literal b); [|discriminate]. simpl.
      destruct (PyInt.literal c); discriminate.
  - intros (a & b & hour & minute & -> & -> & -> & Hh & Hm & ->). simpl.
    apply replace_hour_minute_in_range; assumption.
Qed.

Example lenient_start_times :
  start_time_outcome sample_now " 9 : 30 " = Ok (mk_datetime 739923 9 30 12 7)
  /\ start_time_outcome sample_now "+9:0_5" = Ok (mk_datetime 739923 9 5 12 7)
  /\ start_time_outcome sample_now "24:00" = Raise (FieldOutOfRange "hour")
  /\ start_time_outcome sample_now "9.30" = Raise (InvalidLiteral "9.30")
  /\ start_time_outcome sample_now "09:30:00" = Raise (UnpackArity 3).
Proof. vm_compute. repeat split. Qed.

Lemma time_us_recompose (us : Z) :
  ((us / 3600000000 * 60 + us / 60000000 mod 60) * 60 + us / 1000000 mod 60)
  * 1000000 + us mod 1000000 = us.
Proof.
  assert (us / 60000000 = us / 1000000 / 60) as E1
    by (rewrite Z.div_div by lia; reflexivity).
  assert (us / 3600000000 = us / 60000000 / 60) as E2
    by (rewrite Z.div_div by lia; reflexivity).
  rewrite E2, E1.
  generalize (us / 1000000) (Z.div_mod us 1000000). intros a Ha.
  Z.div_mod_to_equations. lia.
Qed.

(** [d + td] is exact: where it does not overflow, the result is a valid
    datetime that lies [td] after [d]. *)
Lemma dt_add_exact (d e : datetime) (td : timedelta) :
  dt_add d td = Ok e -> valid_datetime e /\ to_us e = to_us d + td.
Proof.
  unfold dt_add.
  destruct (Z.ltb_spec 0 ((to_us d + td) / US_PER_DAY)); simpl; [|discriminate].
  destruct (Z.leb_spec ((to_us d + td) / US_PER_DAY) MAXORDINAL); simpl;
    [|discriminate].
  intros E. inversion E; subst e; clear E. split.
  - unfold valid_datetime, valid_time. simpl.
    pose proof (Z.mod_pos_bound (to_us d + td) US_PER_DAY eq_refl) as Hb.
    revert Hb. generalize ((to_us d + td) mod US_PER_DAY). intros us Hb.
    unfold US_PER_DAY in Hb.
    repeat split; try assumption; try lia; Z.div_mod_to_equations; lia.
  - unfold to_us at 1, time_us. simpl. rewrite time_us_recompose.
    pose proof (Z.div_mod (to_us d + td) US_PER_DAY) as Hd.
    unfold US_PER_DAY in *. lia.
Qed.

(** X7. When the start time is accepted, nothing is said or called, the
    start is on the resolved day, and the end lies exactly
    [duration_minutes] minutes after the start; the duration is not
    checked, so a negative one puts the end before the start. *)
Theorem accepted_start_time_spans_the_duration (w : World)
    (day_start event_start event_end : datetime) (s : string)
    (duration_minutes : Z) (t t' : list call) :
  parse_start_time w day_start (VStr s) duration_minutes t
  = (t', Ok (inr (event_start, event_end))) ->
  t' = t
  /\ start_time_outcome day_start s = Ok event_start
  /\ ordinal event_start = ordinal day_start
  /\ valid_datetime event_end
  /\ dt_diff event_end event_start = td_minutes duration_minutes
  /\ (duration_minutes < 0 -> dt_lt event_end event_start).
Proof.
  unfold parse_start_time, try_except, bind, lift, perform, await, ret,
    str_method, start_time_outcome, sync.
  cbv beta iota zeta.
  destruct (unpack_hour_minute (split ":" s)) as [[hour minute]|e1];
    cbv beta iota.
  - destruct (replace_hour_minute day_start hour minute) as [es|e2] eqn:Er;
      cbv beta iota.
    + destruct (timedelta_minutes duration_minutes) as [delta|e3] eqn:Ed;
        cbv beta iota.
      * destruct (dt_add es delta) as [ee|e4] eqn:Ea; cbv beta iota.
        -- intros E. inversion E; subst t' event_start event_end; clear E.
           assert (delta = td_minutes duration_minutes) as ->.
           { unfold timedelta_minutes in Ed.
             destruct ((-999999999 <=? duration_minutes / 1440)
                       && (duration_minutes / 1440 <=? 999999999));
               congruence. }
           assert (ordinal es = ordinal day_start) as Ho.
           { unfold replace_hour_minute in Er.
             destruct (fits_c_int hour && fits_c_int minute); [|discriminate].
             simpl in Er.
             destruct (Z.leb_spec 0 hour), (Z.ltb_spec hour 24); simpl in Er;
               try discriminate.
             destruct (Z.leb_spec 0 minute), (Z.ltb_spec minute 60); simpl in Er;
               try discriminate.
             inversion Er. reflexivity. }
           destruct (dt_add_exact _ _ _ Ea) as [Hve Hus].
           unfold dt_diff, dt_lt. rewrite Hus. unfold td_minutes.
           split; [reflexivity|]. split; [exact Er|]. split; [exact Ho|].
           split; [exact Hve|]. split; lia.
        -- destruct (is_ValueError e4); [destruct (result_callback w _)|];
             discriminate.
      * destruct (is_ValueError e3); [destruct (result_callback w _)|];
          discriminate.
    + destruct (is_ValueError e2); [destruct (result_callback w _)|];
        discriminate.
  - destruct (is_ValueError e1); [destruct (result_callback w _)|]; discriminate.
Qed.

Lemma accepted_start_time_spans_the_duration_witness :
  [] = ([] : list call)
  /\ start_time_outcome (mk_datetime 739926 0 0 0 0) "14:00"
     = Ok (mk_datetime 739926 14 0 0 0)
  /\ ordinal (mk_datetime 739926 14 0 0 0) = ordinal (mk_datetime 739926 0 0 0 0)
  /\ valid_datetime (mk_datetime 739926 13 30 0 0)
  /\ dt_diff (mk_datetime 739926 13 30 0 0) (mk_datetime 739926 14 0 0 0)
     = td_minutes (-30)
  /\ (-30 < 0 ->
      dt_lt (mk_datetime 739926 13 30 0 0) (mk_datetime 739926 14 0 0 0)).
Proof.
  apply (accepted_start_time_spans_the_duration (sample_world (Ok tt))
           (mk_datetime 739926 0 0 0 0) (mk_datetime 739926 14 0 0 0)
           (mk_datetime 739926 13 30 0 0) "14:00" (-30) [] []).
  vm_compute. reflexivity.
Defined.

(** ** The tools answer the conversation *)
















(** A client that hangs up while the tool speaks: the CancelledError
    leaves the tool, and nothing was handed to [result_callback]. *)
Example cancelled_tools_do_not_answer :
  run (create_calendar_event hung_up_world
         (confirmed_arguments "Appointment with Jane"))
  = ([PushFrame "Booking your appointment for friday"], Raise CancelledError)
  /\ run (get_calendar_events hung_up_world
            (confirmed_arguments "Appointment with Jane"))
     = ([PushFrame "Let me check the advisor's availability for friday"],
        Raise CancelledError).
Proof. split; vm_compute; reflexivity. Qed.

(** ** create_calendar_event: when the mail service is used *)

Lemma emits_send_nothing (P : call -> Prop) (w : World) (customer_email : pyval) :
  truthy customer_email = false -> emits P (send_confirmation w customer_email).
Proof. intros H. unfold send_confirmation. rewrite H. apply emits_ret. Qed.

Lemma emits_perform_raises {A B} (P : call -> Prop) (c : call) (e : exn)
    (k : A -> M B) :
  P c -> emits P (bind (perform c (Raise e)) k).
Proof.
  intros H. apply emits_bind_ok; [apply emits_perform; exact H|].
  intros t t1 a E. discriminate.
Qed.

(** X9. A confirmation is attempted only for a booking that has an address
    and whose entry the calendar took: if [customer_email] is missing or
    empty, or if the calendar refuses the entry, the function neither
    builds the mail client nor sends anything, in any world. *)
Theorem confirmation_needs_address_and_entry (w : World)
    (arguments : gmap string pyval) :
  truthy (default (VStr "") (arguments !! "customer_email")) = false
  \/ (forall body, exists e, events_insert w body = Raise e) ->
  emits (fun c => mail_call c = false) (create_calendar_event w arguments).
Proof.
  intros H. unfold create_calendar_event.
  emits_step; [|apply emits_report_error; reflexivity].
  emits_step; [emits_step|]. emits_step; [emits_step; reflexivity|].
  emits_step; [emits_step|]. emits_step.
  emits_step; [apply emits_parse_start_time; reflexivity|].
  emits_step; [emits_step|]. emits_step.
  unfold submit_event.
  emits_step; [emits_step; reflexivity|].
  emits_step; [emits_step; reflexivity|].
  destruct H as [H|H].
  - emits_step; [emits_step; reflexivity|].
    emits_step; [apply emits_send_nothing; exact H|].
    emits_step; [emits_step; reflexivity|]. emits_step.
  - cbv zeta.
    match goal with
    | |- context [events_insert w ?body] => destruct (H body) as [e ->]
    end.
    apply emits_perform_raises. reflexivity.
Qed.

Lemma confirmation_needs_address_and_entry_witness :
  emits (fun c => mail_call c = false)
    (create_calendar_event (sample_world (Ok tt)) weekend_night_arguments).
Proof.
  apply (confirmation_needs_address_and_entry (sample_world (Ok tt))
           weekend_night_arguments).
  left. reflexivity.
Defined.

(** X10. A calendar that refuses the entry ends the booking: after the
    refused insert the only call is the report
    "Error creating calendar event: <text of the exception>", which is also
    what the function returns; no confirmation goes out although an
    address was given. *)
Theorem refused_entry_is_reported (w : World) (arguments : gmap string pyval)
    (date start_time : string) (hour minute duration : Z) (e : exn) :
  arguments !! "date_description" = Some (VStr date) ->
  arguments !! "start_time" = Some (VStr start_time) ->
  unpack_hour_minute (split ":" start_time) = Ok (hour, minute) ->
  0 <= hour < 24 -> 0 <= minute < 60 ->
  default (VInt 60) (arguments !! "duration_minutes") = VInt duration ->
  0 <= duration ->
  booking_environment w duration ->
  (forall body, events_insert w body = Raise e) ->
  exists event_start event_end,
    run (create_calendar_event w arguments)
    = ([PushFrame ("Booking your appointment for " +:+ date);
        GetCredentials; Build "calendar";
        CalendarInsert (submitted_event w arguments event_start event_end);
        ResultCallback ("Error creating calendar event: " +:+ exn_text w e)],
       Ok ("Error creating calendar event: " +:+ exn_text w e)).
Proof.
  intros Hdate Hs Hu Hh Hm Hdur Hn Henv Hins.
  assert (default (VStr "today") (arguments !! "date_description") = VStr date)
    as Hdate' by (rewrite Hdate; reflexivity).
  destruct (booking_reaches_submit w arguments date start_time hour minute
              duration Hdate' Hs Hu Hh Hm Hdur Hn Henv)
    as (day_start & day_end & event_end & _ & _ & _ & _ & Hrun).
  destruct Henv as ([_ Hback] & _ & _ & _ & Hcred & Hbuild).
  exists (mk_datetime (ordinal day_start) hour minute 0 0), event_end.
  rewrite Hrun. unfold submit_event, report_error, submitted_event.
  unfold try_except, bind, perform, await, ret, Exception, sync. cbv zeta.
  rewrite Hcred, Hbuild, Hins, Hback. reflexivity.
Qed.

Lemma refused_entry_is_reported_witness :
  exists event_start event_end,
    run (create_calendar_event refusing_world
           (confirmed_arguments "Appointment with Jane"))
    = ([PushFrame ("Booking your appointment for " +:+ "friday");
        GetCredentials; Build "calendar";
        CalendarInsert
          (submitted_event refusing_world
             (confirmed_arguments "Appointment with Jane") event_start event_end);
        ResultCallback
          ("Error creating calendar event: "
           +:+ exn_text refusing_world (External "quota exceeded"))],
       Ok ("Error creating calendar event: "
           +:+ exn_text refusing_world (External "quota exceeded"))).
Proof.
  apply (refused_entry_is_reported refusing_world
           (confirmed_arguments "Appointment with Jane") "friday" "14:00" 14 0 30
           (External "quota exceeded")).
  - reflexivity.
  - reflexivity.
  - vm_compute. reflexivity.
  - lia.
  - lia.
  - reflexivity.
  - lia.
  - unfold booking_environment, conversation_up, valid_datetime, valid_time,
      MAXORDINAL. simpl.
    repeat split; intros; try reflexivity; try lia; discriminate.
  - reflexivity.
Defined.

(** ** The tools without credentials, and with arguments of other types *)

(** X11. When the credentials cannot be obtained, neither tool builds a
    client or makes any call that needs one: nothing is listed, inserted or
    sent. *)
Theorem without_credentials_nothing_is_built (w : World)
    (arguments : gmap string pyval) (e : exn) :
  get_google_credentials w = Raise e ->
  emits (fun c => uses_credentials c = false) (create_calendar_event w arguments)
  /\ emits (fun c => uses_credentials c = false) (get_calendar_events w arguments).
Proof.
  intros H. split.
  - unfold create_calendar_event.
    emits_step; [|apply emits_report_error; reflexivity].
    emits_step; [emits_step|]. emits_step; [emits_step; reflexivity|].
    emits_step; [emits_step|]. emits_step.
    emits_step; [apply emits_parse_start_time; reflexivity|].
    emits_step; [emits_step|]. emits_step.
    unfold submit_event. cbv zeta. rewrite H.
    apply emits_perform_raises. reflexivity.
  - unfold get_calendar_events.
    emits_step; [|repeat emits_step; reflexivity].
    emits_step; [emits_step; reflexivity|].
    emits_step; [emits_step|]. emits_step.
    emits_step; [emits_step|]. emits_step; [emits_step|].
    rewrite H. apply emits_perform_raises. reflexivity.
Qed.

Lemma without_credentials_nothing_is_built_witness :
  emits (fun c => uses_credentials c = false)
    (create_calendar_event locked_out_world weekend_night_arguments)
  /\ emits (fun c => uses_credentials c = false)
       (get_calendar_events locked_out_world weekend_night_arguments).
Proof.
  apply (without_credentials_nothing_is_built locked_out_world
           weekend_night_arguments (External "credentials.json not found")).
  reflexivity.
Defined.

Lemma emits_lift_raises {A B} (P : call -> Prop) (e : exn) (k : A -> M B) :
  emits P (bind (lift (Raise e)) k).
Proof.
  apply emits_bind_ok; [apply emits_lift|]. intros t t1 a E. discriminate.
Qed.

(** X12. A [date_description] that is not a string (a number, a boolean,
    null) is not parsed: both tools stop at the missing [lower] method, and
    none of their calls reaches the credentials, the calendar or the
    mail. *)
Theorem date_of_another_type_is_answered_quietly (w : World)
    (arguments : gmap string pyval) (v : pyval) :
  arguments !! "date_description" = Some v ->
  (forall s, v <> VStr s) ->
  emits quiet (create_calendar_event w arguments)
  /\ emits quiet (get_calendar_events w arguments).
Proof.
  intros Hv Hns.
  assert (str_method "lower" v = Raise (AttributeError "lower")) as Hm.
  { destruct v; try reflexivity. destruct (Hns s eq_refl). }
  split.
  - unfold create_calendar_event. rewrite Hv. simpl default.
    emits_step; [|apply emits_report_error; reflexivity].
    emits_step; [emits_step|]. emits_step; [emits_step; reflexivity|].
    rewrite Hm. apply emits_lift_raises.
  - unfold get_calendar_events. rewrite Hv. simpl default.
    emits_step; [|repeat emits_step; reflexivity].
    emits_step; [emits_step; reflexivity|].
    rewrite Hm. apply emits_lift_raises.
Qed.

Lemma date_of_another_type_is_answered_quietly_witness :
  emits quiet
    (create_calendar_event (sample_world (Ok tt)) {[ "date_description" := VInt 5 ]})
  /\ emits quiet
       (get_calendar_events (sample_world (Ok tt)) {[ "date_description" := VInt 5 ]}).
Proof.
  apply (date_of_another_type_is_answered_quietly (sample_world (Ok tt))
           {[ "date_description" := VInt 5 ]} (VInt 5)).
  - reflexivity.
  - discriminate.
Defined.

(** X13. [duration_minutes] is converted before anything else happens: if
    [int] refuses it (null, or a string that is no integer), the function
    says nothing and books nothing; its only call is the report of
    "Error creating calendar event: <text>", which it returns, even when
    the start time is malformed as well. *)
Theorem duration_is_converted_first (w : World) (arguments : gmap string pyval)
    (e : exn) :
  PyInt.of_val (default (VInt 60) (arguments !! "duration_minutes")) = Raise e ->
  (forall text, result_callback w text = Ok tt) ->
  run (create_calendar_event w arguments)
  = ([ResultCallback ("Error creating calendar event: " +:+ exn_text w e)],
     Ok ("Error creating calendar event: " +:+ exn_text w e)).
Proof.
  intros H Hback. unfold run, create_calendar_event, report_error.
  unfold try_except, bind, lift, perform, await, ret, Exception, sync. cbv zeta.
  rewrite H, Hback. reflexivity.
Qed.

Lemma duration_is_converted_first_witness :
  run (create_calendar_event (sample_world (Ok tt))
         (<["duration_minutes" := VStr "half an hour"]>
            {[ "start_time" := VStr "9am" ]}))
  = ([ResultCallback
        ("Error creating calendar event: "
         +:+ exn_text (sample_world (Ok tt)) (InvalidLiteral "half an hour"))],
     Ok ("Error creating calendar event: "
         +:+ exn_text (sample_world (Ok tt)) (InvalidLiteral "half an hour"))).
Proof.
  apply (duration_is_converted_first (sample_world (Ok tt))
           (<["duration_minutes" := VStr "half an hour"]>
              {[ "start_time" := VStr "9am" ]})
           (InvalidLiteral "half an hour")).
  - vm_compute. reflexivity.
  - reflexivity.
Defined.

(** ** get_calendar_events: the loop without assumptions on the entries *)

Lemma listable_times (event : raw_event) :
  listable event = true ->
  exists s e, time_of_day (raw_start event) = Some s
              /\ time_of_day (raw_end event) = Some e.
Proof.
  unfold listable. intros H. apply andb_true_iff in H as [Hs He].
  destruct (time_of_day (raw_start event)); [|discriminate].
  destruct (time_of_day (raw_end event)); [|discriminate]. eauto.
Qed.

Lemma filter_loop_listable (w : World) (events : list raw_event) :
  Forall (fun event => listable event = true -> convertible w event) events ->
  forall acc, exists listed,
    filter_loop w events acc = Ok (acc ++ listed)
    /\ Forall2 (renders w) (List.filter listable events) listed.
Proof.
  induction 1 as [|event rest Hok _ IH]; intros acc.
  - exists []. simpl. rewrite app_nil_r. split; [reflexivity|constructor].
  - cbn [filter_loop List.filter]. fold (time_of_day (raw_start event)).
    fold (time_of_day (raw_end event)). fold (listable event).
    destruct (listable event) eqn:El; [|apply IH].
    destruct (Hok eq_refl) as (a & b & Ha & Hb). rewrite Ha, Hb. simpl res_bind.
    destruct (IH (acc ++ [mk_listed_event
                            (default "Untitled Event" (raw_summary event)) a b]))
      as (listed & E & HF).
    exists (mk_listed_event (default "Untitled Event" (raw_summary event)) a b
            :: listed).
    rewrite E, <- app_assoc. split; [reflexivity|].
    constructor; [|exact HF].
    destruct (listable_times event El) as (s & e & Hs & He).
    rewrite Hs in Ha. rewrite He in Hb. unfold renders. simpl.
    split; [reflexivity|]. split; eexists; split; eassumption.
Qed.

(** X14. What decides whether an entry is listed is that both its
    'dateTime' values are present and not empty. Entries that fail this
    test are skipped without being looked at further, so nothing they
    contain can make the loop fail; if the entries that pass it can be
    converted, the loop returns their renderings in order, never more
    than it was given. *)
Theorem listing_rule_is_truthiness (w : World) (events : list raw_event) :
  Forall (fun event => listable event = true -> convertible w event) events ->
  exists listed,
    filter_loop w events [] = Ok listed
    /\ Forall2 (renders w) (List.filter listable events) listed
    /\ (length listed <= length events)%nat
    /\ (forall event, listable event = true
         <-> exists s e, time_of_day (raw_start event) = Some s
                         /\ time_of_day (raw_end event) = Some e
                         /\ s <> "" /\ e <> "").
Proof.
  intros H. destruct (filter_loop_listable w events H []) as (listed & E & HF).
  exists listed. split; [exact E|]. split; [exact HF|]. split.
  - rewrite <- (Forall2_length _ _ _ HF). apply filter_length_le.
  - intros event. unfold listable, truthy_str. split.
    + intros Hl. apply andb_true_iff in Hl as [Hs He].
      destruct (time_of_day (raw_start event)) as [s|]; [|discriminate].
      destruct (time_of_day (raw_end event)) as [e|]; [|discriminate].
      exists s, e. repeat split.
      * intros ->. discriminate.
      * intros ->. discriminate.
    + intros (s & e & -> & -> & Hs & He).
      destruct (String.eqb_spec s ""); [contradiction|].
      destruct (String.eqb_spec e ""); [contradiction|]. reflexivity.
Qed.

Lemma listing_rule_is_truthiness_witness :
  exists listed,
    filter_loop garbled_world
      [all_day_entry; garbled_entry_free; timed_entry] [] = Ok listed
    /\ Forall2 (renders garbled_world)
         (List.filter listable [all_day_entry; garbled_entry_free; timed_entry])
         listed
    /\ (length listed <= length [all_day_entry; garbled_entry_free; timed_entry])%nat
    /\ (forall event, listable event = true
         <-> exists s e, time_of_day (raw_start event) = Some s
                         /\ time_of_day (raw_end event) = Some e
                         /\ s <> "" /\ e <> "").
Proof.
  apply (listing_rule_is_truthiness garbled_world
           [all_day_entry; garbled_entry_free; timed_entry]).
  constructor; [|constructor; [|constructor; [|constructor]]];
    intros Hl; try discriminate Hl; eexists _, _; split; vm_compute; reflexivity.
Defined.

Lemma filter_loop_app (w : World) (before rest : list raw_event)
    (acc : list listed_event) :
  filter_loop w (before ++ rest) acc
  = (try! mid <- filter_loop w before acc; filter_loop w rest mid).
Proof.
  revert acc. induction before as [|event before IH]; intros acc; [reflexivity|].
  cbn [app filter_loop].
  destruct (truthy_str (default ∅ (raw_start event) !! "dateTime")
            && truthy_str (default ∅ (raw_end event) !! "dateTime")); [|apply IH].
  destruct (local_12h w _) as [a|]; [|reflexivity]. simpl res_bind.
  destruct (local_12h w _) as [b|]; [|reflexivity]. simpl res_bind. apply IH.
Qed.

Lemma filter_loop_raises (w : World) (event : raw_event) (rest : list raw_event)
    (acc : list listed_event) (e : exn) :
  listable event = true -> conversion_raises w event e ->
  filter_loop w (event :: rest) acc = Raise e.
Proof.
  intros Hl Hr. cbn [filter_loop]. fold (time_of_day (raw_start event)).
  fold (time_of_day (raw_end event)). fold (listable event). rewrite Hl.
  destruct Hr as [-> | [[a ->] ->]]; reflexivity.
Qed.

(** X15. One timestamp that cannot be converted spoils the whole listing:
    if the conversion raises on an entry that passes the test, whatever
    was rendered before it is dropped and the entries after it are not
    looked at; the loop raises, and the tool reports and returns
    "Error retrieving calendar events: <text>" instead of a list. *)
Theorem one_bad_timestamp_fails_the_listing (w : World)
    (before after : list raw_event) (bad : raw_event) (e : exn) :
  Forall (fun event => listable event = true -> convertible w event) before ->
  listable bad = true -> conversion_raises w bad e ->
  filter_loop w (before ++ bad :: after) [] = Raise e
  /\ (forall arguments date,
        default (VStr "today") (arguments !! "date_description") = VStr date ->
        conversation_up w -> clock_in_range w ->
        (forall d, exists s, utc_iso w d = Ok s) ->
        get_google_credentials w = Ok tt -> build w "calendar" = Ok tt ->
        events_list w = Ok (before ++ bad :: after) ->
        exists time_min time_max,
          run (get_calendar_events w arguments)
          = ([PushFrame ("Let me check the advisor's availability for " +:+ date);
              GetCredentials; Build "calendar";
              CalendarList time_min time_max 50;
              ResultCallback
                ("Error retrieving calendar events: " +:+ exn_text w e)],
             Ok ("Error retrieving calendar events: " +:+ exn_text w e))).
Proof.
  intros Hb Hl Hr.
  assert (filter_loop w (before ++ bad :: after) [] = Raise e) as Hloop.
  { rewrite filter_loop_app.
    destruct (filter_loop_listable w before Hb []) as (listed & -> & _).
    simpl res_bind. apply filter_loop_raises; assumption. }
  split; [exact Hloop|].
  intros arguments date Hdate [Hpush Hback] (Hv & Hlo & Hhi) Hiso Hcred Hbuild Hlist.
  destruct (parse_returns (now w) date Hv Hlo Hhi) as [[day_start day_end] Hp].
  destruct (Hiso day_start) as [time_min Hmin].
  destruct (Hiso day_end) as [time_max Hmax].
  exists time_min, time_max.
  unfold run, get_calendar_events. rewrite Hdate.
  unfold try_except, bind, lift, perform, await, ret, str_method, Exception, sync.
  cbv beta iota zeta. simpl res_bind. simpl py_str.
  rewrite Hpush, Hp. cbv beta iota.
  rewrite Hmin, Hmax, Hcred, Hbuild, Hlist, Hloop. simpl app. cbv beta iota.
  rewrite Hback. reflexivity.
Qed.

Lemma one_bad_timestamp_fails_the_listing_witness :
  filter_loop garbled_world ([timed_entry] ++ garbled_entry :: [timed_entry]) []
  = Raise (InvalidLiteral "noon")
  /\ (forall arguments date,
        default (VStr "today") (arguments !! "date_description") = VStr date ->
        conversation_up garbled_world -> clock_in_range garbled_world ->
        (forall d, exists s, utc_iso garbled_world d = Ok s) ->
        get_google_credentials garbled_world = Ok tt ->
        build garbled_world "calendar" = Ok tt ->
        events_list garbled_world
        = Ok ([timed_entry] ++ garbled_entry :: [timed_entry]) ->
        exists time_min time_max,
          run (get_calendar_events garbled_world arguments)
          = ([PushFrame ("Let me check the advisor's availability for " +:+ date);
              GetCredentials; Build "calendar";
              CalendarList time_min time_max 50;
              ResultCallback
                ("Error retrieving calendar events: "
                 +:+ exn_text garbled_world (InvalidLiteral "noon"))],
             Ok ("Error retrieving calendar events: "
                 +:+ exn_text garbled_world (InvalidLiteral "noon")))).
Proof.
  apply (one_bad_timestamp_fails_the_listing garbled_world [timed_entry]
           [timed_entry] garbled_entry (InvalidLiteral "noon")).
  - constructor; [|constructor]. intros _. eexists _, _.
    split; vm_compute; reflexivity.
  - reflexivity.
  - left. vm_compute. reflexivity.
Defined.

Example garbled_listing :
  run (get_calendar_events garbled_world ∅)
  = ([PushFrame "Let me check the advisor's availability for today";
      GetCredentials; Build "calendar";
      CalendarList "2026-11-03T00:00:00Z" "2026-11-04T00:00:00Z" 50;
      ResultCallback
        "Error retrieving calendar events: Invalid isoformat string: noon"],
     Ok "Error retrieving calendar events: Invalid isoformat string: noon").
Proof. vm_compute. reflexivity. Qed.

(** ** get_google_credentials *)

(** X16. Without usable stored credentials (no token file, or one whose
    credentials are neither valid nor refreshable) and without the client
    secrets file, the function raises FileNotFoundError with the message
    that names the path looked at; no flow is started and nothing is
    written. *)
Theorem missing_setup_is_file_not_found (h : Auth.Host)
    (files : gmap string string) :
  files !! Auth.credentials_path h = None ->
  (files !! Auth.token_path h = None
   \/ exists content c,
        files !! Auth.token_path h = Some content
        /\ Auth.from_authorized_user_file h content = Ok c
        /\ Auth.valid c = false
        /\ Auth.expired c && Auth.has_refresh_token c = false) ->
  Auth.get_google_credentials h files
  = (files, [],
     Auth.Failed
       (Auth.FileNotFoundError
          ("Google credentials file not found at " +:+ Auth.credentials_path h
           +:+ ". Please set GOOGLE_CREDENTIALS_PATH in your .env file or place credentials.json in the project root."))).
Proof.
  intros Hsecrets Htoken. unfold Auth.get_google_credentials, Auth.authorise.
  destruct Htoken as [-> | (content & c & -> & Hload & Hvalid & Hrefresh)].
  - rewrite Hsecrets. reflexivity.
  - rewrite Hload. cbv beta iota zeta delta [res_bind].
    rewrite Hvalid, Hrefresh, Hsecrets. reflexivity.
Qed.

Lemma missing_setup_is_file_not_found_witness :
  Auth.get_google_credentials Auth.sample_host ∅
  = (∅, [],
     Auth.Failed
       (Auth.FileNotFoundError
          ("Google credentials file not found at "
           +:+ Auth.credentials_path Auth.sample_host
           +:+ ". Please set GOOGLE_CREDENTIALS_PATH in your .env file or place credentials.json in the project root."))).
Proof.
  apply (missing_setup_is_file_not_found Auth.sample_host ∅).
  - reflexivity.
  - left. reflexivity.
Defined.

(** What the block leaves in the file is a part of the text, from its
    beginning; it is all of the text when the block goes through. *)
Lemma write_token_cases (h : Auth.Host) (creds : Auth.credentials) :
  (exists n e, Auth.write_token h creds
               = (Stdlib.Strings.String.substring 0 n (Auth.to_json creds), Some e))
  \/ Auth.write_token h creds = (Auth.to_json creds, None).
Proof.
  unfold Auth.write_token.
  destruct (Auth.to_json_error h creds) as [e|].
  - left. exists 0%nat, e. destruct (Auth.to_json creds); reflexivity.
  - destruct (Auth.write_error h (Auth.to_json creds)) as [[n e]|]; eauto.
Qed.

Lemma save_cases (h : Auth.Host) (files : gmap string string)
    (steps : list Auth.step) (creds : Auth.credentials) :
  (exists f, Auth.save h files steps creds = (files, steps, Auth.Failed f))
  \/ (exists n f,
        Auth.save h files steps creds
        = (<[Auth.token_path h
             := Stdlib.Strings.String.substring 0 n (Auth.to_json creds)]> files,
           steps ++ [Auth.WriteToken (Auth.token_path h)
                       (Stdlib.Strings.String.substring 0 n (Auth.to_json creds))],
           Auth.Failed f))
  \/ Auth.save h files steps creds
     = (<[Auth.token_path h := Auth.to_json creds]> files,
        steps ++ [Auth.WriteToken (Auth.token_path h) (Auth.to_json creds)],
        Auth.Done creds).
Proof.
  unfold Auth.save.
  destruct (Auth.open_for_writing h (Auth.token_path h)); [|eauto].
  destruct (write_token_cases h creds) as [(n & e & ->)| ->]; eauto.
Qed.

(** The outcomes of a call, one by one: it fails before the token file is
    opened, or it fails while the file is open, or it returns the stored
    credentials, or it returns what it stored. *)
Lemma get_google_credentials_cases (h : Auth.Host) (files : gmap string string) :
  (exists steps f, Auth.get_google_credentials h files = (files, steps, Auth.Failed f))
  \/ (exists c first n f,
        Auth.get_google_credentials h files
        = (<[Auth.token_path h
             := Stdlib.Strings.String.substring 0 n (Auth.to_json c)]> files,
           [first; Auth.WriteToken (Auth.token_path h)
                     (Stdlib.Strings.String.substring 0 n (Auth.to_json c))],
           Auth.Failed f)
        /\ (first = Auth.Refresh \/ first = Auth.RunLocalServer))
  \/ (exists c, Auth.get_google_credentials h files = (files, [], Auth.Done c)
                /\ Auth.valid c = true
                /\ exists content, files !! Auth.token_path h = Some content
                                   /\ Auth.from_authorized_user_file h content = Ok c)
  \/ (exists c first,
        Auth.get_google_credentials h files
        = (<[Auth.token_path h := Auth.to_json c]> files,
           [first; Auth.WriteToken (Auth.token_path h) (Auth.to_json c)],
           Auth.Done c)
        /\ (first = Auth.Refresh \/ first = Auth.RunLocalServer)).
Proof.
  set (stored X :=
         (exists c first n f,
            X = (<[Auth.token_path h
                   := Stdlib.Strings.String.substring 0 n (Auth.to_json c)]> files,
                 [first; Auth.WriteToken (Auth.token_path h)
                           (Stdlib.Strings.String.substring 0 n (Auth.to_json c))],
                 Auth.Failed f)
            /\ (first = Auth.Refresh \/ first = Auth.RunLocalServer))
         \/ (exists c first,
               X = (<[Auth.token_path h := Auth.to_json c]> files,
                    [first; Auth.WriteToken (Auth.token_path h) (Auth.to_json c)],
                    Auth.Done c)
               /\ (first = Auth.Refresh \/ first = Auth.RunLocalServer))).
  assert (forall first, first = Auth.Refresh \/ first = Auth.RunLocalServer ->
          forall c,
            (exists steps f, Auth.save h files [first] c = (files, steps, Auth.Failed f))
            \/ stored (Auth.save h files [first] c)) as Hsave.
  { intros first Hf c.
    destruct (save_cases h files [first] c) as [[f ->]|[(n & f & ->)| ->]].
    - left. eauto.
    - right. left. exists c, first, n, f. split; [reflexivity|exact Hf].
    - right. right. exists c, first. split; [reflexivity|exact Hf]. }
  assert ((exists steps f, Auth.authorise h files = (files, steps, Auth.Failed f))
          \/ stored (Auth.authorise h files)) as Hauth.
  { unfold Auth.authorise.
    destruct (files !! Auth.credentials_path h) as [secrets|]; [|left; eauto].
    destruct (Auth.from_client_secrets_file h secrets) as [flow|]; [|left; eauto].
    destruct (Auth.run_local_server h flow) as [c|]; [|left; eauto].
    apply (Hsave Auth.RunLocalServer (or_intror eq_refl) c). }
  assert (forall X,
            (exists steps f, X = (files, steps, Auth.Failed f)) \/ stored X ->
            (exists steps f, X = (files, steps, Auth.Failed f))
            \/ (exists c first n f,
                  X = (<[Auth.token_path h
                         := Stdlib.Strings.String.substring 0 n (Auth.to_json c)]> files,
                       [first; Auth.WriteToken (Auth.token_path h)
                                 (Stdlib.Strings.String.substring 0 n (Auth.to_json c))],
                       Auth.Failed f)
                  /\ (first = Auth.Refresh \/ first = Auth.RunLocalServer))
            \/ (exists c, X = (files, [], Auth.Done c)
                          /\ Auth.valid c = true
                          /\ exists content,
                               files !! Auth.token_path h = Some content
                               /\ Auth.from_authorized_user_file h content = Ok c)
            \/ (exists c first,
                  X = (<[Auth.token_path h := Auth.to_json c]> files,
                       [first; Auth.WriteToken (Auth.token_path h) (Auth.to_json c)],
                       Auth.Done c)
                  /\ (first = Auth.Refresh \/ first = Auth.RunLocalServer))) as Hfold.
  { intros X [H|[H|H]]; [left|right; left|right; right; right]; exact H. }
  unfold Auth.get_google_credentials.
  destruct (files !! Auth.token_path h) as [content|] eqn:Et;
    [|apply Hfold; exact Hauth].
  destruct (Auth.from_authorized_user_file h content) as [c|] eqn:El;
    cbv beta iota zeta delta [res_bind]; [|left; eauto].
  destruct (Auth.valid c) eqn:Ev.
  - right. right. left. exists c. split; [reflexivity|]. split; [exact Ev|]. eauto.
  - destruct (Auth.expired c && Auth.has_refresh_token c).
    + destruct (Auth.refresh h c) as [c'|]; [|left; eauto].
      apply Hfold. exact (Hsave Auth.Refresh (or_introl eq_refl) c').
    + apply Hfold. exact Hauth.
Qed.


(** X18. Credentials once obtained are found again: after a call that
    returned valid credentials, on a host that reads credentials back from
    the JSON it wrote, the next call returns the same credentials from the
    token file, without refreshing, authorising or writing. *)
Theorem next_call_uses_the_token_file (h : Auth.Host)
    (files files' : gmap string string) (steps : list Auth.step)
    (c : Auth.credentials) :
  Auth.get_google_credentials h files = (files', steps, Auth.Done c) ->
  Auth.valid c = true ->
  Auth.from_authorized_user_file h (Auth.to_json c) = Ok c ->
  Auth.get_google_credentials h files' = (files', [], Auth.Done c).
Proof.
  intros E Hv Hload.
  destruct (get_google_credentials_cases h files)
    as [(steps0 & f & E0)
       |[(c0 & first & n & f & E0 & _)
        |[(c0 & E0 & _ & _)|(c0 & first & E0 & _)]]];
    rewrite E0 in E; inversion E; subst.
  - exact E0.
  - unfold Auth.get_google_credentials.
    rewrite lookup_insert_eq, Hload. cbv beta iota zeta delta [res_bind].
    rewrite Hv. reflexivity.
Qed.

Lemma next_call_uses_the_token_file_witness :
  Auth.get_google_credentials Auth.sample_host
    (<["token.json" := "fresh.json"]> {[ "token.json" := "stale.json" ]})
  = (<["token.json" := "fresh.json"]> {[ "token.json" := "stale.json" ]}, [],
     Auth.Done Auth.fresh).
Proof.
  apply (next_call_uses_the_token_file Auth.sample_host
           {[ "token.json" := "stale.json" ]}
           (<["token.json" := "fresh.json"]> {[ "token.json" := "stale.json" ]})
           [Auth.Refresh; Auth.WriteToken "token.json" "fresh.json"] Auth.fresh).
  - reflexivity.
  - reflexivity.
  - reflexivity.
Defined.


(** A refresh on a full disk: the call fails, and the stored token, which
    could still be refreshed, is replaced by an empty file that the next
    call cannot read. *)
Example failed_save_empties_the_token_file :
  Auth.get_google_credentials Auth.full_disk_host {[ "token.json" := "stale.json" ]}
  = ({[ "token.json" := "" ]},
     [Auth.Refresh; Auth.WriteToken "token.json" ""],
     Auth.Failed (Auth.Raised (External "No space left on device")))
  /\ Auth.get_google_credentials Auth.full_disk_host {[ "token.json" := "" ]}
     = ({[ "token.json" := "" ]}, [],
        Auth.Failed (Auth.Raised (InvalidLiteral ""))).
Proof.
  split.
  - unfold Auth.get_google_credentials, Auth.save, Auth.write_token.
    rewrite lookup_singleton_eq. cbn. rewrite insert_singleton_eq. reflexivity.
  - unfold Auth.get_google_credentials. rewrite lookup_singleton_eq. reflexivity.
Qed.

(** ** get_gmail_emails *)

Lemma fetch_prefix (inbox : Mail.Inbox) (before : list string) :
  Forall (Mail.complete inbox) before ->
  forall rest acc t, exists emails,
    Mail.fetch inbox (before ++ rest) acc t
    = Mail.fetch inbox rest (acc ++ emails) (t ++ map Mail.MessagesGet before)
    /\ Forall2 (fun id e => exists m, Mail.messages_get inbox id = Ok m
                                      /\ Mail.rendered m e) before emails.
Proof.
  induction 1 as [|id before (m & subject & sender & Hm & Hs & Hf) _ IH];
    intros rest acc t.
  - exists []. simpl. rewrite !app_nil_r. split; [reflexivity|constructor].
  - cbn [app Mail.fetch]. rewrite Hm, Hs, Hf.
    destruct (IH rest (acc ++ [Mail.mk_email (Mail.snippet m) subject sender])
                (t ++ [Mail.MessagesGet id])) as (emails & E & HF).
    exists (Mail.mk_email (Mail.snippet m) subject sender :: emails).
    rewrite E. cbn [map]. rewrite <- !app_assoc. split; [reflexivity|].
    constructor; [|exact HF]. exists m. split; [exact Hm|].
    unfold Mail.rendered. simpl. repeat split; assumption.
Qed.

(** X19. When the inbox can be read and every listed message has a Subject
    and a From header, the tool fetches each listed message exactly once,
    in the order of the list, and returns (and reports) the JSON of one
    email per message, in the same order: its snippet, the value of its
    first Subject header and the value of its first From header. *)
Theorem every_listed_message_is_fetched_once (w : World) (inbox : Mail.Inbox)
    (message_ids : list string) :
  push_frame w "Let me check your inbox" = Ok tt ->
  get_google_credentials w = Ok tt -> build w "gmail" = Ok tt ->
  (forall text, result_callback w text = Ok tt) ->
  Mail.messages_list inbox = Ok message_ids ->
  Forall (Mail.complete inbox) message_ids ->
  exists emails,
    Forall2 (fun id e => exists m, Mail.messages_get inbox id = Ok m
                                   /\ Mail.rendered m e) message_ids emails
    /\ Mail.get_gmail_emails w inbox []
       = ([Mail.Shared (PushFrame "Let me check your inbox");
           Mail.Shared GetCredentials; Mail.Shared (Build "gmail");
           Mail.MessagesList 2]
          ++ map Mail.MessagesGet message_ids
          ++ [Mail.Shared (ResultCallback (Mail.dumps emails))],
          Ok (Mail.dumps emails)).
Proof.
  intros Hpush Hcred Hbuild Hback Hlist Hok.
  destruct (fetch_prefix inbox message_ids Hok [] []
              [Mail.Shared (PushFrame "Let me check your inbox");
               Mail.Shared GetCredentials; Mail.Shared (Build "gmail");
               Mail.MessagesList 2]) as (emails & E & HF).
  rewrite app_nil_r in E. cbn [Mail.fetch] in E.
  exists emails. split; [exact HF|].
  unfold Mail.get_gmail_emails, Mail.body, Mail.attempt, Mail.await.
  rewrite Hpush, Hcred, Hbuild, Hlist. cbn [app].
  cbn [app] in E. rewrite E. cbv zeta. rewrite Hback. reflexivity.
Qed.

(** X20. A listed message without a Subject header, or without a From
    header, fails the whole call: the messages before it were fetched, it
    is fetched, none after it is, no email is returned, and the tool
    reports and returns "Error retrieving Gmail emails: " followed by
    nothing, the text of a StopIteration being empty. *)
Theorem message_without_header_fails_the_call (w : World) (inbox : Mail.Inbox)
    (before after : list string) (bad : string) :
  push_frame w "Let me check your inbox" = Ok tt ->
  get_google_credentials w = Ok tt -> build w "gmail" = Ok tt ->
  (forall text, result_callback w text = Ok tt) ->
  Mail.messages_list inbox = Ok (before ++ bad :: after) ->
  Forall (Mail.complete inbox) before ->
  Mail.headless inbox bad ->
  Mail.get_gmail_emails w inbox []
  = ([Mail.Shared (PushFrame "Let me check your inbox");
      Mail.Shared GetCredentials; Mail.Shared (Build "gmail");
      Mail.MessagesList 2]
     ++ map Mail.MessagesGet (before ++ [bad])
     ++ [Mail.Shared (ResultCallback "Error retrieving Gmail emails: ")],
     Ok "Error retrieving Gmail emails: ").
Proof.
  intros Hpush Hcred Hbuild Hback Hlist Hok (m & Hm & Hh).
  destruct (fetch_prefix inbox before Hok (bad :: after) []
              [Mail.Shared (PushFrame "Let me check your inbox");
               Mail.Shared GetCredentials; Mail.Shared (Build "gmail");
               Mail.MessagesList 2]) as (emails & E & _).
  assert (exists t,
             Mail.fetch inbox (before ++ bad :: after) []
               [Mail.Shared (PushFrame "Let me check your inbox");
                Mail.Shared GetCredentials; Mail.Shared (Build "gmail");
                Mail.MessagesList 2]
             = (t, inl Mail.StopIteration)
             /\ t = [Mail.Shared (PushFrame "Let me check your inbox");
                     Mail.Shared GetCredentials; Mail.Shared (Build "gmail");
                     Mail.MessagesList 2]
                    ++ map Mail.MessagesGet (before ++ [bad])) as (t & Ef & Et).
  { eexists. rewrite E. cbn [Mail.fetch]. rewrite Hm.
    split.
    - destruct Hh as [-> | Hf]; [reflexivity|].
      destruct (Mail.first_header "Subject" (Mail.headers m)); [rewrite Hf|];
        reflexivity.
    - rewrite map_app, <- !app_assoc. reflexivity. }
  unfold Mail.get_gmail_emails, Mail.body, Mail.attempt, Mail.await.
  rewrite Hpush, Hcred, Hbuild, Hlist. cbn [app].
  cbn [app] in Ef. rewrite Ef. cbv zeta. cbn [Mail.text].
  rewrite Hback, Et. cbn [app]. reflexivity.
Qed.

Lemma every_listed_message_is_fetched_once_witness :
  exists emails,
    Forall2 (fun id e => exists m, Mail.messages_get
                                     (Mail.mk_Inbox (Ok ["m3"; "m1"])
                                        (Mail.messages_get Mail.sample_inbox)) id
                                   = Ok m
                                   /\ Mail.rendered m e) ["m3"; "m1"] emails
    /\ Mail.get_gmail_emails (sample_world (Ok tt))
         (Mail.mk_Inbox (Ok ["m3"; "m1"]) (Mail.messages_get Mail.sample_inbox)) []
       = ([Mail.Shared (PushFrame "Let me check your inbox");
           Mail.Shared GetCredentials; Mail.Shared (Build "gmail");
           Mail.MessagesList 2]
          ++ map Mail.MessagesGet ["m3"; "m1"]
          ++ [Mail.Shared (ResultCallback (Mail.dumps emails))],
          Ok (Mail.dumps emails)).
Proof.
  apply (every_listed_message_is_fetched_once (sample_world (Ok tt))
           (Mail.mk_Inbox (Ok ["m3"; "m1"]) (Mail.messages_get Mail.sample_inbox))
           ["m3"; "m1"]).
  - reflexivity.
  - reflexivity.
  - reflexivity.
  - reflexivity.
  - reflexivity.
  - constructor; [|constructor; [|constructor]];
      eexists _, _, _; repeat split; vm_compute; reflexivity.
Defined.

Lemma message_without_header_fails_the_call_witness :
  Mail.get_gmail_emails (sample_world (Ok tt)) Mail.sample_inbox []
  = ([Mail.Shared (PushFrame "Let me check your inbox");
      Mail.Shared GetCredentials; Mail.Shared (Build "gmail");
      Mail.MessagesList 2]
     ++ map Mail.MessagesGet (["m1"] ++ ["m2"])
     ++ [Mail.Shared (ResultCallback "Error retrieving Gmail emails: ")],
     Ok "Error retrieving Gmail emails: ").
Proof.
  apply (message_without_header_fails_the_call (sample_world (Ok tt))
           Mail.sample_inbox ["m1"] ["m3"] "m2").
  - reflexivity.
  - reflexivity.
  - reflexivity.
  - reflexivity.
  - reflexivity.
  - constructor; [|constructor].
    eexists _, _, _; repeat split; vm_compute; reflexivity.
  - eexists. split; [vm_compute; reflexivity|]. left. reflexivity.
Defined.

Example first_subject_wins :
  (Mail.get_gmail_emails (sample_world (Ok tt))
     (Mail.mk_Inbox (Ok ["m1"]) (Mail.messages_get Mail.sample_inbox)) []).2
  = Ok (Mail.dumps [Mail.mk_email "This week in tax law" "Newsletter"
                      "news@example.com"]).
Proof. vm_compute. reflexivity. Qed.





(** A client that hangs up while the tool speaks: nothing is fetched and
    nothing is handed to [result_callback]. *)
Example cancelled_mail_tool_does_not_answer :
  Mail.get_gmail_emails hung_up_world Mail.sample_inbox []
  = ([Mail.Shared (PushFrame "Let me check your inbox")], Raise CancelledError).
Proof. reflexivity. Qed.
